(** * Alilou-for-Coins: the URL resolution, caching and batch-link pipeline

  A shallow embedding of [cache_manager.py], [url_processor.py],
  [aliexpress_client.py], [offers.py], [constants.py] and of the part of
  [telegram_bot.py] that prepares the tasks of a message, with the
  properties of the specification that concern them and further
  properties of the code.

  Conventions of the embedding.
  - A Python [str] is a Rocq [string]; the characters are those of the
    8-bit range, so only the ASCII fragment of Python's text is covered.
  - [time.time()] is read as an exact number of clock ticks ([Z]); the
    rounding of floating-point subtraction is not modelled.
  - A Python [dict] used as a map is a [gmap]; every [async] method is
    run as one uninterrupted task (the [asyncio.Lock] of a cache is held
    for a whole method, and no other task is interleaved).
  - Logging has no effect on the results and is left out, but for the
    expiry date that two log lines print: computing it can raise.
  - [datetime.now()] is read as a date and a time of day; every call is a
    reading of its own. *)

From Stdlib Require Import ZArith Ascii String List Bool.
From Stdlib Require Import Floats.PrimFloat.
From stdpp Require Import gmap strings list fin_maps.

Local Open Scope Z_scope.
#[local] Set Warnings "-register-all".

(** ** cache_manager.py *)

Module CacheManager.

Section CacheWithExpiry.
Context {K : Type} `{Countable K} {V : Type}.

(** [self.cache]: key -> (item, timestamp); [self.expiry_seconds]. *)
Record CacheWithExpiry := mkCache {
  cache : gmap K (V * Z);
  expiry_seconds : Z
}.

Definition with_cache (c : CacheWithExpiry) (m : gmap K (V * Z)) :=
  {| cache := m; expiry_seconds := expiry_seconds c |}.

(** [async def get(self, key)], the clock reading passed as [now].
    [None] stands for the [None] that a miss returns; the item of a fresh
    entry is returned as [Some] of it, also when the item is Python's
    [None]. *)
Definition get (now : Z) (key : K) (c : CacheWithExpiry)
  : option V * CacheWithExpiry :=
  match cache c !! key with
  | Some (item, timestamp) =>
      if now - timestamp <? expiry_seconds c
      then (Some item, c)
      else (None, with_cache c (delete key (cache c)))
  | None => (None, c)
  end.

(** [async def set(self, key, value)]. *)
Definition set (now : Z) (key : K) (value : V) (c : CacheWithExpiry)
  : CacheWithExpiry :=
  with_cache c (<[key := (value, now)]> (cache c)).

Definition is_expired (now ttl : Z) (e : K * (V * Z)) : bool :=
  ttl <=? now - snd (snd e).

(** The list comprehension of [clear_expired]. *)
Definition expired_keys (now : Z) (c : CacheWithExpiry) : list K :=
  (List.filter (is_expired now (expiry_seconds c)) (map_to_list (cache c))).*1.

(** One turn of the deletion loop: [del self.cache[key]; count += 1],
    a [KeyError] being swallowed. *)
Definition del_step (acc : Z * gmap K (V * Z)) (key : K) :=
  match snd acc !! key with
  | Some _ => (fst acc + 1, delete key (snd acc))
  | None => acc
  end.

(** [async def clear_expired(self) -> int]. *)
Definition clear_expired (now : Z) (c : CacheWithExpiry)
  : Z * CacheWithExpiry :=
  let r := foldl del_step (0, cache c) (expired_keys now c) in
  (fst r, with_cache c (snd r)).

End CacheWithExpiry.

Arguments CacheWithExpiry K {_ _} V.

End CacheManager.

(** ** Python values and built-in operations used by the sources *)

Module Py.

(** The exceptions that the modelled code can meet. *)
Inductive exn :=
| TypeError | AttributeError | KeyError | IndexError | ValueError
| OverflowError | ReError | TimeoutError | ClientError | OtherError.

(** The outcome of a Python call: a value returned or an exception raised. *)
Inductive result (A : Type) :=
| Ok (a : A)
| Raise (e : exn).
Arguments Ok {A} a.
Arguments Raise {A} e.

Definition rbind {A B} (r : result A) (k : A -> result B) : result B :=
  match r with
  | Ok a => k a
  | Raise e => Raise e
  end.

(** The values that [json.loads] and the vendor's client hand over, and the
    dictionaries the client builds from them.  A [VDict] lists the bindings
    of a dict with string keys; the keys of one dict are distinct and
    [assoc] reads the binding of a key. *)
Inductive value :=
| VNone
| VBool (b : bool)
| VInt (n : Z)
| VFloat (f : float)
| VStr (s : string)
| VList (l : list value)
| VDict (d : list (string * value)).

Fixpoint assoc (key : string) (d : list (string * value)) : option value :=
  match d with
  | [] => None
  | (k, v) :: d' => if String.eqb k key then Some v else assoc key d'
  end.

(** [bool(v)]: the truth value used by [if v:] and [not v]. *)
Definition truthy (v : value) : bool :=
  match v with
  | VNone => false
  | VBool b => b
  | VInt n => negb (n =? 0)
  | VFloat f => negb (PrimFloat.eqb f PrimFloat.zero)
  | VStr s => negb (String.eqb s "")
  | VList l => match l with [] => false | _ => true end
  | VDict d => match d with [] => false | _ => true end
  end.

(** Truth value of an optional result, [None] being Python's [None]. *)
Definition truthy_opt (o : option value) : bool :=
  match o with
  | Some v => truthy v
  | None => false
  end.

Definition is_str (v : value) : bool :=
  match v with VStr _ => true | _ => false end.

Definition is_dict (v : value) : bool :=
  match v with VDict _ => true | _ => false end.

Definition is_list (v : value) : bool :=
  match v with VList _ => true | _ => false end.

(** The items of a list. *)
Definition items (v : value) : list value :=
  match v with VList l => l | _ => [] end.

(** [v == s] for a string [s]: only a [str] equals a [str]. *)
Definition eq_str (s : string) (v : value) : bool :=
  match v with
  | VStr s' => String.eqb s' s
  | _ => false
  end.

(** [v == 200]: numbers compare by value (a bool is 0 or 1, so never
    200), anything else differs from a number. *)
Definition eq_200 (v : value) : bool :=
  match v with
  | VInt m => m =? 200
  | VFloat f => PrimFloat.eqb f 200%float
  | _ => false
  end.

(** [sub in s] on strings. *)
Fixpoint str_contains (sub s : string) : bool :=
  String.prefix sub s ||
  match s with
  | EmptyString => false
  | String _ s' => str_contains sub s'
  end.

(** [key in v]: membership of a string in a dict (its keys), a list (its
    items) or a string (its substrings); any other value is not iterable. *)
Definition contains (key : string) (v : value) : result bool :=
  match v with
  | VDict d => Ok (bool_decide (is_Some (assoc key d)))
  | VList l => Ok (existsb (eq_str key) l)
  | VStr s => Ok (str_contains key s)
  | _ => Raise TypeError
  end.

(** [v.get(key, default)]: only a dict has the method. *)
Definition get (v : value) (key : string) (dflt : value) : result value :=
  match v with
  | VDict d => Ok (default dflt (assoc key d))
  | _ => Raise AttributeError
  end.

End Py.

Declare Scope py_scope.
Delimit Scope py_scope with py.
Notation "x <- m ;; k" := (Py.rbind m (fun x => k))
  (at level 100, m at next level, right associativity) : py_scope.

(** ** Python's [datetime], as far as the sources use it *)

Module DateTime.

(** A [datetime]: its date as the proleptic Gregorian ordinal
    ([toordinal()], day 1 being 0001-01-01) and its time of day in seconds.
    The microseconds, which a [timedelta] of whole seconds leaves as they
    are, are left out. *)
Record datetime := mkDatetime {
  toordinal : Z;
  second_of_day : Z
}.

(** A [timedelta] of whole seconds, normalized: [days], and [seconds] from
    0 to 86399. *)
Record timedelta := mkTimedelta {
  days : Z;
  seconds : Z
}.

(** [datetime.max.toordinal()]: the last day of the year 9999. *)
Definition MAXORDINAL : Z := 3652059.

(** [timedelta(seconds=s)] for an [int]: the days may not exceed 999999999
    in magnitude. *)
Definition timedelta_of_seconds (s : Z) : Py.result timedelta :=
  let d := s / 86400 in
  if (-999999999 <=? d) && (d <=? 999999999)
  then Py.Ok (mkTimedelta d (s mod 86400))
  else Py.Raise Py.OverflowError.

(** [dt + delta]: the date may not leave the years 1 to 9999. *)
Definition add (dt : datetime) (delta : timedelta) : Py.result datetime :=
  let second := second_of_day dt + seconds delta in
  let ordinal := toordinal dt + days delta + second / 86400 in
  if (1 <=? ordinal) && (ordinal <=? MAXORDINAL)
  then Py.Ok (mkDatetime ordinal (second mod 86400))
  else Py.Raise Py.OverflowError.

End DateTime.

(** ** Python strings *)

Module Str.

Definition is_digit (c : ascii) : bool := (("0" <=? c) && (c <=? "9"))%char.

Definition is_upper (c : ascii) : bool := (("A" <=? c) && (c <=? "Z"))%char.

Definition is_lower (c : ascii) : bool := (("a" <=? c) && (c <=? "z"))%char.

Definition is_alpha (c : ascii) : bool := is_upper c || is_lower c.

Definition lower_char (c : ascii) : ascii :=
  if is_upper c then ascii_of_nat (nat_of_ascii c + 32) else c.

Fixpoint forallb (p : ascii -> bool) (s : string) : bool :=
  match s with
  | EmptyString => true
  | String c s' => p c && forallb p s'
  end.

Fixpoint map (f : ascii -> ascii) (s : string) : string :=
  match s with
  | EmptyString => EmptyString
  | String c s' => String (f c) (map f s')
  end.

Fixpoint filter (p : ascii -> bool) (s : string) : string :=
  match s with
  | EmptyString => EmptyString
  | String c s' => if p c then String c (filter p s') else filter p s'
  end.

(** [s.lower()]. *)
Definition lower (s : string) : string := map lower_char s.

(** [s.isdigit()]: at least one character, all of them digits. *)
Definition isdigit (s : string) : bool :=
  match s with
  | EmptyString => false
  | _ => forallb is_digit s
  end.

(** [s[:n]] and [s[n:]]. *)
Fixpoint take (n : nat) (s : string) : string :=
  match n, s with
  | S n', String c s' => String c (take n' s')
  | _, _ => EmptyString
  end.

Fixpoint drop (n : nat) (s : string) : string :=
  match n, s with
  | S n', String _ s' => drop n' s'
  | _, _ => s
  end.

(** [s.find(c)] for one character: [None] is -1. *)
Fixpoint find_char (c : ascii) (s : string) : option nat :=
  match s with
  | EmptyString => None
  | String a s' => if Ascii.eqb a c then Some O else S <$> find_char c s'
  end.

(** [c in s] for one character. *)
Definition has_char (c : ascii) (s : string) : bool :=
  bool_decide (is_Some (find_char c s)).

(** [s.partition(c)]: the text before the first [c] and, when there is
    one, the text after it. *)
Fixpoint partition (c : ascii) (s : string) : string * option string :=
  match s with
  | EmptyString => (EmptyString, None)
  | String a s' =>
      if Ascii.eqb a c then (EmptyString, Some s')
      else let r := partition c s' in (String a (fst r), snd r)
  end.

(** [s.split(c)]. *)
Fixpoint split (c : ascii) (s : string) : list string :=
  match s with
  | EmptyString => [EmptyString]
  | String a s' =>
      if Ascii.eqb a c then EmptyString :: split c s'
      else match split c s' with
           | h :: t => String a h :: t
           | [] => [String a EmptyString]
           end
  end.

(** The longest prefix of characters satisfying [p], and the rest. *)
Fixpoint span (p : ascii -> bool) (s : string) : string * string :=
  match s with
  | EmptyString => (EmptyString, EmptyString)
  | String a s' =>
      if p a then let r := span p s' in (String a (fst r), snd r)
      else (EmptyString, s)
  end.

(** [s.lstrip(chars)], the characters given by a predicate. *)
Definition lstrip (p : ascii -> bool) (s : string) : string := snd (span p s).

(** [s.replace(old, new)] for a non-empty [old]: [skip] counts the
    characters of a replaced occurrence still to pass over. *)
Fixpoint replace_from (old new s : string) (skip : nat) : string :=
  match s with
  | EmptyString => EmptyString
  | String c s' =>
      match skip with
      | S k => replace_from old new s' k
      | O =>
          if String.prefix old s
          then new +:+ replace_from old new s' (String.length old - 1)
          else String c (replace_from old new s' O)
      end
  end.

Definition replace (old new s : string) : string := replace_from old new s O.

End Str.

(** ** Python's [re]: a backtracking matcher for the patterns of the sources *)

Module Re.

(** Regular expressions: [Chr] is a character class, [Alt] tries its left
    branch first, [Star] is greedy, [Grp n] is the capturing group [n], and
    [NLook] the negative lookahead [(?!...)]. *)
Inductive re :=
| Eps
| Chr (p : ascii -> bool)
| Cat (r1 r2 : re)
| Alt (r1 r2 : re)
| Star (r : re)
| Grp (n : nat) (r : re)
| NLook (r : re).

Definition Plus (r : re) : re := Cat r (Star r).

Definition Opt (r : re) : re := Alt r Eps.

Definition chr (c : ascii) : re := Chr (Ascii.eqb c).

(** A literal text; [lit_i] is the same under [re.IGNORECASE]. *)
Fixpoint lit (s : string) : re :=
  match s with
  | EmptyString => Eps
  | String c s' => Cat (chr c) (lit s')
  end.

Definition chr_i (c : ascii) : re :=
  Chr (fun a => Ascii.eqb (Str.lower_char a) (Str.lower_char c)).

Fixpoint lit_i (s : string) : re :=
  match s with
  | EmptyString => Eps
  | String c s' => Cat (chr_i c) (lit_i s')
  end.

Fixpoint alts (l : list re) : re :=
  match l with
  | [] => NLook Eps
  | [r] => r
  | r :: l' => Alt r (alts l')
  end.

(** [\d] and [[0-9]]; [\w]; [[\w-]]; [[^c]]; [.]. *)
Definition digit : re := Chr Str.is_digit.

Definition is_word (c : ascii) : bool :=
  Str.is_alpha c || Str.is_digit c || Ascii.eqb c "_".

Definition word_or_dash : re := Chr (fun c => is_word c || Ascii.eqb c "-").

Definition not_chr (c : ascii) : re := Chr (fun a => negb (Ascii.eqb a c)).

Definition any : re := Chr (fun a => negb (Ascii.eqb a "010")).

(** The groups captured so far, the latest capture of a group first. *)
Definition caps := list (nat * string).

Fixpoint group (n : nat) (c : caps) : option string :=
  match c with
  | [] => None
  | (m, s) :: c' => if Nat.eqb m n then Some s else group n c'
  end.

(** The greedy iteration of [Star]: as many turns of [step] as possible
    first, each turn consuming at least one character, then the
    continuation [k]; [fuel] bounds the number of turns by the length of
    the text. *)
Definition iterate {R : Type}
    (step : string -> caps -> (string -> caps -> option R) -> option R)
    (k : string -> caps -> option R) : nat -> string -> caps -> option R :=
  fix iterate (fuel : nat) (s : string) (c : caps) : option R :=
    match fuel with
    | O => k s c
    | S fuel' =>
        match step s c
                (fun s' c' =>
                   if (String.length s' <? String.length s)%nat
                   then iterate fuel' s' c' else None) with
        | Some x => Some x
        | None => k s c
        end
    end.

(** [rmatch r s c k]: match [r] at the start of [s] and hand the rest of
    the text and the groups to the continuation [k]; a failure of [k] makes
    the matcher try its next choice. *)
Fixpoint rmatch (R : Type) (r : re) (s : string) (c : caps)
    (k : string -> caps -> option R) {struct r} : option R :=
  match r with
  | Eps => k s c
  | Chr p =>
      match s with
      | String a s' => if p a then k s' c else None
      | EmptyString => None
      end
  | Cat r1 r2 => rmatch R r1 s c (fun s' c' => rmatch R r2 s' c' k)
  | Alt r1 r2 =>
      match rmatch R r1 s c k with
      | Some x => Some x
      | None => rmatch R r2 s c k
      end
  | Star r1 => iterate (rmatch R r1) k (String.length s) s c
  | Grp n r1 =>
      rmatch R r1 s c
        (fun s' c' =>
           k s' ((n, Str.take (String.length s - String.length s') s) :: c'))
  | NLook r1 =>
      match rmatch unit r1 s c (fun _ _ => Some tt) with
      | Some _ => None
      | None => k s c
      end
  end.

(** [pattern.match(s)]: the groups and the text after the match. *)
Definition match_ (r : re) (s : string) : option (caps * string) :=
  rmatch _ r s [] (fun s' c => Some (c, s')).

(** [pattern.search(s)]: the leftmost match. *)
Fixpoint search (r : re) (s : string) : option (caps * string) :=
  match match_ r s with
  | Some m => Some m
  | None =>
      match s with
      | EmptyString => None
      | String _ s' => search r s'
      end
  end.

(** [m.group(1)] of [pattern.search(s)], when there is a match. *)
Definition search_group1 (r : re) (s : string) : option string :=
  match search r s with
  | Some (c, _) => Some (default EmptyString (group 1 c))
  | None => None
  end.

(** [re.sub(pattern, repl, s)] for a pattern that matches no empty text
    and a replacement already expanded: every leftmost match is replaced;
    [skip] counts the characters of a match still to pass over. *)
Fixpoint sub_from (r : re) (repl s : string) (skip : nat) : string :=
  match s with
  | EmptyString => EmptyString
  | String a s' =>
      match skip with
      | S k => sub_from r repl s' k
      | O =>
          match match_ r s with
          | Some (_, rest) =>
              repl +:+
              sub_from r repl s' (String.length s - String.length rest - 1)
          | None => String a (sub_from r repl s' O)
          end
      end
  end.

Definition sub (r : re) (repl s : string) : string := sub_from r repl s O.

End Re.

(** ** The process state and the collaborators outside the repository *)

Module World.
Import CacheManager.

(** An [iop.IopRequest]: the API name and the parameters added to it. *)
Record IopRequest := mkRequest {
  api_name : string;
  api_params : list (string * string)
}.

(** What the sources consume and this development does not define: the
    clock, the vendor's client, the HTTP session, and three functions of
    Python's library.
    - [time_time n]: the value of the [n]-th call of [time.time()];
    - [datetime_now n]: the value of the [n]-th call of [datetime.now()];
    - [json_loads s]: [json.loads(s)], [None] for a [JSONDecodeError];
    - [client_execute n r]: the [n]-th [self.client.execute(request)], the
      [body] of the response it returns or the exception it raises;
    - [session_get n url]: the [n]-th
      [session.get(url, allow_redirects=True, timeout=10)], the status and
      the final URL of the response, or the exception raised;
    - [re_expand t]: the replacement template [t] of [re.sub] with its
      escapes interpreted, [None] when [re] rejects the template;
    - [bracketed_netloc_ok n]: whether [urlsplit] accepts the network
      location [n], which holds both brackets, as an IP literal in
      brackets (the check of recent versions of [urllib.parse]). *)
Record Env := mkEnv {
  time_time : nat -> Z;
  datetime_now : nat -> DateTime.datetime;
  json_loads : string -> option Py.value;
  client_execute : nat -> IopRequest -> Py.result Py.value;
  session_get : nat -> string -> Py.result (Z * string);
  re_expand : string -> option string;
  bracketed_netloc_ok : string -> bool
}.

(** [CacheManager]: the three caches and [cache_expiry_seconds], and what
    one run observes of the outside: the number of readings of
    [time.time()] so far, the calls issued, and the number of readings of
    [datetime.now()] so far. *)
Record world := mkWorld {
  product_cache : CacheWithExpiry string Py.value;
  link_cache : CacheWithExpiry string Py.value;
  resolved_url_cache : CacheWithExpiry string string;
  clock_reads : nat;
  api_calls : list IopRequest;
  http_calls : list string;
  cache_expiry_seconds : Z;
  datetime_reads : nat
}.

(** [CacheManager.__init__]: three empty caches sharing one expiry. *)
Definition cache_manager_init (cache_expiry_days : Z) : world :=
  let cache_expiry_seconds := cache_expiry_days * 24 * 60 * 60 in
  {| product_cache := mkCache ∅ cache_expiry_seconds;
     link_cache := mkCache ∅ cache_expiry_seconds;
     resolved_url_cache := mkCache ∅ cache_expiry_seconds;
     clock_reads := 0; api_calls := []; http_calls := [];
     cache_expiry_seconds := cache_expiry_seconds; datetime_reads := 0 |}.

Definition set_product_cache (c : CacheWithExpiry string Py.value) (w : world) :=
  mkWorld c (link_cache w) (resolved_url_cache w) (clock_reads w)
          (api_calls w) (http_calls w) (cache_expiry_seconds w)
          (datetime_reads w).

Definition set_link_cache (c : CacheWithExpiry string Py.value) (w : world) :=
  mkWorld (product_cache w) c (resolved_url_cache w) (clock_reads w)
          (api_calls w) (http_calls w) (cache_expiry_seconds w)
          (datetime_reads w).

Definition set_resolved_url_cache (c : CacheWithExpiry string string) (w : world) :=
  mkWorld (product_cache w) (link_cache w) c (clock_reads w)
          (api_calls w) (http_calls w) (cache_expiry_seconds w)
          (datetime_reads w).

(** The state once a call to the vendor has been issued. *)
Definition log_api_call (request : IopRequest) (w : world) : world :=
  mkWorld (product_cache w) (link_cache w) (resolved_url_cache w)
          (clock_reads w) (api_calls w ++ [request]) (http_calls w)
          (cache_expiry_seconds w) (datetime_reads w).

(** A coroutine of the sources: it runs from a state to a result (or an
    exception) and a new state. *)
Definition task (A : Type) : Type := world -> Py.result A * world.

Definition ret {A} (a : A) : task A := fun w => (Py.Ok a, w).

Definition bind {A B} (m : task A) (k : A -> task B) : task B :=
  fun w =>
    match m w with
    | (Py.Ok a, w') => k a w'
    | (Py.Raise e, w') => (Py.Raise e, w')
    end.

(** A pure computation, with its exception if any, inside a coroutine. *)
Definition lift {A} (r : Py.result A) : task A := fun w => (r, w).

(** [try: m  except Exception: h]. *)
Definition try_except {A} (m : task A) (h : Py.exn -> task A) : task A :=
  fun w =>
    match m w with
    | (Py.Ok a, w') => (Py.Ok a, w')
    | (Py.Raise e, w') => h e w'
    end.

Declare Scope task_scope.
Delimit Scope task_scope with task.
Bind Scope task_scope with task.
Notation "x <- m ;; k" := (bind m (fun x => k))
  (at level 100, m at next level, right associativity) : task_scope.

Section Effects.
Context (env : Env).

(** [time.time()]. *)
Definition time_now : task Z :=
  fun w =>
    (Py.Ok (time_time env (clock_reads w)),
     mkWorld (product_cache w) (link_cache w) (resolved_url_cache w)
             (S (clock_reads w)) (api_calls w) (http_calls w)
             (cache_expiry_seconds w) (datetime_reads w)).

(** [datetime.now()]. *)
Definition date_now : task DateTime.datetime :=
  fun w =>
    (Py.Ok (datetime_now env (datetime_reads w)),
     mkWorld (product_cache w) (link_cache w) (resolved_url_cache w)
             (clock_reads w) (api_calls w) (http_calls w)
             (cache_expiry_seconds w) (S (datetime_reads w))).

(** [datetime.now() + timedelta(seconds=
    self.cache_manager.cache_expiry_seconds)], the expiry date that the
    client computes for its log lines: the clock is read first.  The
    [strftime] of the log lines does not raise on the date computed. *)
Definition expiry_date : task DateTime.datetime :=
  (now <- date_now ;;
   fun w =>
     lift (delta <- DateTime.timedelta_of_seconds (cache_expiry_seconds w) ;;
           DateTime.add now delta)%py w)%task.

(** [await cache.get(key)] on a cache held by the state: the clock is read
    only when the key is in the dict. *)
Definition cache_get {V} (key : string) (c : CacheWithExpiry string V)
  : task (option V * CacheWithExpiry string V) :=
  match cache c !! key with
  | Some _ => (now <- time_now ;; ret (get now key c))%task
  | None => ret (None, c)
  end.

(** [await cache.set(key, value)]. *)
Definition cache_set {V} (key : string) (v : V) (c : CacheWithExpiry string V)
  : task (CacheWithExpiry string V) :=
  (now <- time_now ;; ret (set now key v c))%task.

Definition product_cache_get (key : string) : task (option Py.value) :=
  fun w =>
    match cache_get key (product_cache w) w with
    | (Py.Ok (r, c), w') => (Py.Ok r, set_product_cache c w')
    | (Py.Raise e, w') => (Py.Raise e, w')
    end.

Definition product_cache_set (key : string) (v : Py.value) : task unit :=
  fun w =>
    match cache_set key v (product_cache w) w with
    | (Py.Ok c, w') => (Py.Ok tt, set_product_cache c w')
    | (Py.Raise e, w') => (Py.Raise e, w')
    end.

Definition link_cache_get (key : string) : task (option Py.value) :=
  fun w =>
    match cache_get key (link_cache w) w with
    | (Py.Ok (r, c), w') => (Py.Ok r, set_link_cache c w')
    | (Py.Raise e, w') => (Py.Raise e, w')
    end.

Definition link_cache_set (key : string) (v : Py.value) : task unit :=
  fun w =>
    match cache_set key v (link_cache w) w with
    | (Py.Ok c, w') => (Py.Ok tt, set_link_cache c w')
    | (Py.Raise e, w') => (Py.Raise e, w')
    end.

Definition resolved_url_cache_get (key : string) : task (option string) :=
  fun w =>
    match cache_get key (resolved_url_cache w) w with
    | (Py.Ok (r, c), w') => (Py.Ok r, set_resolved_url_cache c w')
    | (Py.Raise e, w') => (Py.Raise e, w')
    end.

Definition resolved_url_cache_set (key : string) (v : string) : task unit :=
  fun w =>
    match cache_set key v (resolved_url_cache w) w with
    | (Py.Ok c, w') => (Py.Ok tt, set_resolved_url_cache c w')
    | (Py.Raise e, w') => (Py.Raise e, w')
    end.

(** [self.client.execute(request)]: the call is recorded, and the vendor
    answers with a body or the call raises. *)
Definition execute (request : IopRequest) : task Py.value :=
  fun w =>
    (client_execute env (length (api_calls w)) request,
     log_api_call request w).

(** [session.get(url, allow_redirects=True, timeout=10)]. *)
Definition http_get (url : string) : task (Z * string) :=
  fun w =>
    (session_get env (length (http_calls w)) url,
     mkWorld (product_cache w) (link_cache w) (resolved_url_cache w)
             (clock_reads w) (api_calls w) (http_calls w ++ [url])
             (cache_expiry_seconds w) (datetime_reads w)).

(** [await cache.clear_expired()] on a cache held by the state: the clock
    is read once. *)
Definition cache_clear_expired {V} (c : CacheWithExpiry string V)
  : task (Z * CacheWithExpiry string V) :=
  (now <- time_now ;; ret (clear_expired now c))%task.

Definition product_cache_clear_expired : task Z :=
  fun w =>
    match cache_clear_expired (product_cache w) w with
    | (Py.Ok (count, c), w') => (Py.Ok count, set_product_cache c w')
    | (Py.Raise e, w') => (Py.Raise e, w')
    end.

Definition link_cache_clear_expired : task Z :=
  fun w =>
    match cache_clear_expired (link_cache w) w with
    | (Py.Ok (count, c), w') => (Py.Ok count, set_link_cache c w')
    | (Py.Raise e, w') => (Py.Raise e, w')
    end.

Definition resolved_url_cache_clear_expired : task Z :=
  fun w =>
    match cache_clear_expired (resolved_url_cache w) w with
    | (Py.Ok (count, c), w') => (Py.Ok count, set_resolved_url_cache c w')
    | (Py.Raise e, w') => (Py.Raise e, w')
    end.

(** [async def periodic_cache_cleanup(self, context)]: the three counts
    and the sizes are only logged. *)
Definition periodic_cache_cleanup : task unit :=
  try_except
    (product_expired <- product_cache_clear_expired ;;
     link_expired <- link_cache_clear_expired ;;
     resolved_expired <- resolved_url_cache_clear_expired ;;
     ret tt)%task
    (fun _ => ret tt).

End Effects.

(** Two states that differ at most in the link cache and the readings of
    [time.time()]. *)
Definition same_but_links (w w' : world) : Prop :=
  product_cache w' = product_cache w
  /\ resolved_url_cache w' = resolved_url_cache w
  /\ api_calls w' = api_calls w
  /\ http_calls w' = http_calls w
  /\ cache_expiry_seconds w' = cache_expiry_seconds w
  /\ datetime_reads w' = datetime_reads w.

End World.

(** ** aliexpress_client.py *)

Module AliExpressClient.
Import CacheManager World.

(** The configuration held by an [AliExpressClient]. *)
Record Config := mkConfig {
  tracking_id : string;
  target_currency : string;
  target_language : string;
  query_country : string
}.

Definition QUERY_FIELDS : string :=
  "product_main_image_url,target_sale_price,product_title,target_sale_price_currency".

Section Client.
Context (env : Env) (self : Config).

(** [_execute_api_call] of [fetch_product_details]: the response, or
    [None] when the call raised. *)
Definition _execute_api_call (product_id : string) : task (option Py.value) :=
  let request :=
    mkRequest "aliexpress.affiliate.productdetail.get"
      [("fields", QUERY_FIELDS); ("product_ids", product_id);
       ("target_currency", target_currency self);
       ("target_language", target_language self);
       ("tracking_id", tracking_id self);
       ("country", query_country self)] in
  try_except (body <- execute env request ;; ret (Some body))%task
             (fun _ => ret None).

(** [response_data = json.loads(response_data)] when the body is a [str];
    [None] is the [JSONDecodeError]. *)
Definition decode_body (response_body : Py.value) : option Py.value :=
  match response_body with
  | Py.VStr s => json_loads env s
  | _ => Some response_body
  end.

(** [products[0]]. *)
Definition first_item (v : Py.value) : Py.result Py.value :=
  match v with
  | Py.VList (x :: _) => Py.Ok x
  | Py.VList [] => Py.Raise Py.IndexError
  | Py.VStr (String c _) => Py.Ok (Py.VStr (String c EmptyString))
  | Py.VStr EmptyString => Py.Raise Py.IndexError
  | Py.VDict _ => Py.Raise Py.KeyError
  | _ => Py.Raise Py.TypeError
  end.

(** The body of the [try] of [fetch_product_details] up to the product
    record: [VNone] for each [return None], the record otherwise. *)
Definition product_info_of (product_id : string) (response_body : Py.value)
  : Py.result Py.value :=
  match decode_body response_body with
  | None => Py.Ok Py.VNone
  | Some response_data =>
    (has_error <- Py.contains "error_response" response_data ;;
     if has_error : bool then
       error_details <- Py.get response_data "error_response" (Py.VDict []) ;;
       error_msg <- Py.get error_details "msg" (Py.VStr "Unknown API error") ;;
       error_code <- Py.get error_details "code" (Py.VStr "N/A") ;;
       Py.Ok Py.VNone
     else
       detail_response <-
         Py.get response_data
                "aliexpress_affiliate_productdetail_get_response" Py.VNone ;;
       if negb (Py.truthy detail_response) then Py.Ok Py.VNone else
       resp_result <- Py.get detail_response "resp_result" Py.VNone ;;
       if negb (Py.truthy resp_result) then Py.Ok Py.VNone else
       resp_code <- Py.get resp_result "resp_code" Py.VNone ;;
       if negb (Py.eq_200 resp_code) then
         resp_msg <- Py.get resp_result "resp_msg"
                            (Py.VStr "Unknown response message") ;;
         Py.Ok Py.VNone
       else
       result <- Py.get resp_result "result" (Py.VDict []) ;;
       products_holder <- Py.get result "products" (Py.VDict []) ;;
       products <- Py.get products_holder "product" (Py.VList []) ;;
       if negb (Py.truthy products) then Py.Ok Py.VNone else
       product_data <- first_item products ;;
       image_url <- Py.get product_data "product_main_image_url" Py.VNone ;;
       price <- Py.get product_data "target_sale_price" Py.VNone ;;
       currency <- Py.get product_data "target_sale_price_currency"
                          (Py.VStr (target_currency self)) ;;
       title <- Py.get product_data "product_title"
                       (Py.VStr ("Product " +:+ product_id)) ;;
       Py.Ok (Py.VDict [("image_url", image_url); ("price", price);
                        ("currency", currency); ("title", title)]))%py
  end.

(** [async def fetch_product_details(self, product_id) -> dict | None];
    [VNone] is [None]. *)
Definition fetch_product_details (product_id : string) : task Py.value :=
  (cached_data <- product_cache_get env product_id ;;
   if Py.truthy_opt cached_data then ret (default Py.VNone cached_data) else
   response <- _execute_api_call product_id ;;
   match response with
   | None => ret Py.VNone
   | Some body =>
     if negb (Py.truthy body) then ret Py.VNone else
     try_except
       (product_info <- lift (product_info_of product_id body) ;;
        if negb (Py.truthy product_info) then ret Py.VNone else
        _ <- product_cache_set env product_id product_info ;;
        expiry_date <- expiry_date env ;;
        ret product_info)
       (fun _ => ret Py.VNone)
   end)%task.

(** One turn of the loop of [_check_cache_for_links]. *)
Definition check_cache_step (acc : gmap string Py.value * list string)
    (url : string) : task (gmap string Py.value * list string) :=
  (cached_link <- link_cache_get env url ;;
   if Py.truthy_opt cached_link
   then ret (<[url := default Py.VNone cached_link]> (fst acc), snd acc)
   else ret (<[url := Py.VNone]> (fst acc), snd acc ++ [url]))%task.

(** A [for] loop threading an accumulator through a coroutine. *)
Fixpoint for_each {A B} (body : B -> A -> task B) (l : list A) (acc : B)
  : task B :=
  match l with
  | [] => ret acc
  | x :: l' => (acc' <- body acc x ;; for_each body l' acc')%task
  end.

(** [async def _check_cache_for_links(self, target_urls)]:
    [(results_dict, uncached_urls)]. *)
Definition _check_cache_for_links (target_urls : list string)
  : task (gmap string Py.value * list string) :=
  for_each check_cache_step target_urls (∅, []).

(** [def _prepare_api_source_values(self, uncached_urls) -> str]. *)
Definition _prepare_api_source_values (uncached_urls : list string) : string :=
  let prefixed_urls := foldl (fun acc url => acc ++ [url]) [] uncached_urls in
  String.concat "," prefixed_urls.

(** The request built by [_execute_batch_link_api_call]. *)
Definition batch_request (source_values_str : string) : IopRequest :=
  mkRequest "aliexpress.affiliate.link.generate"
    [("promotion_link_type", "0"); ("source_values", source_values_str);
     ("tracking_id", tracking_id self)].

(** [def _execute_batch_link_api_call(self, source_values_str)]: the
    response, or [None] when the call raised. *)
Definition _execute_batch_link_api_call (source_values_str : string)
  : task (option Py.value) :=
  let request := batch_request source_values_str in
  try_except (body <- execute env request ;; ret (Some body))%task
             (fun _ => ret None).

(** [def _parse_api_promotion_response(self, response_body) -> List[Dict]]. *)
Definition _parse_api_promotion_response (response_body : Py.value)
  : Py.result (list Py.value) :=
  if negb (Py.truthy response_body) then Py.Ok [] else
  match decode_body response_body with
  | None => Py.Ok []
  | Some response_data =>
    (has_error <- Py.contains "error_response" response_data ;;
     if has_error : bool then
       error_details <- Py.get response_data "error_response" (Py.VDict []) ;;
       error_msg <- Py.get error_details "msg" (Py.VStr "Unknown API error") ;;
       error_code <- Py.get error_details "code" (Py.VStr "N/A") ;;
       Py.Ok []
     else
       generate_response <-
         Py.get response_data
                "aliexpress_affiliate_link_generate_response" Py.VNone ;;
       if negb (Py.truthy generate_response) then Py.Ok [] else
       resp_result_outer <- Py.get generate_response "resp_result" Py.VNone ;;
       if negb (Py.truthy resp_result_outer) then Py.Ok [] else
       resp_code <- Py.get resp_result_outer "resp_code" Py.VNone ;;
       if negb (Py.eq_200 resp_code) then
         resp_msg <- Py.get resp_result_outer "resp_msg"
                            (Py.VStr "Unknown response message") ;;
         Py.Ok []
       else
       result <- Py.get resp_result_outer "result" (Py.VDict []) ;;
       if negb (Py.truthy result) then Py.Ok [] else
       links_holder <- Py.get result "promotion_links" (Py.VDict []) ;;
       links_data <- Py.get links_holder "promotion_link" (Py.VList []) ;;
       if negb (Py.truthy links_data) || negb (Py.is_list links_data)
       then Py.Ok []
       else Py.Ok (List.filter Py.is_dict (Py.items links_data)))%py
  end.

(** [source_url in results_dict]: the key is hashed first, so a list or a
    dict raises; a key that is no string equals none of the keys. *)
Definition in_results (source_url : Py.value)
    (results_dict : gmap string Py.value) : Py.result (option string) :=
  match source_url with
  | Py.VStr s =>
      Py.Ok (if bool_decide (is_Some (results_dict !! s)) then Some s else None)
  | Py.VList _ | Py.VDict _ => Py.Raise Py.TypeError
  | _ => Py.Ok None
  end.

(** One turn of the first loop of [_update_results_and_cache]. *)
Definition update_step (results_dict : gmap string Py.value)
    (link_info : Py.value) : task (gmap string Py.value) :=
  (source_url <- lift (Py.get link_info "source_value" Py.VNone) ;;
   promo_link <- lift (Py.get link_info "promotion_link" Py.VNone) ;;
   if Py.truthy source_url && Py.truthy promo_link then
     requested <- lift (in_results source_url results_dict) ;;
     match requested with
     | Some key =>
         _ <- link_cache_set env key promo_link ;;
         ret (<[key := promo_link]> results_dict)
     | None => ret results_dict
     end
   else ret results_dict)%task.

(** [async def _update_results_and_cache(self, results_dict, uncached_urls,
    api_links_data)]: the expiry date is computed first; the dict is
    updated in place, so the updated dict is the result; the second loop
    only logs. *)
Definition _update_results_and_cache (results_dict : gmap string Py.value)
    (uncached_urls : list string) (api_links_data : list Py.value)
  : task (gmap string Py.value) :=
  (expiry_date <- expiry_date env ;;
   for_each update_step api_links_data results_dict)%task.

(** [async def generate_affiliate_links_batch(self, target_urls)]. *)
Definition generate_affiliate_links_batch (target_urls : list string)
  : task (gmap string Py.value) :=
  (checked <- _check_cache_for_links target_urls ;;
   let results_dict := fst checked in
   let uncached_urls := snd checked in
   match uncached_urls with
   | [] => ret results_dict
   | _ =>
     let source_values_str := _prepare_api_source_values uncached_urls in
     raw_response <- _execute_batch_link_api_call source_values_str ;;
     api_links_data <-
       lift (_parse_api_promotion_response (default Py.VNone raw_response)) ;;
     _update_results_and_cache results_dict uncached_urls api_links_data
   end)%task.

(** *** Notions used to state the properties of the client *)

(** The URLs that [_check_cache_for_links] reports as uncached when it
    runs from the state [w]. *)
Definition uncached_urls_of (target_urls : list string) (w : world)
  : list string :=
  match _check_cache_for_links target_urls w with
  | (Py.Ok checked, _) => snd checked
  | (Py.Raise _, _) => []
  end.

(** A usable link is stored for the URL and is fresh at each of the next
    [n] readings of the clock. *)
Definition link_cached (w : world) (n : nat) (url : string) : Prop :=
  exists v t,
    cache (link_cache w) !! url = Some (v, t)
    /\ Py.truthy v = true
    /\ forall i, (clock_reads w <= i < clock_reads w + n)%nat ->
                 time_time env i - t < expiry_seconds (link_cache w).

(** The field [key] of an item of the vendor's list, [None] when it is
    missing. *)
Definition field (key : string) (link_info : Py.value) : Py.value :=
  match Py.get link_info key Py.VNone with
  | Py.Ok v => v
  | Py.Raise _ => Py.VNone
  end.

(** An item with a source value and a promotion link, both non-empty. *)
Definition complete_pair (link_info : Py.value) : bool :=
  Py.truthy (field "source_value" link_info)
  && Py.truthy (field "promotion_link" link_info).

(** The values that can be looked up in a dict: a list or a dict cannot
    be hashed. *)
Definition hashable (v : Py.value) : bool :=
  match v with
  | Py.VList _ | Py.VDict _ => false
  | _ => true
  end.

(** An item that [_update_results_and_cache] neither skips nor fails on. *)
Definition usable_pair (link_info : Py.value) : bool :=
  negb (complete_pair link_info) || hashable (field "source_value" link_info).

(** A response body that the batch path processes to the end: the layered
    validation finds every value it calls [get] on to be a dict, and every
    complete pair has a source value that can be hashed. *)
Definition processable (response_body : Py.value) : bool :=
  match _parse_api_promotion_response response_body with
  | Py.Ok api_links_data =>
      List.forallb usable_pair api_links_data
  | Py.Raise _ => false
  end.

(** The link [v] comes from the vendor's list, as the promotion link of a
    complete pair whose source value is the URL [url]. *)
Definition from_vendor (api_links_data : list Py.value) (url : string)
    (v : Py.value) : Prop :=
  exists link_info,
    link_info ∈ api_links_data
    /\ field "source_value" link_info = Py.VStr url
    /\ field "promotion_link" link_info = v
    /\ url <> EmptyString
    /\ Py.truthy v = true.

(** The expiry date that the client computes at its next reading of
    [datetime.now()] is a date of the calendar. *)
Definition expiry_date_fits (w : world) : bool :=
  match fst (expiry_date env w) with
  | Py.Ok _ => true
  | Py.Raise _ => false
  end.

(** The body handed to [_parse_api_promotion_response] when the batch
    call is issued from the state [w] for the uncached URLs. *)
Definition batch_reply (uncached_urls : list string) (w : world) : Py.value :=
  match client_execute env (length (api_calls w))
          (batch_request (_prepare_api_source_values uncached_urls)) with
  | Py.Ok body => body
  | Py.Raise _ => Py.VNone
  end.

End Client.

End AliExpressClient.

(** ** aliexpress_client.py: a notion for the properties of the batch *)

Module ClientNotions.
Import CacheManager.

(** The result dict agrees with the link cache: a link with a true truth
    value in the dict is the link stored for its URL, and a link with a
    true truth value stored for a URL of the dict is the one in the dict. *)
Definition agrees (results_dict : gmap string Py.value)
    (c : CacheWithExpiry string Py.value) : Prop :=
  forall url v,
    results_dict !! url = Some v ->
    (Py.truthy v = true -> exists t, cache c !! url = Some (v, t))
    /\ (forall v' t, cache c !! url = Some (v', t) ->
                     Py.truthy v' = true -> v' = v).

End ClientNotions.

(** ** Python's [urllib.parse], as far as the sources use it *)

Module UrlLib.
Import World.

(** [urlparse(url)]: a [ParseResult]. *)
Record ParseResult := mkParse {
  scheme : string;
  netloc : string;
  path : string;
  params : string;
  query : string;
  fragment : string
}.

Definition uses_netloc : list string :=
  [""; "ftp"; "http"; "gopher"; "nntp"; "telnet"; "imap"; "wais"; "file";
   "mms"; "https"; "shttp"; "snews"; "prospero"; "rtsp"; "rtsps"; "rtspu";
   "rsync"; "svn"; "svn+ssh"; "sftp"; "nfs"; "git"; "git+ssh"; "ws"; "wss";
   "itms-services"].

Definition uses_params : list string :=
  [""; "ftp"; "hdl"; "prospero"; "http"; "imap"; "https"; "shttp"; "rtsp";
   "rtsps"; "rtspu"; "sip"; "sips"; "mms"; "sftp"; "tel"].

Definition mem (s : string) (l : list string) : bool :=
  existsb (String.eqb s) l.

Definition scheme_char (c : ascii) : bool :=
  Str.is_alpha c || Str.is_digit c
  || Ascii.eqb c "+" || Ascii.eqb c "-" || Ascii.eqb c ".".

(** The C0 control characters and the space, stripped from the left. *)
Definition c0_or_space (c : ascii) : bool := (c <=? " ")%char.

(** Tab, line feed and carriage return, removed from the whole URL. *)
Definition unsafe_char (c : ascii) : bool :=
  Ascii.eqb c "009" || Ascii.eqb c "010" || Ascii.eqb c "013".

(** The scheme of [urlsplit]: the text before the first colon when it
    starts with a letter and holds scheme characters only. *)
Definition split_scheme (url : string) : string * string :=
  match Str.find_char ":" url, url with
  | Some (S i), String c _ =>
      if Str.is_alpha c && Str.forallb scheme_char (Str.take (S i) url)
      then (Str.lower (Str.take (S i) url), Str.drop (S (S i)) url)
      else (EmptyString, url)
  | _, _ => (EmptyString, url)
  end.

Definition netloc_delim (c : ascii) : bool :=
  Ascii.eqb c "/" || Ascii.eqb c "?" || Ascii.eqb c "#".

(** [_splitnetloc(url, 2)] after a leading [//]. *)
Definition split_netloc (url : string) : string * string :=
  if String.prefix "//" url
  then Str.span (fun c => negb (netloc_delim c)) (Str.drop 2 url)
  else (EmptyString, url).

(** [s.rfind(c)], as the number of characters before the last [c]. *)
Fixpoint rfind_char (c : ascii) (s : string) : option nat :=
  match s with
  | EmptyString => None
  | String a s' =>
      match rfind_char c s' with
      | Some i => Some (S i)
      | None => if Ascii.eqb a c then Some O else None
      end
  end.

(** [_splitparams(url)]. *)
Definition splitparams (url : string) : string * string :=
  let start := default O (rfind_char "/" url) in
  match Str.find_char ";" (Str.drop start url) with
  | Some i => (Str.take (start + i) url, Str.drop (S (start + i)) url)
  | None => (url, EmptyString)
  end.

Section Parse.
Context (env : Env).

(** [urlsplit(url)], with the [ValueError] of a network location whose
    brackets do not pair or do not hold an IP literal. *)
Definition urlsplit (url : string) : Py.result ParseResult :=
  let url := Str.lstrip c0_or_space url in
  let url := Str.filter (fun c => negb (unsafe_char c)) url in
  let (scheme, url) := split_scheme url in
  let (netloc, url) := split_netloc url in
  let open := Str.has_char "[" netloc in
  let close := Str.has_char "]" netloc in
  if xorb open close then Py.Raise Py.ValueError
  else if open && close && negb (bracketed_netloc_ok env netloc)
  then Py.Raise Py.ValueError
  else
    let (url, fragment) := Str.partition "#" url in
    let (url, query) := Str.partition "?" url in
    Py.Ok (mkParse scheme netloc url EmptyString
                   (default EmptyString query) (default EmptyString fragment)).

(** [urlparse(url)]: [urlsplit] and the parameters of the path. *)
Definition urlparse (url : string) : Py.result ParseResult :=
  (r <- urlsplit url ;;
   if mem (scheme r) uses_params && Str.has_char ";" (path r)
   then
     let (url, params) := splitparams (path r) in
     Py.Ok (mkParse (scheme r) (netloc r) url params (query r) (fragment r))
   else Py.Ok r)%py.

End Parse.

(** [urlunsplit((scheme, netloc, url, query, fragment))]. *)
Definition urlunsplit (scheme netloc url query fragment : string) : string :=
  let url :=
    if negb (String.eqb netloc "")
       || (negb (String.eqb scheme "") && mem scheme uses_netloc
           && negb (String.prefix "//" url))
    then
      let url :=
        if negb (String.eqb url "") && negb (String.prefix "/" url)
        then "/" +:+ url else url in
      "//" +:+ netloc +:+ url
    else url in
  let url := if negb (String.eqb scheme "") then scheme +:+ ":" +:+ url else url in
  let url := if negb (String.eqb query "") then url +:+ "?" +:+ query else url in
  if negb (String.eqb fragment "") then url +:+ "#" +:+ fragment else url.

(** [urlunparse((scheme, netloc, url, params, query, fragment))]. *)
Definition urlunparse (scheme netloc url params query fragment : string)
  : string :=
  let url := if negb (String.eqb params "") then url +:+ ";" +:+ params else url in
  urlunsplit scheme netloc url query fragment.

Definition hex_value (c : ascii) : option nat :=
  if Str.is_digit c then Some (nat_of_ascii c - 48)%nat
  else if (("a" <=? c) && (c <=? "f"))%char then Some (nat_of_ascii c - 87)%nat
  else if (("A" <=? c) && (c <=? "F"))%char then Some (nat_of_ascii c - 55)%nat
  else None.

(** [unquote(s)]: every [%XX] with two hexadecimal digits becomes the
    character of that code.  This is what Python does on an ASCII text
    whose escapes are codes below 128.  Python reads the codes from 128 on
    as UTF-8, which leads out of the 8-bit range; here such a code stays
    one character, and the properties that depend on the decoded text
    are stated for texts without such an escape ([has_high_escape]). *)
Fixpoint unquote (s : string) : string :=
  match s with
  | EmptyString => EmptyString
  | String c s' =>
      if Ascii.eqb c "%" then
        match s' with
        | String h1 (String h2 rest) =>
            match hex_value h1, hex_value h2 with
            | Some a, Some b => String (ascii_of_nat (16 * a + b)) (unquote rest)
            | _, _ => String c (unquote s')
            end
        | _ => String c (unquote s')
        end
      else String c (unquote s')
  end.

(** The text holds an escape [%XX] of a code from 128 on. *)
Fixpoint has_high_escape (s : string) : bool :=
  match s with
  | EmptyString => false
  | String c s' =>
      (Ascii.eqb c "%" &&
       match s' with
       | String h1 (String h2 _) =>
           match hex_value h1, hex_value h2 with
           | Some a, Some _ => (8 <=? a)%nat
           | _, _ => false
           end
       | _ => false
       end)
      || has_high_escape s'
  end.

Definition plus_to_space (s : string) : string :=
  Str.map (fun c => if Ascii.eqb c "+" then " "%char else c) s.

(** One field [name=value] of [parse_qsl], blank values being dropped. *)
Definition parse_field (name_value : string) : list (string * string) :=
  match Str.partition "=" name_value with
  | (name, Some value) =>
      if negb (String.eqb value "")
      then [(unquote (plus_to_space name), unquote (plus_to_space value))]
      else []
  | (_, None) => []
  end.

(** [parse_qsl(qs)]. *)
Definition parse_qsl (qs : string) : list (string * string) :=
  concat (List.map parse_field (Str.split "&" qs)).

(** [parse_qs(qs)]: the values of each name, in order. *)
Definition parse_qs (qs : string) : gmap string (list string) :=
  foldl (fun parsed_result nv =>
           <[fst nv := default [] (parsed_result !! fst nv) ++ [snd nv]]>
             parsed_result)
        ∅ (parse_qsl qs).

End UrlLib.

(** ** Python's [urllib.parse]: quoting and [urlencode] *)

Module UrlEncode.

(** The bytes that [quote] never escapes: letters, digits and [_.-~]. *)
Definition always_safe (c : ascii) : bool :=
  Str.is_alpha c || Str.is_digit c
  || Ascii.eqb c "_" || Ascii.eqb c "." || Ascii.eqb c "-" || Ascii.eqb c "~".

Definition hex_digit (n : nat) : ascii :=
  if (n <? 10)%nat then ascii_of_nat (48 + n) else ascii_of_nat (55 + n).

(** ['%{:02X}'.format(b)]. *)
Definition percent (b : nat) : string :=
  String "%" (String (hex_digit (b / 16))
                     (String (hex_digit (b mod 16)) EmptyString)).

(** The bytes of [c.encode('utf-8')] for a character of the 8-bit range. *)
Definition utf8 (c : ascii) : list nat :=
  let n := nat_of_ascii c in
  if (n <? 128)%nat then [n] else [192 + n / 64; 128 + n mod 64]%nat.

(** One byte of [quote_from_bytes]: kept when it is always safe or among
    the ASCII characters of [safe], written [%XX] otherwise. *)
Definition quote_byte (safe : ascii -> bool) (b : nat) : string :=
  if (b <? 128)%nat && (always_safe (ascii_of_nat b) || safe (ascii_of_nat b))
  then String (ascii_of_nat b) EmptyString
  else percent b.

(** [quote(s, safe)], the characters of [safe] given by a predicate. *)
Fixpoint quote (safe : ascii -> bool) (s : string) : string :=
  match s with
  | EmptyString => EmptyString
  | String c s' =>
      String.concat "" (List.map (quote_byte safe) (utf8 c)) +:+ quote safe s'
  end.

(** [quote_plus(s)]: a text with a space is quoted with the space kept,
    and its spaces then become [+]. *)
Definition quote_plus (s : string) : string :=
  if Str.has_char " " s
  then Str.replace " " "+" (quote (Ascii.eqb " ") s)
  else quote (fun _ => false) s.

(** [urlencode(query)] for a dict of texts, its items in order. *)
Definition urlencode (query : list (string * string)) : string :=
  String.concat "&"
    (List.map (fun kv => quote_plus (fst kv) +:+ "=" +:+ quote_plus (snd kv))
              query).

(** The characters that [quote_plus] writes: the always safe ones, the
    percent sign of an escape and the plus sign of a space. *)
Definition quoted_char (c : ascii) : bool :=
  always_safe c || Ascii.eqb c "%" || Ascii.eqb c "+".

(** The characters of the ASCII range. *)
Definition is_ascii (c : ascii) : bool := (nat_of_ascii c <? 128)%nat.

(** An ASCII text whose escapes are codes of the ASCII range: the texts
    on which [unquote] is Python's. *)
Definition ascii_escapes (s : string) : bool :=
  Str.forallb is_ascii s && negb (UrlLib.has_high_escape s).

End UrlEncode.

(** ** url_processor.py *)

Module URLProcessor.
Import CacheManager World.

(** [PRODUCT_ID_REGEX = /item/(\d+)\.html]. *)
Definition PRODUCT_ID_REGEX : Re.re :=
  Re.Cat (Re.lit "/item/")
    (Re.Cat (Re.Grp 1 (Re.Plus Re.digit)) (Re.lit ".html")).

(** The top-level domains of [STANDARD_ALIEXPRESS_DOMAIN_REGEX]. *)
Definition standard_tlds : list string :=
  ["com"; "ru"; "es"; "fr"; "pt"; "it"; "pl"; "nl"; "co.kr"; "co.jp";
   "com.br"; "com.tr"; "com.vn"; "us"; "id.aliexpress.com";
   "th.aliexpress.com"; "ar.aliexpress.com"].

(** [STANDARD_ALIEXPRESS_DOMAIN_REGEX], compiled with [re.IGNORECASE]:
    [https?://], not followed by [a\.] or [s\.click\.]; an optional group
    [([\w-]+\.)]; [aliexpress\.]; one of the top-level domains; an optional
    [(\.([\w-]+))]; an optional slash followed by any text. *)
Definition STANDARD_ALIEXPRESS_DOMAIN_REGEX : Re.re :=
  Re.Cat (Re.lit_i "http")
  (Re.Cat (Re.Opt (Re.chr_i "s"))
  (Re.Cat (Re.lit "://")
  (Re.Cat (Re.NLook (Re.Alt (Re.lit_i "a.") (Re.lit_i "s.click.")))
  (Re.Cat (Re.Opt (Re.Grp 1 (Re.Cat (Re.Plus Re.word_or_dash) (Re.chr "."))))
  (Re.Cat (Re.lit_i "aliexpress.")
  (Re.Cat (Re.Grp 2 (Re.alts (List.map Re.lit_i standard_tlds)))
  (Re.Cat (Re.Opt (Re.Grp 3 (Re.Cat (Re.chr ".")
                               (Re.Grp 4 (Re.Plus Re.word_or_dash)))))
          (Re.Opt (Re.Grp 5 (Re.Cat (Re.chr "/") (Re.Star Re.any))))))))))).

(** [alt_patterns] of [extract_product_id]:
    [/p/[^/]+/([0-9]+)\.html] and [product/([0-9]+)]. *)
Definition alt_patterns : list Re.re :=
  [Re.Cat (Re.lit "/p/")
     (Re.Cat (Re.Plus (Re.not_chr "/"))
        (Re.Cat (Re.chr "/")
           (Re.Cat (Re.Grp 1 (Re.Plus Re.digit)) (Re.lit ".html"))));
   Re.Cat (Re.lit "product/") (Re.Grp 1 (Re.Plus Re.digit))].

(** The pattern of the [re.sub] of [resolve_short_link]:
    [_randl_shipto=[^&]+]. *)
Definition shipto_pattern : Re.re :=
  Re.Cat (Re.lit "_randl_shipto=") (Re.Plus (Re.not_chr "&")).

(** The loop over [alt_patterns]: the group of the first pattern found. *)
Fixpoint first_alt_match (patterns : list Re.re) (url : string)
  : option string :=
  match patterns with
  | [] => None
  | pattern :: rest =>
      match Re.search_group1 pattern url with
      | Some product_id => Some product_id
      | None => first_alt_match rest url
      end
  end.

(** The first value of the [productIds] query parameter when it is all
    digits. *)
Definition product_id_from_param (query : string) : option string :=
  match UrlLib.parse_qs query !! "productIds" with
  | Some (product_id_from_param :: _) =>
      if Str.isdigit product_id_from_param
      then Some product_id_from_param else None
  | _ => None
  end.

(** The [.aliexpress.us] to [.aliexpress.com] conversion. *)
Definition us_to_com (url : string) : string :=
  if Py.str_contains ".aliexpress.us" url
  then Str.replace ".aliexpress.us" ".aliexpress.com" url
  else url.

Section Processor.
Context (env : Env) (query_country : string).

(** [def extract_product_id(self, url) -> str | None]. *)
Definition extract_product_id (url : string) : Py.result (option string) :=
  let url := us_to_com url in
  (parsed_url <- UrlLib.urlparse env url ;;
   match product_id_from_param (UrlLib.query parsed_url) with
   | Some product_id => Py.Ok (Some product_id)
   | None =>
       match Re.search_group1 PRODUCT_ID_REGEX url with
       | Some product_id => Py.Ok (Some product_id)
       | None => Py.Ok (first_alt_match alt_patterns url)
       end
   end)%py.

(** [def clean_aliexpress_url(self, url, product_id) -> str | None]:
    the [ValueError] of [urlparse] is caught. *)
Definition clean_aliexpress_url (url product_id : string)
  : Py.result (option string) :=
  match UrlLib.urlparse env url with
  | Py.Ok parsed_url =>
      let path_segment := "/item/" +:+ product_id +:+ ".html" in
      let scheme :=
        if String.eqb (UrlLib.scheme parsed_url) "" then "https"
        else UrlLib.scheme parsed_url in
      Py.Ok (Some (UrlLib.urlunparse scheme (UrlLib.netloc parsed_url)
                                     path_segment "" "" ""))
  | Py.Raise Py.ValueError => Py.Ok None
  | Py.Raise e => Py.Raise e
  end.

(** The [re.sub] of [resolve_short_link]; [re] may reject the template. *)
Definition rewrite_shipto (final_url : string) : Py.result string :=
  match re_expand env ("_randl_shipto=" +:+ query_country) with
  | Some repl => Py.Ok (Re.sub shipto_pattern repl final_url)
  | None => Py.Raise Py.ReError
  end.

(** The second fetch, after the country parameter was rewritten: any
    failure keeps the rewritten URL. *)
Definition refetch_with_country (final_url : string) : task string :=
  try_except
    (country_response <- http_get env final_url ;;
     if (fst country_response =? 200)
        && negb (String.eqb (snd country_response) "")
     then ret (snd country_response) else ret final_url)%task
    (fun _ => ret final_url).

(** The body of the [try] of [resolve_short_link]: the fetch, the two
    corrections of the final URL, its validation and the caching. *)
Definition fetch_and_validate (short_url : string) : task (option string) :=
  (response <- http_get env short_url ;;
   if (fst response =? 200) && negb (String.eqb (snd response) "")
   then
     let final_url := us_to_com (snd response) in
     final_url <-
       (if Py.str_contains "_randl_shipto=" final_url
        then
          final_url <- lift (rewrite_shipto final_url) ;;
          refetch_with_country final_url
        else ret final_url) ;;
     product_id <- lift (extract_product_id final_url) ;;
     match Re.match_ STANDARD_ALIEXPRESS_DOMAIN_REGEX final_url,
           product_id with
     | Some _, Some (String _ _) =>
         _ <- resolved_url_cache_set env short_url final_url ;;
         ret (Some final_url)
     | _, _ => ret None
     end
   else ret None)%task.

(** [async def resolve_short_link(self, short_url, session) -> str | None]:
    each of the three [except] clauses returns [None]. *)
Definition resolve_short_link (short_url : string) : task (option string) :=
  (cached_final_url <- resolved_url_cache_get env short_url ;;
   match cached_final_url with
   | Some (String c u) => ret (Some (String c u))
   | _ => try_except (fetch_and_validate short_url) (fun _ => ret None)
   end)%task.

(** *** Notions used to state the properties of the processor *)

(** The scheme, [https] when the URL has none, and the network location
    of a parsed URL, written as the start of a URL. *)
Definition scheme_and_host (parsed_url : UrlLib.ParseResult) : string :=
  let scheme :=
    if String.eqb (UrlLib.scheme parsed_url) "" then "https"
    else UrlLib.scheme parsed_url in
  scheme +:+ ":" +:+
  (if negb (String.eqb (UrlLib.netloc parsed_url) "")
      || UrlLib.mem scheme UrlLib.uses_netloc
   then "//" +:+ UrlLib.netloc parsed_url else "").

(** The URL passes the validation of [resolve_short_link]. *)
Definition valid_product_url (final_url : string) : Prop :=
  is_Some (Re.match_ STANDARD_ALIEXPRESS_DOMAIN_REGEX final_url)
  /\ exists product_id,
       extract_product_id final_url = Py.Ok (Some product_id)
       /\ product_id <> EmptyString.


End Processor.

(** *** The other patterns, and the URLs of a text *)

(** [SHORT_LINK_DOMAIN_REGEX], compiled with [re.IGNORECASE]:
    [https?://], then [s\.click\.aliexpress\.com/e/] or
    [a\.aliexpress\.com/_], then [[a-zA-Z0-9_-]+] and an optional slash. *)
Definition SHORT_LINK_DOMAIN_REGEX : Re.re :=
  Re.Cat (Re.lit_i "http")
  (Re.Cat (Re.Opt (Re.chr_i "s"))
  (Re.Cat (Re.lit "://")
  (Re.Cat (Re.Alt (Re.lit_i "s.click.aliexpress.com/e/")
                  (Re.lit_i "a.aliexpress.com/_"))
  (Re.Cat (Re.Plus Re.word_or_dash) (Re.Opt (Re.chr "/")))))).

(** [\s] on the ASCII range: tab to carriage return, the four separators
    and the space. *)
Definition is_space (c : ascii) : bool :=
  let n := nat_of_ascii c in
  ((9 <=? n) && (n <=? 13) || (28 <=? n) && (n <=? 32))%nat.

(** The class of [URL_REGEX] that excludes [\s], the angle brackets and
    the double quote (code 34). *)
Definition url_char (c : ascii) : bool :=
  negb (is_space c || Ascii.eqb c "<" || Ascii.eqb c ">" || Ascii.eqb c "034").

(** The top-level domains of the third alternative of [URL_REGEX]. *)
Definition url_tlds : list string :=
  ["com"; "ru"; "es"; "fr"; "pt"; "it"; "pl"; "nl"; "co.kr"; "co.jp";
   "com.br"; "com.tr"; "com.vn"; "us"; "id"; "th"; "ar"].

(** The three alternatives of [URL_REGEX], compiled with [re.IGNORECASE]:
    [https?://] and one or more characters of the class; [www\.] and one
    or more characters of the class; and, behind the word boundary [\b],
    an optional [s\.click\.] or [a\.], [aliexpress\.], a top-level domain,
    an optional [\.[\w-]+], a slash and any number of characters of the
    class. *)
Definition url_with_scheme : Re.re :=
  Re.Cat (Re.lit_i "http")
  (Re.Cat (Re.Opt (Re.chr_i "s"))
  (Re.Cat (Re.lit "://") (Re.Plus (Re.Chr url_char)))).

Definition url_with_www : Re.re :=
  Re.Cat (Re.lit_i "www.") (Re.Plus (Re.Chr url_char)).

Definition url_bare_domain : Re.re :=
  Re.Cat (Re.Opt (Re.Alt (Re.lit_i "s.click.") (Re.lit_i "a.")))
  (Re.Cat (Re.lit_i "aliexpress.")
  (Re.Cat (Re.alts (List.map Re.lit_i url_tlds))
  (Re.Cat (Re.Opt (Re.Cat (Re.chr ".") (Re.Plus Re.word_or_dash)))
  (Re.Cat (Re.chr "/") (Re.Star (Re.Chr url_char)))))).

(** [URL_REGEX] at a position of the text.  The third alternative starts
    with a letter, so its [\b] holds exactly when the character in front
    of the position, if any, is no word character. *)
Definition URL_REGEX (after_word : bool) : Re.re :=
  Re.Alt url_with_scheme
    (Re.Alt url_with_www
       (if after_word then Re.NLook Re.Eps else url_bare_domain)).

(** [pattern.findall(text)] for [URL_REGEX], which has no group and
    matches no empty text: the matches from left to right, each search
    starting where the previous match ended.  [after_word] tells whether
    the character in front is a word character, and [skip] counts the
    characters of a match still to pass over. *)
Fixpoint findall_from (text : string) (after_word : bool) (skip : nat)
  : list string :=
  match text with
  | EmptyString => []
  | String a text' =>
      match skip with
      | S k => findall_from text' (Re.is_word a) k
      | O =>
          match Re.match_ (URL_REGEX after_word) text with
          | Some (_, rest) =>
              let n := (String.length text - String.length rest)%nat in
              Str.take n text :: findall_from text' (Re.is_word a) (n - 1)
          | None => findall_from text' (Re.is_word a) O
          end
      end
  end.

(** Every character class of the pattern [r] lies within the class [q];
    a lookahead consumes nothing and is not looked into. *)
Fixpoint classes_within (q : ascii -> bool) (r : Re.re) : Prop :=
  match r with
  | Re.Eps => True
  | Re.Chr p => forall a, p a = true -> q a = true
  | Re.Cat r1 r2 | Re.Alt r1 r2 => classes_within q r1 /\ classes_within q r2
  | Re.Star r1 | Re.Grp _ r1 => classes_within q r1
  | Re.NLook _ => True
  end.

(** [def extract_potential_aliexpress_urls(self, text) -> list[str]]. *)
Definition extract_potential_aliexpress_urls (text : string) : list string :=
  findall_from text false O.

End URLProcessor.

(** ** offers.py *)

Module Offers.

(** [def _wrap_url_with_star_aliexpress(url) -> str]. *)
Definition _wrap_url_with_star_aliexpress (url : string) : string :=
  "https://star.aliexpress.com/share/share.htm?&redirectUrl=" +:+ url.

(** The subclasses of [OfferStrategy]; a [StaticOffer] holds its key and
    its parameters, the items of the dict in order.  The label of an offer
    is used only in the text of the messages and is left out. *)
Inductive OfferStrategy :=
| CoinOfferProductView
| CoinOfferSSR
| BundlesOfferStandard
| BundlesOfferSSR
| StaticOffer (offer_key : string) (params : list (string * string)).

(** [self.offer_key], as set by each [__init__]. *)
Definition offer_key (o : OfferStrategy) : string :=
  match o with
  | CoinOfferProductView => "coin_product_view"
  | CoinOfferSSR => "coin_ssr"
  | BundlesOfferStandard => "bundles_standard"
  | BundlesOfferSSR => "bundles_ssr"
  | StaticOffer offer_key _ => offer_key
  end.

(** [def build_urls(self, base_url, product_id) -> list[str]], by class. *)
Definition build_urls (o : OfferStrategy) (base_url product_id : string)
  : list string :=
  match o with
  | CoinOfferProductView =>
      let raw_url := base_url +:+ "?sourceType=620&channel=coin" in
      [_wrap_url_with_star_aliexpress raw_url]
  | CoinOfferSSR =>
      let raw_url :=
        "https://m.aliexpress.com/p/coin-index/index.html"
        +:+ "?_immersiveMode=true&from=syicon&productIds=" +:+ product_id in
      [raw_url]
  | BundlesOfferStandard =>
      let raw_url :=
        base_url +:+ "?sourceType=680&channel=bundles&afSmartRedirect=y" in
      [_wrap_url_with_star_aliexpress raw_url]
  | BundlesOfferSSR =>
      let raw_url :=
        "https://www.aliexpress.com/ssr/300000512/BundleDeals2"
        +:+ "?disableNav=YES&pha_manifest=ssr&_immersiveMode=true&productIds="
        +:+ product_id in
      [_wrap_url_with_star_aliexpress raw_url]
  | StaticOffer _ params =>
      let query := UrlEncode.urlencode params in
      let raw_url := base_url +:+ "?" +:+ query in
      [_wrap_url_with_star_aliexpress raw_url]
  end.

End Offers.

(** ** constants.py *)

Module Constants.
Import Offers.

Definition OFFERS : list OfferStrategy :=
  [CoinOfferSSR;
   StaticOffer "super"
     [("sourceType", "562"); ("channel", "sd"); ("afSmartRedirect", "y")];
   StaticOffer "bundels"
     [("sourceType", "570"); ("channel", "bundles"); ("afSmartRedirect", "y")];
   BundlesOfferSSR].

(** [OFFER_ORDER = [o.offer_key for o in OFFERS]]. *)
Definition OFFER_ORDER : list string := List.map offer_key OFFERS.

(** [OFFER_PARAMS = {o.offer_key: o for o in OFFERS}]: a later offer
    replaces an earlier one of the same key. *)
Definition OFFER_PARAMS : gmap string OfferStrategy :=
  foldl (fun d o => <[offer_key o := o]> d) ∅ OFFERS.

End Constants.

(** ** telegram_bot.py: the offer URLs and the tasks of a message *)

Module TelegramBot.
Import Offers Constants.

(** One turn of the loop of [_generate_offer_urls];
    [OFFER_PARAMS[offer_key]] raises [KeyError] for a key that is missing. *)
Definition offer_urls_step (base_url product_id : string)
    (acc : gmap string (list string) * list string) (offer_key : string)
  : Py.result (gmap string (list string) * list string) :=
  match OFFER_PARAMS !! offer_key with
  | Some offer_strategy_instance =>
      let offer_urls :=
        build_urls offer_strategy_instance base_url product_id in
      Py.Ok (<[offer_key := offer_urls]> (fst acc), snd acc ++ offer_urls)
  | None => Py.Raise Py.KeyError
  end.

(** A [for] loop threading an accumulator through a computation that may
    raise. *)
Fixpoint for_each_r {A B} (body : B -> A -> Py.result B) (l : list A) (acc : B)
  : Py.result B :=
  match l with
  | [] => Py.Ok acc
  | x :: l' => (acc' <- body acc x ;; for_each_r body l' acc')%py
  end.

(** [def _generate_offer_urls(self, base_url, product_id)]:
    [(target_urls_map, all_urls_to_fetch)]. *)
Definition _generate_offer_urls (base_url product_id : string)
  : Py.result (gmap string (list string) * list string) :=
  for_each_r (offer_urls_step base_url product_id) OFFER_ORDER (∅, []).

(** The top-level domains of the pattern tried on a URL without scheme. *)
Definition schemeless_tlds : list string :=
  ["com"; "ru"; "es"; "fr"; "pt"; "it"; "pl"; "nl"; "co.kr"; "co.jp";
   "com.br"; "com.tr"; "com.vn"; "id"; "th"; "ar"].

(** The pattern that [_resolve_and_prepare_product_tasks] tries, with
    [re.IGNORECASE], on a URL without scheme: an optional [www\.],
    [s\.click\.] or [a\.]; [[\w-]*]; [aliexpress\.]; a top-level domain. *)
Definition schemeless_pattern : Re.re :=
  Re.Cat (Re.Opt (Re.alts [Re.lit_i "www."; Re.lit_i "s.click."; Re.lit_i "a."]))
  (Re.Cat (Re.Star Re.word_or_dash)
  (Re.Cat (Re.lit_i "aliexpress.")
          (Re.alts (List.map Re.lit_i schemeless_tlds)))).

(** The start of a turn of the loop: the URL as it is when it starts with
    [http://] or [https://], the URL behind [https://] when the pattern
    finds a known domain, and [None] for the [continue]. *)
Definition with_scheme (url : string) : option string :=
  if String.prefix "http://" url || String.prefix "https://" url
  then Some url
  else if bool_decide (is_Some (Re.match_ schemeless_pattern url))
  then Some ("https://" +:+ url)
  else None.

(** The arguments of a coroutine [process_product_telegram(product_id,
    base_url, update, context)] that was created and not yet run. *)
Record ProductTask := mkProductTask {
  task_product_id : string;
  task_base_url : string
}.

(** [bool(s)] for [s : str | None]. *)
Definition nonempty (s : option string) : bool :=
  match s with
  | Some (String _ _) => true
  | _ => false
  end.

Section Bot.
Import World AliExpressClient URLProcessor.
Context (env : Env) (query_country : string).

(** [product_id] and [base_url] as the two branches on the kind of URL
    leave them. *)
Definition product_of_url (url : string)
  : task (option string * option string) :=
  if bool_decide (is_Some (Re.match_ STANDARD_ALIEXPRESS_DOMAIN_REGEX url))
  then
    (product_id <- lift (extract_product_id env url) ;;
     if nonempty product_id then
       base_url <-
         lift (clean_aliexpress_url env url (default "" product_id)) ;;
       ret (product_id, base_url)
     else ret (product_id, None))%task
  else if bool_decide (is_Some (Re.match_ SHORT_LINK_DOMAIN_REGEX url))
  then
    (final_url <- resolve_short_link env query_country url ;;
     if nonempty final_url then
       product_id <-
         lift (extract_product_id env (default "" final_url)) ;;
       if nonempty product_id then
         base_url <-
           lift (clean_aliexpress_url env (default "" final_url)
                                      (default "" product_id)) ;;
         ret (product_id, base_url)
       else ret (product_id, None)
     else ret (None, None))%task
  else ret (None, None).

(** One turn of the loop of [_resolve_and_prepare_product_tasks], on the
    set [processed_product_ids] and the list [tasks]. *)
Definition prepare_step (acc : gset string * list ProductTask)
    (url : string) : task (gset string * list ProductTask) :=
  match with_scheme url with
  | None => ret acc
  | Some url =>
      (found <- product_of_url url ;;
       let product_id := fst found in
       let base_url := snd found in
       if nonempty product_id && nonempty base_url
          && negb (bool_decide (default "" product_id ∈ fst acc))
       then ret ({[default "" product_id]} ∪ fst acc,
                 snd acc ++ [mkProductTask (default "" product_id)
                                           (default "" base_url)])
       else ret acc)%task
  end.

(** [async def _resolve_and_prepare_product_tasks(self, potential_urls,
    update, context)]: the tasks, in order. *)
Definition _resolve_and_prepare_product_tasks (potential_urls : list string)
  : task (list ProductTask) :=
  (acc <- for_each prepare_step potential_urls (∅, []) ;; ret (snd acc))%task.

End Bot.

End TelegramBot.

(** ** Sample data: a vendor, a configuration and states *)

Module Samples.
Import CacheManager World AliExpressClient.

Definition url_a : string := "https://www.aliexpress.com/item/1005006234567.html".

Definition url_b : string := "https://www.aliexpress.com/item/1005007654321.html".

Definition link_old : string := "https://s.click.aliexpress.com/e/_old".

Definition link_new : string := "https://s.click.aliexpress.com/e/_new".

Definition config : Config := mkConfig "tracking" "USD" "EN" "IL".

(** An item of the vendor's list. *)
Definition pair_for (source_value promotion_link : string) : Py.value :=
  Py.VDict [("source_value", Py.VStr source_value);
            ("promotion_link", Py.VStr promotion_link)].

(** A success response of the batch API carrying the given items. *)
Definition link_body (promotion_link : list Py.value) : Py.value :=
  Py.VDict
    [("aliexpress_affiliate_link_generate_response",
      Py.VDict
        [("resp_result",
          Py.VDict
            [("resp_code", Py.VInt 200);
             ("resp_msg", Py.VStr "success");
             ("result",
              Py.VDict
                [("promotion_links",
                  Py.VDict [("promotion_link", Py.VList promotion_link)])])])])].

(** A success response whose [promotion_links] is JSON's [null]. *)
Definition null_links_body : Py.value :=
  Py.VDict
    [("aliexpress_affiliate_link_generate_response",
      Py.VDict
        [("resp_result",
          Py.VDict
            [("resp_code", Py.VInt 200);
             ("result", Py.VDict [("promotion_links", Py.VNone)])])])].

(** A response whose [error_response] is a text instead of an object. *)
Definition error_text_body : Py.value :=
  Py.VDict [("error_response", Py.VStr "denied")].

(** Noon of 1 January 2024. *)
Definition noon : DateTime.datetime := DateTime.mkDatetime 738886 43200.

(** An environment whose vendor answers every call with [body]; the clock
    reads 100, then 101, and so on, and the date is that of [noon]. *)
Definition env_with (body : Py.value) : Env :=
  mkEnv (fun n => 100 + Z.of_nat n) (fun _ => noon) (fun _ => None)
        (fun _ _ => Py.Ok body)
        (fun _ _ => Py.Raise Py.TimeoutError) (fun t => Some t) (fun _ => true).

(** An environment whose vendor cannot be reached: every call raises. *)
Definition env_down : Env :=
  mkEnv (fun n => 100 + Z.of_nat n) (fun _ => noon) (fun _ => None)
        (fun _ _ => Py.Raise Py.OtherError)
        (fun _ _ => Py.Raise Py.TimeoutError) (fun t => Some t) (fun _ => true).

Definition short_url : string := "https://s.click.aliexpress.com/e/_abc".

(** An environment whose HTTP session redirects every URL to [url_a]. *)
Definition env_redirect : Env :=
  mkEnv (fun n => 100 + Z.of_nat n) (fun _ => noon) (fun _ => None)
        (fun _ _ => Py.Raise Py.OtherError)
        (fun _ _ => Py.Ok (200, url_a)) (fun t => Some t) (fun _ => true).

(** The caches as [CacheManager(30)] creates them. *)
Definition w_empty : world := cache_manager_init 30.

(** The link of [url_a] was cached at time 50. *)
Definition w_cached : world :=
  set_link_cache (set 50 url_a (Py.VStr link_old) (link_cache w_empty)) w_empty.


(** An item of the vendor's list whose promotion link is a number. *)
Definition number_pair (source_value : string) : Py.value :=
  Py.VDict [("source_value", Py.VStr source_value);
            ("promotion_link", Py.VInt 7)].

(** The caches as [CacheManager(4000000)] creates them: the expiry leads
    beyond the year 9999. *)
Definition w_long : world := cache_manager_init 4000000.

(** A success response of the product API with one product. *)
Definition product_body : Py.value :=
  Py.VDict
    [("aliexpress_affiliate_productdetail_get_response",
      Py.VDict
        [("resp_result",
          Py.VDict
            [("resp_code", Py.VInt 200);
             ("result",
              Py.VDict
                [("products",
                  Py.VDict
                    [("product",
                      Py.VList
                        [Py.VDict
                           [("product_title", Py.VStr "Lamp");
                            ("target_sale_price", Py.VStr "9.99")]])])])])])].

(** A cache of two entries stored at times 0 and 90, with expiry 50. *)
Definition two_entries : CacheWithExpiry string string :=
  mkCache (<["old" := ("x", 0)]> (<["new" := ("y", 90)]> ∅)) 50.

End Samples.

(** * Properties *)

(** ** The expiring cache *)

Module CacheFacts.
Import CacheManager.

Section Facts.
Context {K : Type} `{Countable K} {V : Type}.
Implicit Types (c : CacheWithExpiry K V) (m : gmap K (V * Z)).

Lemma expiry_with_cache c m : expiry_seconds (with_cache c m) = expiry_seconds c.
Proof. reflexivity. Qed.

Lemma cache_with_cache c m : cache (with_cache c m) = m.
Proof. reflexivity. Qed.

Lemma get_fresh now key item timestamp c :
  cache c !! key = Some (item, timestamp) ->
  now - timestamp < expiry_seconds c ->
  get now key c = (Some item, c).
Proof.
  intros Hk Hlt. unfold get. rewrite Hk.
  destruct (Z.ltb_spec (now - timestamp) (expiry_seconds c)); [done | lia].
Qed.

Lemma get_stale now key item timestamp c :
  cache c !! key = Some (item, timestamp) ->
  expiry_seconds c <= now - timestamp ->
  get now key c = (None, with_cache c (delete key (cache c))).
Proof.
  intros Hk Hge. unfold get. rewrite Hk.
  destruct (Z.ltb_spec (now - timestamp) (expiry_seconds c)); [lia | done].
Qed.

Lemma get_missing now key c :
  cache c !! key = None -> get now key c = (None, c).
Proof. intros Hk. unfold get. by rewrite Hk. Qed.

(** What [get] leaves in the dict: the entry read is dropped when it is
    stale, every other entry stays. *)
Lemma get_cache_lookup now key c j :
  cache (snd (get now key c)) !! j = cache c !! j
  \/ (j = key /\ cache (snd (get now key c)) !! j = None).
Proof.
  unfold get. destruct (cache c !! key) as [[item t]|] eqn:Hk; [|by left].
  destruct (now - t <? expiry_seconds c); [by left|]. simpl.
  destruct (decide (j = key)) as [->|Hne].
  - right. by rewrite lookup_delete_eq.
  - left. by rewrite lookup_delete_ne.
Qed.

Lemma get_expiry now key c :
  expiry_seconds (snd (get now key c)) = expiry_seconds c.
Proof.
  unfold get. destruct (cache c !! key) as [[item t]|]; [|done].
  by destruct (now - t <? expiry_seconds c).
Qed.

(** A value handed out by [get] is the one stored under the key. *)
Lemma get_Some now key c item :
  fst (get now key c) = Some item ->
  exists timestamp, cache c !! key = Some (item, timestamp)
    /\ now - timestamp < expiry_seconds c /\ snd (get now key c) = c.
Proof.
  unfold get. destruct (cache c !! key) as [[item' t]|]; [|done].
  destruct (Z.ltb_spec (now - t) (expiry_seconds c)); [|done].
  simpl. intros [= ->]. eauto.
Qed.

(** The keys collected by [clear_expired] are those of the stale entries,
    each once. *)
Lemma elem_of_expired_keys now c key :
  key ∈ expired_keys now c <->
  exists item timestamp, cache c !! key = Some (item, timestamp)
    /\ expiry_seconds c <= now - timestamp.
Proof.
  unfold expired_keys. rewrite list_elem_of_fmap. split.
  - intros [[k [item t]] [-> Hin]]. apply list_elem_of_In, filter_In in Hin.
    destruct Hin as [Hin Hexp]. apply list_elem_of_In, elem_of_map_to_list in Hin.
    exists item, t. split; [done|]. unfold is_expired in Hexp. simpl in *. lia.
  - intros (item & t & Hk & Hge). exists (key, (item, t)). split; [done|].
    apply list_elem_of_In, filter_In. split.
    + by apply list_elem_of_In, elem_of_map_to_list.
    + unfold is_expired. simpl. lia.
Qed.

Lemma NoDup_fst_filter (p : K * (V * Z) -> bool) (l : list (K * (V * Z))) :
  NoDup l.*1 -> NoDup (List.filter p l).*1.
Proof.
  induction l as [|x l IH]; simpl; [done|].
  rewrite NoDup_cons. intros [Hx Hl]. destruct (p x); simpl; [|by auto].
  apply NoDup_cons. split; [|by auto].
  intros Hin. apply Hx. apply list_elem_of_fmap in Hin as [y [-> Hy]].
  apply list_elem_of_fmap. exists y. split; [done|].
  apply list_elem_of_In. apply list_elem_of_In, filter_In in Hy. tauto.
Qed.

Lemma NoDup_expired_keys now c : NoDup (expired_keys now c).
Proof. apply NoDup_fst_filter, NoDup_fst_map_to_list. Qed.

(** The deletion loop over distinct keys of the dict: every key is
    removed and counted. *)
Lemma foldl_del_step (keys : list K) : forall (n : Z) m,
  NoDup keys ->
  (forall k, k ∈ keys -> is_Some (m !! k)) ->
  fst (foldl del_step (n, m) keys) = n + Z.of_nat (length keys)
  /\ forall j, snd (foldl del_step (n, m) keys) !! j
               = if decide (j ∈ keys) then None else m !! j.
Proof.
  induction keys as [|k keys IH]; intros n m Hnd Hin.
  - split; [simpl; lia|]. intros j. simpl foldl.
    destruct (decide (j ∈ [])) as [Hj|Hj]; [|done]. by apply elem_of_nil in Hj.
  - apply NoDup_cons in Hnd as [Hk Hnd].
    destruct (Hin k) as [x Hx]; [by left|].
    simpl foldl. simpl length. unfold del_step at 2 4. simpl fst. simpl snd.
    rewrite Hx.
    destruct (IH (n + 1) (delete k m) Hnd) as [Hcount Hrest].
    { intros k' Hk'. rewrite lookup_delete_ne; [|by intros ->].
      apply Hin. by right. }
    split; [rewrite Hcount; lia|].
    intros j. rewrite Hrest.
    destruct (decide (j = k)) as [->|Hne].
    + rewrite lookup_delete_eq.
      destruct (decide (k ∈ k :: keys)) as [_|Hn]; [by destruct (decide _)|].
      exfalso. apply Hn. by left.
    + rewrite lookup_delete_ne by done.
      destruct (decide (j ∈ keys)) as [Hj|Hj];
        destruct (decide (j ∈ k :: keys)) as [Hj'|Hj']; try done.
      * exfalso. apply Hj'. by right.
      * apply elem_of_cons in Hj' as [?|?]; done.
Qed.

Lemma foldl_del_step_size (keys : list K) : forall (n : Z) m,
  NoDup keys ->
  (forall k, k ∈ keys -> is_Some (m !! k)) ->
  size m = (size (snd (foldl del_step (n, m) keys)) + length keys)%nat.
Proof.
  induction keys as [|k keys IH]; intros n m Hnd Hin.
  - simpl. lia.
  - apply NoDup_cons in Hnd as [Hk Hnd].
    destruct (Hin k) as [x Hx]; [by left|].
    simpl foldl. simpl length. unfold del_step at 2. simpl fst. simpl snd.
    rewrite Hx.
    rewrite Nat.add_succ_r, <- (IH (n + 1) (delete k m) Hnd).
    + rewrite map_size_delete_Some by eauto.
      assert (size m <> 0%nat); [|lia].
      intros Hz. apply map_size_empty_inv in Hz. subst m.
      by rewrite lookup_empty in Hx.
    + intros k' Hk'. rewrite lookup_delete_ne; [|by intros ->].
      apply Hin. by right.
Qed.

(** [clear_expired] returns the number of stale entries and leaves the
    fresh ones. *)
Lemma clear_expired_count now c :
  fst (clear_expired now c) = Z.of_nat (length (expired_keys now c)).
Proof.
  unfold clear_expired. simpl.
  destruct (foldl_del_step (expired_keys now c) 0 (cache c)) as [Hc _].
  - apply NoDup_expired_keys.
  - intros k Hk. apply elem_of_expired_keys in Hk as (i & t & Hk & _). eauto.
  - rewrite Hc. lia.
Qed.

Lemma clear_expired_lookup now c j :
  cache (snd (clear_expired now c)) !! j =
  match cache c !! j with
  | Some (item, timestamp) =>
      if expiry_seconds c <=? now - timestamp then None
      else Some (item, timestamp)
  | None => None
  end.
Proof.
  unfold clear_expired. simpl.
  destruct (foldl_del_step (expired_keys now c) 0 (cache c)) as [_ Hl].
  - apply NoDup_expired_keys.
  - intros k Hk. apply elem_of_expired_keys in Hk as (i & t & Hk & _). eauto.
  - rewrite Hl. case_decide as Hj.
    + apply elem_of_expired_keys in Hj as (i & t & Hk & Hge). rewrite Hk.
      destruct (Z.leb_spec (expiry_seconds c) (now - t)); [done|lia].
    + destruct (cache c !! j) as [[i t]|] eqn:Hk; [|done].
      destruct (Z.leb_spec (expiry_seconds c) (now - t)); [|done].
      exfalso. apply Hj, elem_of_expired_keys. eauto.
Qed.

Lemma clear_expired_expiry now c :
  expiry_seconds (snd (clear_expired now c)) = expiry_seconds c.
Proof. reflexivity. Qed.

(** C3. After [set(k, v)] at [t0], [get(k)] at [t1] returns [v] when
    [t1 - t0 < ttl]; when [t1 - t0 >= ttl] it returns nothing and the
    stale entry is gone from the dict. *)
Theorem get_after_set key value t0 t1 c :
  let c0 := set t0 key value c in
  (t1 - t0 < expiry_seconds c -> get t1 key c0 = (Some value, c0))
  /\ (expiry_seconds c <= t1 - t0 ->
      fst (get t1 key c0) = None
      /\ cache (snd (get t1 key c0)) !! key = None
      /\ cache (snd (get t1 key c0)) = delete key (cache c0)).
Proof.
  intros c0.
  assert (Hk : cache c0 !! key = Some (value, t0)) by apply lookup_insert_eq.
  split; intros Ht.
  - by apply (get_fresh _ _ _ _ _ Hk).
  - rewrite (get_stale _ _ _ _ _ Hk) by done. simpl.
    split; [done|]. split; [apply lookup_delete_eq|done].
Qed.

(** C9. The first sweep removes every entry whose age is at least the
    expiry and returns their number; a second sweep with no [set] in
    between, at a clock reading by which no further entry has come of
    age, returns 0. *)
Theorem clear_expired_twice now1 now2 c :
  (forall key item timestamp,
      cache c !! key = Some (item, timestamp) ->
      now1 - timestamp < expiry_seconds c ->
      now2 - timestamp < expiry_seconds c) ->
  let first := clear_expired now1 c in
  fst first = Z.of_nat (size (cache c)) - Z.of_nat (size (cache (snd first)))
  /\ (forall key item timestamp,
        cache (snd first) !! key = Some (item, timestamp) ->
        cache c !! key = Some (item, timestamp)
        /\ now1 - timestamp < expiry_seconds c)
  /\ (forall key item timestamp,
        cache c !! key = Some (item, timestamp) ->
        now1 - timestamp < expiry_seconds c ->
        cache (snd first) !! key = Some (item, timestamp))
  /\ fst (clear_expired now2 (snd first)) = 0.
Proof.
  intros Hquiet first. subst first.
  assert (Hfresh : forall key item timestamp,
             cache (snd (clear_expired now1 c)) !! key = Some (item, timestamp) ->
             cache c !! key = Some (item, timestamp)
             /\ now1 - timestamp < expiry_seconds c).
  { intros key item t. rewrite clear_expired_lookup.
    destruct (cache c !! key) as [[i t']|]; [|done].
    destruct (Z.leb_spec (expiry_seconds c) (now1 - t')); [done|].
    intros [= -> ->]. done. }
  split; [|split; [done|split]].
  - rewrite clear_expired_count. unfold clear_expired. simpl snd.
    rewrite cache_with_cache.
    rewrite (foldl_del_step_size (expired_keys now1 c) 0 (cache c)).
    + lia.
    + apply NoDup_expired_keys.
    + intros k Hk. apply elem_of_expired_keys in Hk as (i & t & Hk & _). eauto.
  - intros key item t Hk Hlt. rewrite clear_expired_lookup, Hk.
    destruct (Z.leb_spec (expiry_seconds c) (now1 - t)); [lia|done].
  - rewrite clear_expired_count.
    destruct (expired_keys now2 (snd (clear_expired now1 c))) as [|k l] eqn:Hkeys;
      [done|].
    assert (Hk : k ∈ expired_keys now2 (snd (clear_expired now1 c)))
      by (rewrite Hkeys; by left).
    apply elem_of_expired_keys in Hk as (i & t & Hk & Hge).
    rewrite clear_expired_expiry in Hge.
    apply Hfresh in Hk as [Hk Hlt]. specialize (Hquiet _ _ _ Hk Hlt). lia.
Qed.

(** The number removed by a second sweep in general: the entries that
    came of age between the two clock readings. *)
Lemma clear_expired_again now1 now2 c :
  fst (clear_expired now2 (snd (clear_expired now1 c)))
  = Z.of_nat (length (expired_keys now2 (snd (clear_expired now1 c)))).
Proof. apply clear_expired_count. Qed.

End Facts.

Lemma get_after_set_witness :
  get 120 "k" (set 100 "k" "v" Samples.two_entries)
  = (Some "v", set 100 "k" "v" Samples.two_entries)
  /\ fst (get 150 "k" (set 100 "k" "v" Samples.two_entries)) = None.
Proof.
  split.
  - apply (proj1 (get_after_set "k" "v" 100 120 Samples.two_entries)).
    simpl. lia.
  - apply (proj2 (get_after_set "k" "v" 100 150 Samples.two_entries)).
    simpl. lia.
Defined.

Lemma clear_expired_twice_witness :
  fst (clear_expired 101 (snd (clear_expired 100 Samples.two_entries))) = 0.
Proof.
  apply (clear_expired_twice 100 101 Samples.two_entries).
  intros key item timestamp Hk Hlt. simpl in Hk, Hlt.
  destruct (decide (key = "old")) as [->|Hold].
  { rewrite lookup_insert_eq in Hk. injection Hk as <- <-. simpl. lia. }
  rewrite lookup_insert_ne in Hk by done.
  destruct (decide (key = "new")) as [->|Hnew].
  { rewrite lookup_insert_eq in Hk. injection Hk as <- <-. simpl. lia. }
  rewrite lookup_insert_ne in Hk by done. by rewrite lookup_empty in Hk.
Defined.

End CacheFacts.

(** ** The coroutines and the state *)

Module TaskFacts.
Import CacheManager World.

Lemma bind_Ok {A B} (m : task A) (k : A -> task B) w a w1 :
  m w = (Py.Ok a, w1) -> bind m k w = k a w1.
Proof. intros Hm. unfold bind. by rewrite Hm. Qed.

Lemma bind_Raise {A B} (m : task A) (k : A -> task B) w e w1 :
  m w = (Py.Raise e, w1) -> bind m k w = (Py.Raise e, w1).
Proof. intros Hm. unfold bind. by rewrite Hm. Qed.

Lemma same_but_links_refl w : same_but_links w w.
Proof. by repeat split. Qed.

Lemma same_but_links_trans w1 w2 w3 :
  same_but_links w1 w2 -> same_but_links w2 w3 -> same_but_links w1 w3.
Proof.
  intros (?&?&?&?&?&?) (?&?&?&?&?&?). repeat split; congruence.
Qed.

Section Facts.
Context (env : Env).

(** [link_cache.get] runs [get] at some clock reading and touches the
    link cache and the clock only. *)
Lemma link_cache_get_run key w :
  exists now w',
    link_cache_get env key w
      = (Py.Ok (fst (get now key (link_cache w))), w')
    /\ link_cache w' = snd (get now key (link_cache w))
    /\ (is_Some (cache (link_cache w) !! key) ->
        now = time_time env (clock_reads w)
        /\ clock_reads w' = S (clock_reads w))
    /\ same_but_links w w'.
Proof.
  unfold link_cache_get, cache_get.
  destruct (cache (link_cache w) !! key) as [e|] eqn:Hk.
  - exists (time_time env (clock_reads w)).
    unfold bind, time_now, ret. simpl.
    destruct (get _ key (link_cache w)) as [r c] eqn:Hg. simpl.
    eexists. split; [reflexivity|]. by repeat split.
  - exists 0, w. rewrite (CacheFacts.get_missing _ _ _ Hk).
    unfold ret. simpl. destruct w; simpl.
    split; [done|]. split; [done|]. split; [by intros [? ?]|by repeat split].
Qed.

(** [link_cache.set] stores the value at the current clock reading. *)
Lemma link_cache_set_run key v w :
  exists w',
    link_cache_set env key v w = (Py.Ok tt, w')
    /\ link_cache w' = set (time_time env (clock_reads w)) key v (link_cache w)
    /\ same_but_links w w'.
Proof.
  eexists. unfold link_cache_set, cache_set, bind, time_now, ret. simpl.
  split; [reflexivity|]. by repeat split.
Qed.

End Facts.

End TaskFacts.

(** ** The affiliate client *)

Module ClientFacts.
Import CacheManager World AliExpressClient TaskFacts.

Section Facts.
Context (env : Env) (self : Config).

(** One turn of the cache check: a [get] on the link cache, and the URL
    filed as a hit or as a miss. *)
Lemma check_cache_step_run acc url w :
  exists now w',
    check_cache_step env acc url w
    = (Py.Ok (if Py.truthy_opt (fst (get now url (link_cache w)))
              then (<[url := default Py.VNone (fst (get now url (link_cache w)))]>
                      (fst acc), snd acc)
              else (<[url := Py.VNone]> (fst acc), snd acc ++ [url])), w')
    /\ link_cache w' = snd (get now url (link_cache w))
    /\ (is_Some (cache (link_cache w) !! url) ->
        now = time_time env (clock_reads w)
        /\ clock_reads w' = S (clock_reads w))
    /\ same_but_links w w'.
Proof.
  destruct (link_cache_get_run env url w) as (now & w' & Hrun & Hc & Hnow & Hfr).
  exists now, w'. unfold check_cache_step. rewrite (bind_Ok _ _ _ _ _ Hrun).
  split; [|done]. by destruct (Py.truthy_opt _).
Qed.

(** The cache check never raises; it files every input URL in the result
    dict, reads the link cache without adding to it, and reports as
    uncached only input URLs, among them every URL with no entry. *)
Lemma check_loop_run urls : forall acc w,
  exists res unc w',
    for_each (check_cache_step env) urls acc w = (Py.Ok (res, unc), w')
    /\ same_but_links w w'
    /\ expiry_seconds (link_cache w') = expiry_seconds (link_cache w)
    /\ (forall k e, cache (link_cache w') !! k = Some e ->
                    cache (link_cache w) !! k = Some e)
    /\ dom res = dom (fst acc) ∪ list_to_set urls
    /\ (forall u v, res !! u = Some v ->
          fst acc !! u = Some v
          \/ (u ∈ urls
              /\ (v = Py.VNone
                  \/ (Py.truthy v = true
                      /\ exists t, cache (link_cache w) !! u = Some (v, t)))))
    /\ exists misses,
         unc = snd acc ++ misses
         /\ (forall u, u ∈ misses -> u ∈ urls)
         /\ (forall u, u ∈ urls -> cache (link_cache w) !! u = None ->
                       u ∈ misses).
Proof.
  induction urls as [|url urls IH]; intros acc w.
  - exists (fst acc), (snd acc), w. simpl. unfold ret. destruct acc as [res unc].
    simpl. split; [done|]. split; [apply same_but_links_refl|].
    split; [done|]. split; [done|]. split; [set_solver|].
    split; [by left|]. exists []. rewrite app_nil_r.
    split; [done|]. split; intros u Hu; by apply elem_of_nil in Hu.
  - destruct (check_cache_step_run acc url w)
      as (now & w1 & Hstep & Hc1 & _ & Hfr1).
    simpl for_each. rewrite (bind_Ok _ _ _ _ _ Hstep).
    set (acc1 := if Py.truthy_opt _ then _ else _) in *.
    destruct (IH acc1 w1)
      as (res & unc & w' & Hrun & Hfr & Hexp & Hsub & Hdom & Hval & misses
          & Hunc & Hmiss_in & Hmiss_all).
    assert (Hsub1 : forall k e, cache (link_cache w1) !! k = Some e ->
                                cache (link_cache w) !! k = Some e).
    { intros k e. rewrite Hc1.
      destruct (CacheFacts.get_cache_lookup now url (link_cache w) k)
        as [-> | [_ ->]]; done. }
    exists res, unc, w'. split; [done|].
    split; [by eapply same_but_links_trans|].
    split; [by rewrite Hexp, Hc1, CacheFacts.get_expiry|].
    split; [by auto|].
    assert (Hacc1 : dom (fst acc1) = dom (fst acc) ∪ {[url]}).
    { subst acc1. destruct (Py.truthy_opt _); simpl; set_solver. }
    split; [rewrite Hdom, Hacc1; set_solver|].
    split.
    { intros u v Huv. destruct (Hval u v Huv) as [Hacc | (Hin & Hv)].
      - subst acc1.
        destruct (fst (get now url (link_cache w))) as [item|] eqn:Hget;
          simpl in Hacc.
        + destruct (Py.truthy item) eqn:Htruthy; simpl in Hacc.
          * destruct (decide (u = url)) as [->|Hne].
            -- rewrite lookup_insert_eq in Hacc. injection Hacc as <-.
               apply CacheFacts.get_Some in Hget as (t & Hk & _).
               right. split; [by left|]. right. eauto.
            -- rewrite lookup_insert_ne in Hacc by done. by left.
          * destruct (decide (u = url)) as [->|Hne].
            -- rewrite lookup_insert_eq in Hacc. injection Hacc as <-.
               right. split; [by left|]. by left.
            -- rewrite lookup_insert_ne in Hacc by done. by left.
        + destruct (decide (u = url)) as [->|Hne].
          * rewrite lookup_insert_eq in Hacc. injection Hacc as <-.
            right. split; [by left|]. by left.
          * rewrite lookup_insert_ne in Hacc by done. by left.
      - right. split; [by right|].
        destruct Hv as [->|(Htr & t & Hk)]; [by left|]. right. eauto. }
    destruct (Py.truthy_opt (fst (get now url (link_cache w)))) eqn:Hhit;
      subst acc1; simpl in Hunc.
    + exists misses. split; [done|]. split; [intros u Hu; right; auto|].
      intros u Hu Hnone. apply elem_of_cons in Hu as [->|Hu].
      * rewrite (CacheFacts.get_missing _ _ _ Hnone) in Hhit. done.
      * apply Hmiss_all; [done|].
        destruct (cache (link_cache w1) !! u) eqn:Hk1; [|done].
        apply Hsub1 in Hk1. congruence.
    + exists (url :: misses). rewrite <- app_assoc in Hunc.
      split; [done|]. split.
      * intros u Hu. apply elem_of_cons in Hu as [->|Hu]; [by left|].
        right. auto.
      * intros u Hu Hnone. apply elem_of_cons in Hu as [->|Hu]; [by left|].
        right. apply Hmiss_all; [done|].
        destruct (cache (link_cache w1) !! u) eqn:Hk1; [|done].
        apply Hsub1 in Hk1. congruence.
Qed.

(** The items that the parser hands over are dicts. *)
Lemma parse_items_are_dicts response_body api_links_data :
  _parse_api_promotion_response env response_body = Py.Ok api_links_data ->
  Forall (fun link_info => Py.is_dict link_info = true) api_links_data.
Proof.
  unfold _parse_api_promotion_response, Py.rbind.
  repeat case_match; intros [= <-]; try by constructor.
  apply Forall_forall. intros x Hx.
  apply list_elem_of_In, filter_In in Hx. tauto.
Qed.

Lemma get_of_dict link_info key :
  Py.is_dict link_info = true ->
  Py.get link_info key Py.VNone = Py.Ok (field key link_info).
Proof. destruct link_info; try done. Qed.

Lemma update_step_eq res link_info w :
  Py.is_dict link_info = true ->
  update_step env res link_info w =
  if complete_pair link_info then
    match in_results (field "source_value" link_info) res with
    | Py.Ok (Some key) =>
        match link_cache_set env key (field "promotion_link" link_info) w with
        | (Py.Ok _, w') =>
            (Py.Ok (<[key := field "promotion_link" link_info]> res), w')
        | (Py.Raise e, w') => (Py.Raise e, w')
        end
    | Py.Ok None => (Py.Ok res, w)
    | Py.Raise e => (Py.Raise e, w)
    end
  else (Py.Ok res, w).
Proof.
  intros Hdict. unfold update_step, complete_pair, bind, lift, ret.
  rewrite !(get_of_dict _ _ Hdict).
  destruct (Py.truthy (field "source_value" link_info)
            && Py.truthy (field "promotion_link" link_info)); [|done].
  destruct (in_results _ res) as [[key|]|e]; try done.
Qed.

(** One turn of the merge, on a dict of the vendor's list: the item is
    skipped, or its source value cannot be hashed, or it names no key of
    the result dict, or its link is recorded and cached. *)
Lemma update_step_run res link_info w :
  Py.is_dict link_info = true ->
  (complete_pair link_info = false
   /\ update_step env res link_info w = (Py.Ok res, w))
  \/ (complete_pair link_info = true
      /\ hashable (field "source_value" link_info) = false
      /\ update_step env res link_info w = (Py.Raise Py.TypeError, w))
  \/ (complete_pair link_info = true
      /\ hashable (field "source_value" link_info) = true
      /\ (forall key, field "source_value" link_info = Py.VStr key ->
                      res !! key = None)
      /\ update_step env res link_info w = (Py.Ok res, w))
  \/ (complete_pair link_info = true
      /\ exists key w',
          field "source_value" link_info = Py.VStr key
          /\ is_Some (res !! key)
          /\ update_step env res link_info w
             = (Py.Ok (<[key := field "promotion_link" link_info]> res), w')
          /\ link_cache w'
             = set (time_time env (clock_reads w)) key
                   (field "promotion_link" link_info) (link_cache w)
          /\ same_but_links w w').
Proof.
  intros Hdict. rewrite !(update_step_eq _ _ _ Hdict).
  destruct (complete_pair link_info) eqn:Hc; [|by left].
  right.
  destruct (field "source_value" link_info) as [| | | |s|l|d] eqn:Hsrc;
    simpl in_results; simpl hashable.
  1-4: right; left; repeat split; done.
  2-3: left; by repeat split.
  case_bool_decide as Hin.
  - right. right. split; [done|].
    destruct (link_cache_set_run env s (field "promotion_link" link_info) w)
      as (w' & Hrun & Hc' & Hfr).
    exists s, w'. rewrite Hrun. done.
  - right. left. repeat split; try done.
    intros key [= <-]. by destruct (res !! s); [exfalso; eauto|].
Qed.

Lemma complete_pair_from_vendor link_info key :
  complete_pair link_info = true ->
  field "source_value" link_info = Py.VStr key ->
  key <> EmptyString /\ Py.truthy (field "promotion_link" link_info) = true.
Proof.
  unfold complete_pair. intros Hc Hs. rewrite Hs in Hc.
  apply andb_true_iff in Hc as [Hk Hp]. split; [|done].
  intros ->. done.
Qed.

(** The merge loop: it touches the link cache and the clock only; every
    entry it leaves in the link cache was there before or is a link of the
    vendor's list stored under a key of the result dict; a result dict it
    returns has the keys it started with, each value kept or taken from
    the vendor's list; and it returns when every item is usable. *)
Lemma update_loop_run api_links_data :
  Forall (fun link_info => Py.is_dict link_info = true) api_links_data ->
  forall res w,
  let r := for_each (update_step env) api_links_data res w in
  same_but_links w (snd r)
  /\ expiry_seconds (link_cache (snd r)) = expiry_seconds (link_cache w)
  /\ (forall k v t,
        cache (link_cache (snd r)) !! k = Some (v, t) ->
        cache (link_cache w) !! k = Some (v, t)
        \/ (k ∈ dom res /\ from_vendor api_links_data k v))
  /\ (forall res', fst r = Py.Ok res' ->
        dom res' = dom res
        /\ forall u v, res' !! u = Some v ->
              res !! u = Some v \/ from_vendor api_links_data u v)
  /\ (forallb usable_pair api_links_data = true -> exists res', fst r = Py.Ok res').
Proof.
  induction 1 as [|link_info items Hdict Hitems IH]; intros res w r; subst r.
  - simpl. unfold ret. simpl. split; [apply same_but_links_refl|].
    split; [done|]. split; [by left|]. split; [|by eauto].
    intros res' [= <-]. split; [done|]. by left.
  - simpl for_each.
    assert (Hweaken : forall k v, from_vendor items k v ->
                                  from_vendor (link_info :: items) k v).
    { intros k v (li & Hli & Hrest). exists li. split; [by right|done]. }
    destruct (update_step_run res link_info w Hdict)
      as [[Hc Hrun] | [(Hc & Hh & Hrun) | [(Hc & Hh & Hno & Hrun)
          | (Hc & key & w1 & Hsrc & Hkey & Hrun & Hset & Hfr)]]].
    + rewrite (bind_Ok _ _ _ _ _ Hrun).
      destruct (IH res w) as (Hfr & Hexp & Hcache & Hres & Hok).
      split; [done|]. split; [done|]. split.
      { intros k v t Hk. destruct (Hcache k v t Hk) as [?|[? ?]]; auto. }
      split.
      { intros res' Hr. destruct (Hres res' Hr) as [Hd Hv]. split; [done|].
        intros u v Huv. destruct (Hv u v Huv); auto. }
      simpl. unfold usable_pair at 1. rewrite Hc. simpl. done.
    + rewrite (bind_Raise _ _ _ _ _ Hrun). simpl.
      split; [apply same_but_links_refl|]. split; [done|].
      split; [by left|]. split; [done|].
      unfold usable_pair at 1. rewrite Hc, Hh. done.
    + rewrite (bind_Ok _ _ _ _ _ Hrun).
      destruct (IH res w) as (Hfr & Hexp & Hcache & Hres & Hok).
      split; [done|]. split; [done|]. split.
      { intros k v t Hk. destruct (Hcache k v t Hk) as [?|[? ?]]; auto. }
      split.
      { intros res' Hr. destruct (Hres res' Hr) as [Hd Hv]. split; [done|].
        intros u v Huv. destruct (Hv u v Huv); auto. }
      simpl. unfold usable_pair at 1. rewrite Hc, Hh. simpl. done.
    + rewrite (bind_Ok _ _ _ _ _ Hrun).
      set (promo := field "promotion_link" link_info) in *.
      destruct (complete_pair_from_vendor _ _ Hc Hsrc) as [Hne Htruthy].
      assert (Hnew : from_vendor (link_info :: items) key promo).
      { exists link_info. split; [by left|]. done. }
      assert (Hdom1 : dom (<[key := promo]> res) = dom res).
      { rewrite dom_insert_L. apply elem_of_dom in Hkey. set_solver. }
      destruct (IH (<[key := promo]> res) w1) as (Hfr' & Hexp & Hcache & Hres & Hok).
      split; [by eapply same_but_links_trans|].
      split; [by rewrite Hexp, Hset|]. split.
      { intros k v t Hk. destruct (Hcache k v t Hk) as [Hold|[Hin Hv]].
        - rewrite Hset in Hold. simpl in Hold.
          destruct (decide (k = key)) as [->|Hkne].
          + rewrite lookup_insert_eq in Hold. injection Hold as <- <-.
            right. split; [by apply elem_of_dom|done].
          + rewrite lookup_insert_ne in Hold by done. by left.
        - right. rewrite Hdom1 in Hin. auto. }
      split.
      { intros res' Hr. destruct (Hres res' Hr) as [Hd Hv].
        split; [by rewrite Hd|].
        intros u v Huv. destruct (Hv u v Huv) as [Hold|?]; [|by auto].
        destruct (decide (u = key)) as [->|Hune].
        - rewrite lookup_insert_eq in Hold. injection Hold as <-. by right.
        - rewrite lookup_insert_ne in Hold by done. by left. }
      simpl. intros Hall. apply andb_true_iff in Hall as [_ Hall]. auto.
Qed.

(** The expiry date is computed or the addition overflows; the state
    changes in the number of readings of [datetime.now()] only. *)
Lemma expiry_date_run w :
  let r := expiry_date env w in
  ((exists d, fst r = Py.Ok d) \/ fst r = Py.Raise Py.OverflowError)
  /\ link_cache (snd r) = link_cache w
  /\ clock_reads (snd r) = clock_reads w
  /\ product_cache (snd r) = product_cache w
  /\ resolved_url_cache (snd r) = resolved_url_cache w
  /\ api_calls (snd r) = api_calls w
  /\ http_calls (snd r) = http_calls w
  /\ cache_expiry_seconds (snd r) = cache_expiry_seconds w.
Proof.
  unfold expiry_date, bind, date_now, lift, DateTime.timedelta_of_seconds,
    DateTime.add, Py.rbind. simpl.
  repeat case_match; simplify_eq/=; split_and!; eauto.
Qed.

(** Whether the expiry date fits depends on the state through the expiry
    and the number of readings of [datetime.now()] only. *)
Lemma expiry_date_fits_same w w' :
  cache_expiry_seconds w' = cache_expiry_seconds w ->
  datetime_reads w' = datetime_reads w ->
  expiry_date_fits env w' = expiry_date_fits env w.
Proof.
  intros Hexp Hreads.
  unfold expiry_date_fits, expiry_date, bind, date_now, lift. simpl.
  by rewrite Hexp, Hreads.
Qed.

(** The merge as a whole: the expiry date, then the loop.  What holds of
    the loop holds of the merge, which returns when the expiry date fits
    and every item is usable, and raises [OverflowError] before the loop
    when the date does not fit. *)
Lemma update_results_run api_links_data :
  Forall (fun link_info => Py.is_dict link_info = true) api_links_data ->
  forall res unc w,
  let r := _update_results_and_cache env res unc api_links_data w in
  (product_cache (snd r) = product_cache w
   /\ resolved_url_cache (snd r) = resolved_url_cache w
   /\ api_calls (snd r) = api_calls w
   /\ http_calls (snd r) = http_calls w)
  /\ expiry_seconds (link_cache (snd r)) = expiry_seconds (link_cache w)
  /\ (forall k v t,
        cache (link_cache (snd r)) !! k = Some (v, t) ->
        cache (link_cache w) !! k = Some (v, t)
        \/ (k ∈ dom res /\ from_vendor api_links_data k v))
  /\ (forall res', fst r = Py.Ok res' ->
        dom res' = dom res
        /\ forall u v, res' !! u = Some v ->
              res !! u = Some v \/ from_vendor api_links_data u v)
  /\ (expiry_date_fits env w = true ->
      forallb usable_pair api_links_data = true -> exists res', fst r = Py.Ok res')
  /\ (expiry_date_fits env w = false ->
      r = (Py.Raise Py.OverflowError, snd (expiry_date env w))).
Proof.
  intros Hdicts res unc w r. subst r.
  unfold _update_results_and_cache, bind, expiry_date_fits.
  destruct (expiry_date_run w)
    as (Hr & Hlinks & Hclock & Hprod & Hres & Hapi & Hhttp & Hexp).
  destruct (expiry_date env w) as [[d|e] w1] eqn:Hdate; simpl in *.
  - destruct (update_loop_run api_links_data Hdicts res w1)
      as ((Hp & Hr' & Ha & Hh & _) & Hexp' & Hcache & Hdom & Hok).
    split; [split_and!; congruence|]. split; [congruence|].
    split; [by rewrite <- Hlinks|]. split; [done|]. split; [auto|done].
  - destruct Hr as [[d [=]]|[= ->]].
    split; [done|]. split; [by rewrite Hlinks|].
    split; [rewrite Hlinks; auto|]. split; [done|]. split; [done|done].
Qed.

(** The batch call is issued once and never raises. *)
Lemma execute_batch_run source_values_str w :
  _execute_batch_link_api_call env self source_values_str w
  = (Py.Ok match client_execute env (length (api_calls w))
                   (batch_request self source_values_str) with
           | Py.Ok body => Some body
           | Py.Raise _ => None
           end,
     log_api_call (batch_request self source_values_str) w).
Proof.
  unfold _execute_batch_link_api_call, try_except, bind, execute, ret.
  by destruct (client_execute env _ _).
Qed.

Lemma uncached_urls_of_run target_urls w res unc w1 :
  _check_cache_for_links env target_urls w = (Py.Ok (res, unc), w1) ->
  uncached_urls_of env target_urls w = unc.
Proof. intros Hrun. unfold uncached_urls_of. by rewrite Hrun. Qed.

(** The batch generation, step by step: the cache check, then for a
    non-empty list of uncached URLs the call, the parse and the merge. *)
Lemma batch_run target_urls w res unc w1 :
  _check_cache_for_links env target_urls w = (Py.Ok (res, unc), w1) ->
  api_calls w1 = api_calls w ->
  generate_affiliate_links_batch env self target_urls w =
  match unc with
  | [] => (Py.Ok res, w1)
  | _ =>
      let w2 := log_api_call
                  (batch_request self (_prepare_api_source_values unc)) w1 in
      match _parse_api_promotion_response env (batch_reply env self unc w) with
      | Py.Ok api_links_data =>
          _update_results_and_cache env res unc api_links_data w2
      | Py.Raise e => (Py.Raise e, w2)
      end
  end.
Proof.
  intros Hrun Hcalls. unfold generate_affiliate_links_batch.
  rewrite (bind_Ok _ _ _ _ _ Hrun). simpl fst. simpl snd.
  destruct unc as [|u unc']; [done|]. cbv beta zeta. cbn [fst snd].
  rewrite (bind_Ok _ _ _ _ _ (execute_batch_run _ w1)).
  unfold batch_reply. rewrite <- Hcalls.
  destruct (client_execute env _ _) as [body|e]; simpl default;
    unfold bind at 1, lift;
    by destruct (_parse_api_promotion_response env _).
Qed.

(** When every input URL has a usable link in the cache that stays fresh
    while the check runs, the check reports no URL as uncached and leaves
    the link cache as it is. *)
Lemma check_loop_all_cached urls : forall acc w,
  (forall u, u ∈ urls -> link_cached env w (length urls) u) ->
  exists res w',
    for_each (check_cache_step env) urls acc w = (Py.Ok (res, snd acc), w')
    /\ link_cache w' = link_cache w.
Proof.
  induction urls as [|url urls IH]; intros acc w Hall.
  - exists (fst acc), w. simpl. unfold ret. by destruct acc.
  - destruct (Hall url) as (v & t & Hk & Htruthy & Hfresh); [by left|].
    destruct (check_cache_step_run acc url w)
      as (now & w1 & Hstep & Hc1 & Hnow & Hfr1).
    destruct Hnow as [-> Hreads]; [by eauto|].
    rewrite (CacheFacts.get_fresh _ _ _ _ _ Hk) in *
      by (apply Hfresh; simpl; lia).
    simpl in Hstep, Hc1. rewrite Htruthy in Hstep.
    simpl for_each. rewrite (bind_Ok _ _ _ _ _ Hstep).
    destruct (IH (<[url := v]> (fst acc), snd acc) w1) as (res & w' & Hrun & Hc).
    { intros u Hu. destruct (Hall u) as (v' & t' & ? & ? & Hf); [by right|].
      exists v', t'. rewrite Hc1. split; [done|]. split; [done|].
      intros i Hi. apply Hf. simpl. lia. }
    exists res, w'. split; [done|]. congruence.
Qed.

(** The cache check from the empty accumulator, as the batch generation
    runs it. *)
Lemma check_cache_run target_urls w :
  exists res w1,
    _check_cache_for_links env target_urls w
    = (Py.Ok (res, uncached_urls_of env target_urls w), w1)
    /\ same_but_links w w1
    /\ expiry_seconds (link_cache w1) = expiry_seconds (link_cache w)
    /\ (forall k e, cache (link_cache w1) !! k = Some e ->
                    cache (link_cache w) !! k = Some e)
    /\ dom res = list_to_set target_urls
    /\ (forall u v, res !! u = Some v ->
          v = Py.VNone
          \/ (Py.truthy v = true
              /\ exists t, cache (link_cache w) !! u = Some (v, t)))
    /\ (forall u, u ∈ target_urls -> cache (link_cache w) !! u = None ->
                  u ∈ uncached_urls_of env target_urls w).
Proof.
  destruct (check_loop_run target_urls (∅, []) w)
    as (res & unc & w1 & Hrun & Hfr & Hexp & Hsub & Hdom & Hval & misses
        & Hunc & _ & Hmiss).
  exists res, w1. unfold uncached_urls_of, _check_cache_for_links.
  rewrite Hrun. simpl in *. subst unc.
  split; [done|]. split; [done|]. split; [done|]. split; [done|].
  split; [rewrite Hdom; set_solver|]. split; [|done].
  intros u v Huv. destruct (Hval u v Huv) as [Hempty|[_ ?]]; [|done].
  by rewrite lookup_empty in Hempty.
Qed.

(** X24. When no call to the vendor is needed, or the reply to the batch
    call is one that the client processes to the end and the expiry date
    fits the calendar, the batch generation returns a mapping whose keys
    are exactly the input URLs; each value is absent, or the link held by
    the link cache for that URL, or the promotion link that the vendor's
    reply gives for that URL. *)
Theorem batch_key_set target_urls w :
  (uncached_urls_of env target_urls w <> [] ->
   processable env
     (batch_reply env self (uncached_urls_of env target_urls w) w) = true
   /\ expiry_date_fits env w = true) ->
  exists results_dict w',
    generate_affiliate_links_batch env self target_urls w
    = (Py.Ok results_dict, w')
    /\ dom results_dict = list_to_set target_urls
    /\ (forall url, is_Some (results_dict !! url) <-> url ∈ target_urls)
    /\ forall url v, results_dict !! url = Some v ->
         v = Py.VNone
         \/ (exists t, cache (link_cache w) !! url = Some (v, t))
         \/ (exists api_links_data,
               _parse_api_promotion_response env
                 (batch_reply env self (uncached_urls_of env target_urls w) w)
               = Py.Ok api_links_data
               /\ from_vendor api_links_data url v).
Proof.
  intros Hreply.
  destruct (check_cache_run target_urls w)
    as (res & w1 & Hrun & Hfr & _ & _ & Hdom & Hval & _).
  assert (Hkeys : forall d : gmap string Py.value,
             dom d = list_to_set target_urls ->
             forall url, is_Some (d !! url) <-> url ∈ target_urls).
  { intros d Hd url. rewrite <- elem_of_dom, Hd. set_solver. }
  rewrite (batch_run _ _ _ _ _ Hrun) by apply Hfr.
  destruct (uncached_urls_of env target_urls w) as [|u unc] eqn:Hunc.
  - exists res, w1. repeat split; try done; try by apply Hkeys.
    intros url v Huv. destruct (Hval url v Huv) as [?|[_ ?]]; auto.
  - destruct (Hreply ltac:(done)) as [Husable Hfits].
    unfold processable in Husable.
    destruct (_parse_api_promotion_response env _) as [pairs|e] eqn:Hparse;
      [|done].
    cbv zeta.
    set (w2 := log_api_call _ w1).
    destruct (update_results_run pairs (parse_items_are_dicts _ _ Hparse) res
                (u :: unc) w2)
      as (_ & _ & _ & Hres & Hok & _).
    destruct Hok as [res' Hr]; [|done|].
    { rewrite <- Hfits. apply expiry_date_fits_same; apply Hfr. }
    destruct (_update_results_and_cache env res (u :: unc) pairs w2)
      as [r w'] eqn:Hloop.
    simpl in Hr. subst r. exists res', w'.
    destruct (Hres res' eq_refl) as [Hd Hv].
    split; [done|]. split; [congruence|].
    split; [apply Hkeys; congruence|].
    intros url v Huv. destruct (Hv url v Huv) as [Hold|Hnew].
    + destruct (Hval url v Hold) as [?|[_ ?]]; auto.
    + right. right. eauto.
Qed.

(** C4. The batch generation issues no call to the vendor when the cache
    check reports no uncached URL, and exactly one call, for all the
    uncached URLs together, otherwise. In particular one call is issued
    when some input URL has no entry in the link cache, and none when every
    input URL has a usable link there that stays fresh while the check
    reads the clock. *)
Theorem batch_single_call target_urls w :
  let uncached_urls := uncached_urls_of env target_urls w in
  let w' := snd (generate_affiliate_links_batch env self target_urls w) in
  api_calls w'
  = api_calls w
    ++ match uncached_urls with
       | [] => []
       | _ => [batch_request self (_prepare_api_source_values uncached_urls)]
       end
  /\ ((exists url, url ∈ target_urls /\ cache (link_cache w) !! url = None) ->
      exists request, api_calls w' = api_calls w ++ [request])
  /\ ((forall url, url ∈ target_urls ->
                   link_cached env w (length target_urls) url) ->
      api_calls w' = api_calls w).
Proof.
  intros uncached_urls w'.
  destruct (check_cache_run target_urls w)
    as (res & w1 & Hrun & Hfr & _ & _ & _ & _ & Hmiss).
  assert (Hcalls : api_calls w'
    = api_calls w
      ++ match uncached_urls with
         | [] => []
         | _ => [batch_request self (_prepare_api_source_values uncached_urls)]
         end).
  { subst w'. rewrite (batch_run _ _ _ _ _ Hrun) by apply Hfr.
    fold uncached_urls. destruct uncached_urls as [|u unc].
    - simpl. rewrite app_nil_r. apply Hfr.
    - cbv zeta.
      destruct (_parse_api_promotion_response env _) as [pairs|e] eqn:Hparse.
      + destruct (update_results_run pairs (parse_items_are_dicts _ _ Hparse)
                    res (u :: unc)
                    (log_api_call (batch_request self
                       (_prepare_api_source_values (u :: unc))) w1))
          as ((_ & _ & Hc & _) & _).
        rewrite Hc. simpl. f_equal. apply Hfr.
      + simpl. f_equal. apply Hfr. }
  split; [done|]. split.
  - intros (url & Hin & Hnone). rewrite Hcalls.
    specialize (Hmiss url Hin Hnone). fold uncached_urls in Hmiss.
    destruct uncached_urls; [by apply elem_of_nil in Hmiss|]. eauto.
  - intros Hall. rewrite Hcalls.
    destruct (check_loop_all_cached target_urls (∅, []) w Hall)
      as (res' & w1' & Hrun' & _).
    subst uncached_urls. unfold uncached_urls_of, _check_cache_for_links.
    rewrite Hrun'. simpl. by rewrite app_nil_r.
Qed.

(** C10. Whatever the batch generation leaves in the link cache was
    there before or is the promotion link of a complete pair of the
    vendor's reply: a value with a true truth value, so neither [None] nor
    the empty string (and a non-empty string when the vendor sends a
    string), under a non-empty key. A pair with a missing or empty
    source value or link is skipped and changes neither the result dict
    nor the state. And the cache check files a stored link with a true
    truth value, read before it expires, as a hit. *)
Theorem stored_links_are_nonempty target_urls w :
  let w' := snd (generate_affiliate_links_batch env self target_urls w) in
  (forall url v t,
      cache (link_cache w') !! url = Some (v, t) ->
      cache (link_cache w) !! url = Some (v, t)
      \/ (Py.truthy v = true /\ v <> Py.VNone /\ v <> Py.VStr ""
          /\ url <> EmptyString
          /\ exists api_links_data,
               _parse_api_promotion_response env
                 (batch_reply env self (uncached_urls_of env target_urls w) w)
               = Py.Ok api_links_data
               /\ from_vendor api_links_data url v))
  /\ (forall res link_info w0,
        Py.is_dict link_info = true ->
        complete_pair link_info = false ->
        update_step env res link_info w0 = (Py.Ok res, w0))
  /\ (forall acc url v t w0,
        cache (link_cache w0) !! url = Some (v, t) ->
        Py.truthy v = true ->
        time_time env (clock_reads w0) - t < expiry_seconds (link_cache w0) ->
        exists w1,
          check_cache_step env acc url w0
          = (Py.Ok (<[url := v]> (fst acc), snd acc), w1)
          /\ link_cache w1 = link_cache w0).
Proof.
  intros w'. split; [|split].
  - destruct (check_cache_run target_urls w)
      as (res & w1 & Hrun & Hfr & _ & Hsub & _ & _ & _).
    subst w'. rewrite (batch_run _ _ _ _ _ Hrun) by apply Hfr.
    intros url v t.
    destruct (uncached_urls_of env target_urls w) as [|u unc] eqn:Hunc.
    { simpl. intros Hk. left. by apply Hsub. }
    cbv zeta.
    destruct (_parse_api_promotion_response env _) as [pairs|e] eqn:Hparse.
    + destruct (update_results_run pairs (parse_items_are_dicts _ _ Hparse)
                  res (u :: unc)
                  (log_api_call (batch_request self
                     (_prepare_api_source_values (u :: unc))) w1))
        as (_ & _ & Hcache & _).
      intros Hk. destruct (Hcache url v t Hk) as [Hold|[_ Hnew]].
      * left. by apply Hsub.
      * right. destruct Hnew as (li & Hli & Hs & Hp & Hne & Htr) eqn:Hfv.
        split; [done|]. split; [by intros ->|]. split; [by intros ->|].
        split; [done|]. exists pairs. split; [done|].
        exists li. done.
    + simpl. intros Hk. left. by apply Hsub.
  - intros res link_info w0 Hdict Hc.
    rewrite (update_step_eq _ _ _ Hdict), Hc. done.
  - intros acc url v t w0 Hk Htruthy Hfresh.
    destruct (check_cache_step_run acc url w0)
      as (now & w1 & Hstep & Hc1 & Hnow & _).
    destruct Hnow as [-> _]; [by eauto|].
    rewrite (CacheFacts.get_fresh _ _ _ _ _ Hk Hfresh) in *.
    simpl in Hstep, Hc1. rewrite Htruthy in Hstep. eauto.
Qed.

(** X7. The failures that the batch parser turns into an empty list: no
    response, an empty body, a text that is no JSON, an error envelope
    that is an object, a missing response object, and a response code other
    than 200. *)
Lemma parse_failures_give_no_links :
  _parse_api_promotion_response env Py.VNone = Py.Ok []
  /\ _parse_api_promotion_response env (Py.VStr "") = Py.Ok []
  /\ _parse_api_promotion_response env (Py.VDict []) = Py.Ok []
  /\ (forall text, json_loads env text = None ->
        _parse_api_promotion_response env (Py.VStr text) = Py.Ok [])
  /\ (forall d details,
        Py.assoc "error_response" d = Some (Py.VDict details) ->
        _parse_api_promotion_response env (Py.VDict d) = Py.Ok [])
  /\ (forall d,
        Py.assoc "error_response" d = None ->
        Py.assoc "aliexpress_affiliate_link_generate_response" d = None ->
        _parse_api_promotion_response env (Py.VDict d) = Py.Ok [])
  /\ (forall d response resp_result resp_code,
        Py.assoc "error_response" d = None ->
        Py.assoc "aliexpress_affiliate_link_generate_response" d
        = Some (Py.VDict response) ->
        Py.assoc "resp_result" response = Some (Py.VDict resp_result) ->
        Py.assoc "resp_code" resp_result = Some resp_code ->
        Py.eq_200 resp_code = false ->
        _parse_api_promotion_response env (Py.VDict d) = Py.Ok []).
Proof.
  repeat split.
  - intros text Hjson. unfold _parse_api_promotion_response, decode_body.
    rewrite Hjson. by destruct (negb _).
  - intros d details He. unfold _parse_api_promotion_response, decode_body.
    destruct (negb _); [done|]. simpl. by rewrite He.
  - intros d He Hr. unfold _parse_api_promotion_response, decode_body.
    destruct (negb _); [done|]. simpl. by rewrite He, Hr.
  - intros d response resp_result resp_code He Hr Hres Hcode Hne.
    unfold _parse_api_promotion_response, decode_body.
    destruct (negb _); [done|]. simpl. rewrite He, Hr. simpl.
    destruct response as [|b1 response]; [done|]. cbn [negb].
    rewrite Hres. simpl.
    destruct resp_result as [|b2 resp_result]; [done|]. cbn [negb].
    rewrite Hcode. simpl. by rewrite Hne.
Qed.

(** A success response whose links are pairs of texts is processed to the
    end. *)
Lemma link_body_processable (pairs : list (string * string)) :
  processable env
    (Samples.link_body
       (List.map (fun sl => Samples.pair_for (fst sl) (snd sl)) pairs)) = true.
Proof.
  assert (Husable : forall sl : string * string,
             usable_pair (Samples.pair_for (fst sl) (snd sl)) = true).
  { intros sl. unfold usable_pair. apply orb_true_r. }
  unfold processable, _parse_api_promotion_response.
  destruct pairs as [|sl pairs]; [done|].
  simpl. rewrite Husable. simpl.
  induction pairs as [|sl' pairs IH]; [done|].
  simpl. by rewrite Husable.
Qed.

(** X4. When the parser finds no links (a transport failure or one of the
    failures above) and the expiry date fits the calendar, the batch
    generation returns the result of the cache check: every input URL is a
    key, mapped to its cached link or to [None]. *)
Theorem batch_degrades_without_links target_urls w :
  _parse_api_promotion_response env
    (batch_reply env self (uncached_urls_of env target_urls w) w) = Py.Ok [] ->
  expiry_date_fits env w = true ->
  exists results_dict w',
    generate_affiliate_links_batch env self target_urls w
    = (Py.Ok results_dict, w')
    /\ (forall url, is_Some (results_dict !! url) <-> url ∈ target_urls)
    /\ forall url v, results_dict !! url = Some v ->
         v = Py.VNone \/ exists t, cache (link_cache w) !! url = Some (v, t).
Proof.
  intros Hparse Hfits.
  destruct (check_cache_run target_urls w)
    as (res & w1 & Hrun & Hfr & _ & _ & Hdom & Hval & _).
  rewrite (batch_run _ _ _ _ _ Hrun) by apply Hfr. rewrite Hparse.
  assert (Hfrom : forall url v, res !! url = Some v ->
            v = Py.VNone \/ exists t, cache (link_cache w) !! url = Some (v, t)).
  { intros url v Huv. destruct (Hval url v Huv) as [?|[_ ?]]; auto. }
  destruct (uncached_urls_of env target_urls w) as [|u unc].
  { exists res, w1. split; [done|]. split; [|done].
    intros url. rewrite <- elem_of_dom, Hdom. set_solver. }
  cbv zeta. set (w2 := log_api_call _ w1).
  destruct (update_results_run [] (Forall_nil_2 _) res (u :: unc) w2)
    as (_ & _ & _ & Hres & Hok & _).
  destruct Hok as [res' Hr]; [|done|].
  { rewrite <- Hfits. apply expiry_date_fits_same; apply Hfr. }
  destruct (_update_results_and_cache env res (u :: unc) [] w2)
    as [r w'] eqn:Hloop.
  simpl in Hr. subst r. exists res', w'.
  destruct (Hres res' eq_refl) as [Hd Hv].
  split; [done|]. split.
  - intros url. rewrite <- elem_of_dom, Hd, Hdom. set_solver.
  - intros url v Huv. destruct (Hv url v Huv) as [Hold|(li & Hin & _)].
    + by apply Hfrom.
    + by apply elem_of_nil in Hin.
Qed.

(** X5. The guard of the merge: a complete pair is recorded and cached
    exactly when its source value is a key of the result dict, that is an
    input URL, cached or not; any other complete pair with a source value
    that can be hashed is skipped. *)
Theorem update_step_by_membership res link_info w :
  Py.is_dict link_info = true ->
  complete_pair link_info = true ->
  (forall key, field "source_value" link_info = Py.VStr key ->
     is_Some (res !! key) ->
     exists w',
       update_step env res link_info w
       = (Py.Ok (<[key := field "promotion_link" link_info]> res), w')
       /\ cache (link_cache w') !! key
          = Some (field "promotion_link" link_info,
                  time_time env (clock_reads w)))
  /\ (hashable (field "source_value" link_info) = true ->
      (forall key, field "source_value" link_info = Py.VStr key ->
                   res !! key = None) ->
      update_step env res link_info w = (Py.Ok res, w)).
Proof.
  intros Hdict Hc.
  destruct (update_step_run res link_info w Hdict)
    as [[Hc' _] | [(_ & Hh & Hrun) | [(_ & _ & Hno & Hrun)
        | (_ & key & w1 & Hsrc & Hkey & Hrun & Hset & _)]]].
  - congruence.
  - split.
    + intros key Hsrc _. rewrite Hsrc in Hh. done.
    + intros Hh'. congruence.
  - split; [|done].
    intros key Hsrc [x Hx]. rewrite (Hno key Hsrc) in Hx. done.
  - split.
    + intros key' Hsrc' _. rewrite Hsrc in Hsrc'. injection Hsrc' as <-.
      exists w1. split; [done|]. rewrite Hset. simpl. apply lookup_insert_eq.
    + intros _ Hno. rewrite (Hno key Hsrc) in Hkey. by destruct Hkey.
Qed.

(** X3. The single-product path never raises: whatever the vendor answers,
    [fetch_product_details] returns a product record or [None]. *)
Lemma fetch_product_details_never_raises product_id w :
  exists v w', fetch_product_details env self product_id w = (Py.Ok v, w').
Proof.
  unfold fetch_product_details, bind, product_cache_get, cache_get,
    _execute_api_call, try_except, execute, ret, lift, product_cache_set,
    cache_set, expiry_date, bind, date_now, lift, time_now.
  repeat (case_match; simplify_eq/=); eauto.
Qed.

End Facts.

Import Samples.

(** C1. The batch generation returns no mapping when the reply has an
    unexpected shape: with [url_a] cached and [url_b] sent, a reply whose
    [promotion_links] is null makes the call raise [AttributeError], so
    that neither input URL, not even the cached one, is a key of a
    result. *)
Theorem batch_gives_no_mapping_on_unexpected_shape :
  let env := env_with null_links_body in
  let r := generate_affiliate_links_batch env config [url_a; url_b] w_cached in
  cache (link_cache w_cached) !! url_a = Some (Py.VStr link_old, 50)
  /\ uncached_urls_of env [url_a; url_b] w_cached = [url_b]
  /\ api_calls (snd r) = [batch_request config url_b]
  /\ fst r = Py.Raise Py.AttributeError
  /\ forall results_dict, fst r <> Py.Ok results_dict.
Proof.
  cbv zeta. split; [by vm_compute|]. split; [by vm_compute|].
  split; [by vm_compute|].
  assert (Hr : fst (generate_affiliate_links_batch
                      (env_with null_links_body) config [url_a; url_b] w_cached)
               = Py.Raise Py.AttributeError) by (by vm_compute).
  split; [done|]. intros results_dict. by rewrite Hr.
Qed.

Lemma batch_key_set_witness :
  exists results_dict w',
    generate_affiliate_links_batch
      (env_with (link_body [pair_for url_b link_new])) config
      [url_a; url_b] w_cached
    = (Py.Ok results_dict, w')
    /\ dom results_dict = list_to_set [url_a; url_b].
Proof.
  destruct (batch_key_set (env_with (link_body [pair_for url_b link_new]))
              config [url_a; url_b] w_cached)
    as (results_dict & w' & Hrun & Hdom & _).
  - intros _. split; vm_compute; reflexivity.
  - exists results_dict, w'. split; [exact Hrun | exact Hdom].
Defined.

Lemma batch_single_call_witness :
  (exists request,
      api_calls (snd (generate_affiliate_links_batch
                        (env_with (link_body [])) config [url_a] w_empty))
      = api_calls w_empty ++ [request])
  /\ api_calls (snd (generate_affiliate_links_batch
                       (env_with (link_body [])) config [url_a] w_cached))
     = api_calls w_cached.
Proof.
  split.
  - apply (batch_single_call (env_with (link_body [])) config [url_a] w_empty).
    exists url_a. split; [by left | by vm_compute].
  - apply (batch_single_call (env_with (link_body [])) config [url_a] w_cached).
    intros url Hurl. apply list_elem_of_singleton in Hurl as ->.
    exists (Py.VStr link_old), 50. split; [by vm_compute|]. split; [done|].
    intros i Hi. simpl in *. lia.
Defined.

Lemma stored_links_are_nonempty_witness :
  let env := env_with (link_body [pair_for url_b link_new]) in
  cache (link_cache (snd (generate_affiliate_links_batch env config
                            [url_a; url_b] w_cached))) !! url_b
  = Some (Py.VStr link_new, 101)
  /\ Py.truthy (Py.VStr link_new) = true
  /\ exists api_links_data,
       _parse_api_promotion_response env
         (batch_reply env config (uncached_urls_of env [url_a; url_b] w_cached)
                      w_cached)
       = Py.Ok api_links_data
       /\ from_vendor api_links_data url_b (Py.VStr link_new).
Proof.
  cbv zeta.
  assert (Hstored :
    cache (link_cache (snd (generate_affiliate_links_batch
                              (env_with (link_body [pair_for url_b link_new]))
                              config [url_a; url_b] w_cached))) !! url_b
    = Some (Py.VStr link_new, 101)) by (by vm_compute).
  split; [exact Hstored|].
  destruct (proj1 (stored_links_are_nonempty
                     (env_with (link_body [pair_for url_b link_new])) config
                     [url_a; url_b] w_cached)
              url_b (Py.VStr link_new) 101 Hstored)
    as [Hold | (Htruthy & _ & _ & _ & Hfrom)].
  - by vm_compute in Hold.
  - split; [exact Htruthy | exact Hfrom].
Defined.

(** A stored link need not be a string: the code tests the truth value of
    the promotion link only, so a reply whose promotion link is the number
    7 leaves that number in the result and in the link cache. *)
Lemma stored_link_need_not_be_a_string :
  let env := env_with (link_body [number_pair url_a]) in
  let r := generate_affiliate_links_batch env config [url_a] w_empty in
  (exists results_dict,
      fst r = Py.Ok results_dict
      /\ results_dict !! url_a = Some (Py.VInt 7))
  /\ cache (link_cache (snd r)) !! url_a = Some (Py.VInt 7, 100)
  /\ ~ (forall url v t,
          cache (link_cache (snd r)) !! url = Some (v, t) ->
          exists s, v = Py.VStr s /\ s <> EmptyString).
Proof.
  cbv zeta.
  assert (Hstored :
    cache (link_cache (snd (generate_affiliate_links_batch
                              (env_with (link_body [number_pair url_a]))
                              config [url_a] w_empty))) !! url_a
    = Some (Py.VInt 7, 100)) by (by vm_compute).
  split; [|split; [exact Hstored|]].
  - eexists. split; [vm_compute; reflexivity|]. by vm_compute.
  - intros Hall. by destruct (Hall _ _ _ Hstored) as (s & [=] & _).
Qed.

(** C2. A pair whose source value is an input URL that was served from
    the cache, and so was not sent to the vendor, is not ignored: with
    [url_a] cached and only [url_b] sent, the vendor's pair for [url_a]
    replaces the link of [url_a] in the result and in the link cache. *)
Theorem unsent_cached_url_is_overwritten :
  let env := env_with (link_body [pair_for url_a link_new]) in
  let r := generate_affiliate_links_batch env config [url_a; url_b] w_cached in
  uncached_urls_of env [url_a; url_b] w_cached = [url_b]
  /\ api_calls (snd r) = [batch_request config url_b]
  /\ cache (link_cache w_cached) !! url_a = Some (Py.VStr link_old, 50)
  /\ (exists results_dict,
        fst r = Py.Ok results_dict
        /\ results_dict !! url_a = Some (Py.VStr link_new)
        /\ results_dict !! url_b = Some Py.VNone)
  /\ cache (link_cache (snd r)) !! url_a = Some (Py.VStr link_new, 101).
Proof.
  cbv zeta. split; [by vm_compute|]. split; [by vm_compute|].
  split; [by vm_compute|]. split; [|by vm_compute].
  eexists. split; [vm_compute; reflexivity|]. split; by vm_compute.
Qed.

(** C5. The batch path raises on a response body of unexpected shape: an
    [error_response] that is a text, or a [promotion_links] that is null,
    makes [generate_affiliate_links_batch] raise [AttributeError], while
    [fetch_product_details] answers the same kind of body with [None]. *)
Theorem batch_raises_on_unexpected_shape :
  fst (generate_affiliate_links_batch (env_with error_text_body) config
         [url_a] w_empty) = Py.Raise Py.AttributeError
  /\ fst (generate_affiliate_links_batch (env_with null_links_body) config
            [url_a] w_empty) = Py.Raise Py.AttributeError
  /\ fst (fetch_product_details (env_with error_text_body) config
            "1005006234567" w_empty) = Py.Ok Py.VNone.
Proof. split; [|split]; by vm_compute. Qed.

Lemma batch_degrades_without_links_witness :
  exists results_dict w',
    generate_affiliate_links_batch env_down config [url_a] w_empty
    = (Py.Ok results_dict, w')
    /\ (forall url, is_Some (results_dict !! url) <-> url ∈ [url_a]).
Proof.
  destruct (batch_degrades_without_links env_down config [url_a] w_empty)
    as (results_dict & w' & Hrun & Hkeys & _).
  - by vm_compute.
  - by vm_compute.
  - exists results_dict, w'. split; [exact Hrun | exact Hkeys].
Defined.

Lemma update_step_by_membership_witness :
  exists w',
    update_step (env_with Py.VNone) (<[url_b := Py.VNone]> ∅)
      (pair_for url_b link_new) w_empty
    = (Py.Ok (<[url_b := Py.VStr link_new]> (<[url_b := Py.VNone]> ∅)), w')
    /\ cache (link_cache w') !! url_b = Some (Py.VStr link_new, 100).
Proof.
  apply (proj1 (update_step_by_membership (env_with Py.VNone)
                  (<[url_b := Py.VNone]> ∅) (pair_for url_b link_new) w_empty
                  eq_refl eq_refl) url_b eq_refl).
  rewrite lookup_insert_eq. eauto.
Defined.

End ClientFacts.

(** ** Strings and URL parsing *)

Module UrlFacts.
Import World UrlLib.

Lemma append_nil t : "" +:+ t = t.
Proof. reflexivity. Qed.

Lemma append_cons a s t : String a s +:+ t = String a (s +:+ t).
Proof. reflexivity. Qed.

Lemma append_assoc s t u : (s +:+ t) +:+ u = s +:+ (t +:+ u).
Proof.
  induction s as [|a s IH]; [done|]. rewrite !append_cons. by f_equal.
Qed.

Lemma span_append p s c t :
  p c = false ->
  Str.span p (s +:+ String c t)
  = (fst (Str.span p s), snd (Str.span p s) +:+ String c t).
Proof.
  intros Hc. induction s as [|a s IH].
  - rewrite append_nil. simpl. by rewrite Hc.
  - rewrite append_cons. simpl. destruct (p a); [|done]. by rewrite IH.
Qed.

Lemma lstrip_append p s c t :
  p c = false ->
  Str.lstrip p (s +:+ String c t) = Str.lstrip p s +:+ String c t.
Proof. intros Hc. unfold Str.lstrip. by rewrite span_append. Qed.

Lemma filter_append f s t :
  Str.filter f (s +:+ t) = Str.filter f s +:+ Str.filter f t.
Proof.
  induction s as [|a s IH]; [done|]. rewrite append_cons. simpl.
  destruct (f a); rewrite ?append_cons; by rewrite IH.
Qed.

Lemma find_char_lt c s i :
  Str.find_char c s = Some i -> (i < String.length s)%nat.
Proof.
  revert i. induction s as [|a s IH]; intros i; simpl; [done|].
  destruct (Ascii.eqb a c); [intros [= <-]; lia|].
  destruct (Str.find_char c s) as [j|]; [|done].
  intros [= <-]. specialize (IH j eq_refl). lia.
Qed.

Lemma find_char_append_Some c s t i :
  Str.find_char c s = Some i -> Str.find_char c (s +:+ t) = Some i.
Proof.
  revert i. induction s as [|a s IH]; intros i; [done|].
  rewrite append_cons. simpl.
  destruct (Ascii.eqb a c); [done|].
  destruct (Str.find_char c s) as [j|]; [|done].
  intros [= <-]. by rewrite (IH j).
Qed.

Lemma find_char_append_None c s t :
  Str.find_char c s = None ->
  Str.find_char c (s +:+ t)
  = (fun i => (String.length s + i)%nat) <$> Str.find_char c t.
Proof.
  induction s as [|a s IH].
  - intros _. rewrite append_nil. simpl. by destruct (Str.find_char c t).
  - rewrite append_cons. simpl. destruct (Ascii.eqb a c); [done|].
    destruct (Str.find_char c s) as [j|]; [done|]. intros _.
    rewrite IH by done. by destruct (Str.find_char c t).
Qed.

Lemma take_append n s t :
  (n <= String.length s)%nat -> Str.take n (s +:+ t) = Str.take n s.
Proof.
  revert n. induction s as [|a s IH]; intros [|n]; simpl; try done.
  - lia.
  - intros Hn. rewrite IH; [done|lia].
Qed.

Lemma drop_append n s t :
  (n <= String.length s)%nat -> Str.drop n (s +:+ t) = Str.drop n s +:+ t.
Proof.
  revert n. induction s as [|a s IH]; intros [|n]; simpl; try done.
  - lia.
  - intros Hn. apply IH. lia.
Qed.

(** A prefix that reaches past a character failing [p] fails [forallb p]. *)
Lemma forallb_take_past p n s c t :
  p c = false -> (String.length s < n)%nat ->
  Str.forallb p (Str.take n (s +:+ String c t)) = false.
Proof.
  intros Hc. revert n.
  induction s as [|a s IH]; intros [|n]; rewrite ?append_nil, ?append_cons;
    simpl; try lia.
  - intros _. by rewrite Hc.
  - intros Hn. rewrite IH by lia. apply andb_false_r.
Qed.

(** Appending a query leaves the scheme as it is. *)
Lemma split_scheme_query b q :
  split_scheme (b +:+ String "?" q)
  = (fst (split_scheme b), snd (split_scheme b) +:+ String "?" q).
Proof.
  unfold split_scheme.
  destruct (Str.find_char ":" b) as [i|] eqn:Hfind.
  - rewrite (find_char_append_Some _ _ _ _ Hfind).
    pose proof (find_char_lt _ _ _ Hfind) as Hlt.
    destruct i as [|i]; [done|].
    destruct b as [|c b]; [done|]. rewrite append_cons.
    rewrite <- (append_cons c b). rewrite take_append by lia.
    destruct (Str.is_alpha c
              && Str.forallb scheme_char (Str.take (S i) (String c b)));
      [|done].
    cbn [fst snd]. by rewrite drop_append by lia.
  - rewrite (find_char_append_None _ _ _ Hfind).
    cbn [fst snd].
    destruct (Str.find_char ":" (String "?" q)) as [j|] eqn:Hq;
      cbn [fmap option_fmap option_map]; [|done].
    destruct j as [|j].
    { simpl in Hq. destruct (Str.find_char ":" q); simplify_eq/=. }
    rewrite Nat.add_succ_r.
    destruct b as [|c b].
    + rewrite append_nil. done.
    + rewrite append_cons. cbv iota beta. rewrite <- append_cons.
      rewrite forallb_take_past; [by rewrite andb_false_r|done|lia].
Qed.

Lemma prefix_cons c s d t :
  String.prefix (String c s) (String d t)
  = if Ascii.ascii_dec c d then String.prefix s t else false.
Proof. reflexivity. Qed.

(** Whether a text starts with [//] is decided by its first two
    characters, and a question mark is none of them. *)
Lemma prefix_slashes_query r q :
  String.prefix "//" (r +:+ String "?" q) = String.prefix "//" r.
Proof.
  destruct r as [|c1 [|c2 r]];
    rewrite ?append_cons, ?append_nil, ?prefix_cons.
  - by destruct (Ascii.ascii_dec "/" "?").
  - destruct (Ascii.ascii_dec "/" c1); [|done].
    by destruct (Ascii.ascii_dec "/" "?").
  - destruct (Ascii.ascii_dec "/" c1); [|done].
    destruct (Ascii.ascii_dec "/" c2); [|done].
    destruct r; rewrite ?append_cons, ?append_nil; reflexivity.
Qed.

Lemma prefix_length p s :
  String.prefix p s = true -> (String.length p <= String.length s)%nat.
Proof.
  revert s. induction p as [|c p IH]; intros [|d s]; simpl; try done; try lia.
  destruct (Ascii.ascii_dec c d); [|done]. intros Hp. specialize (IH s Hp). lia.
Qed.

(** Appending a query leaves the network location as it is. *)
Lemma split_netloc_query r q :
  split_netloc (r +:+ String "?" q)
  = (fst (split_netloc r), snd (split_netloc r) +:+ String "?" q).
Proof.
  unfold split_netloc. rewrite prefix_slashes_query.
  destruct (String.prefix "//" r) eqn:Hp; [|done].
  apply prefix_length in Hp. simpl in Hp.
  rewrite drop_append by done. by rewrite span_append.
Qed.

Section Parse.
Context (env : Env).

(** Appending a query to a URL changes neither the outcome of [urlsplit]
    (accepted or rejected) nor the scheme and network location found. *)
Lemma urlsplit_query base q :
  match urlsplit env base with
  | Py.Raise e => urlsplit env (base +:+ String "?" q) = Py.Raise e
  | Py.Ok p =>
      exists p', urlsplit env (base +:+ String "?" q) = Py.Ok p'
                 /\ scheme p' = scheme p /\ netloc p' = netloc p
  end.
Proof.
  unfold urlsplit.
  rewrite lstrip_append by done. rewrite filter_append.
  change (Str.filter (fun c => negb (unsafe_char c)) (String "?" q))
    with (String "?" (Str.filter (fun c => negb (unsafe_char c)) q)).
  rewrite split_scheme_query.
  destruct (split_scheme _) as [sch rest]. cbn [fst snd].
  rewrite split_netloc_query.
  destruct (split_netloc rest) as [nl rem]. cbn [fst snd].
  destruct (xorb (Str.has_char "[" nl) (Str.has_char "]" nl)); [done|].
  destruct (Str.has_char "[" nl && Str.has_char "]" nl
            && negb (bracketed_netloc_ok env nl)); [done|].
  destruct (Str.partition "#" rem) as [u1 f1].
  destruct (Str.partition "#" (rem +:+ String "?" _)) as [u2 f2].
  destruct (Str.partition "?" u1) as [u1' q1].
  destruct (Str.partition "?" u2) as [u2' q2].
  eexists. split; [reflexivity|]. done.
Qed.

Lemma urlparse_query base q :
  match urlparse env base with
  | Py.Raise e => urlparse env (base +:+ String "?" q) = Py.Raise e
  | Py.Ok p =>
      exists p', urlparse env (base +:+ String "?" q) = Py.Ok p'
                 /\ scheme p' = scheme p /\ netloc p' = netloc p
  end.
Proof.
  unfold urlparse. pose proof (urlsplit_query base q) as Hsplit.
  destruct (urlsplit env base) as [p|e]; unfold Py.rbind.
  - destruct Hsplit as (p' & Hp' & Hs & Hn). rewrite Hp'.
    destruct (mem (scheme p) uses_params && Str.has_char ";" (path p));
      destruct (mem (scheme p') uses_params && Str.has_char ";" (path p'));
      repeat (destruct (splitparams _)); eexists; (split; [reflexivity|done]).
  - by rewrite Hsplit.
Qed.

End Parse.

End UrlFacts.

(** ** The URL processor *)

Module ProcessorFacts.
Import CacheManager World URLProcessor TaskFacts.

Section Facts.
Context (env : Env) (query_country : string).

(** The only exception of [urlparse] is [ValueError]. *)
Lemma urlparse_raises url e :
  UrlLib.urlparse env url = Py.Raise e -> e = Py.ValueError.
Proof.
  unfold UrlLib.urlparse, UrlLib.urlsplit, Py.rbind.
  repeat case_match; congruence.
Qed.

(** What [clean_aliexpress_url] builds from a parsed URL. *)
Lemma clean_of_parsed url product_id p :
  UrlLib.urlparse env url = Py.Ok p ->
  clean_aliexpress_url env url product_id
  = Py.Ok (Some (scheme_and_host p +:+ "/item/" +:+ product_id +:+ ".html")).
Proof.
  intros Hp. unfold clean_aliexpress_url. rewrite Hp.
  unfold scheme_and_host, UrlLib.urlunparse, UrlLib.urlunsplit.
  set (scheme := if String.eqb (UrlLib.scheme p) "" then "https"
                 else UrlLib.scheme p).
  assert (Hscheme : String.eqb scheme "" = false).
  { subst scheme. destruct (String.eqb (UrlLib.scheme p) "") eqn:He; done. }
  rewrite Hscheme.
  change (String.eqb "" "") with true.
  change (String.prefix "//" ("/item/" +:+ product_id +:+ ".html")) with false.
  change (String.prefix "/" ("/item/" +:+ product_id +:+ ".html")) with true.
  change (String.eqb ("/item/" +:+ product_id +:+ ".html") "") with false.
  cbn [negb andb orb].
  rewrite andb_true_r.
  destruct (negb (String.eqb (UrlLib.netloc p) "")
            || UrlLib.mem scheme UrlLib.uses_netloc).
  - by rewrite !UrlFacts.append_assoc.
  - by rewrite !UrlFacts.append_assoc.
Qed.

(** The result of [clean_aliexpress_url] is the same with and without a
    query appended to the source URL. *)
Lemma clean_ignores_query url q product_id :
  clean_aliexpress_url env (url +:+ "?" +:+ q) product_id
  = clean_aliexpress_url env url product_id.
Proof.
  change ("?" +:+ q) with (String "?" q).
  pose proof (UrlFacts.urlparse_query env url q) as Hq.
  destruct (UrlLib.urlparse env url) as [p|e] eqn:Hp.
  - destruct Hq as (p' & Hp' & Hs & Hn).
    rewrite (clean_of_parsed _ _ _ Hp), (clean_of_parsed _ _ _ Hp').
    unfold scheme_and_host. by rewrite Hs, Hn.
  - unfold clean_aliexpress_url. by rewrite Hp, Hq.
Qed.

(** C8. [clean_aliexpress_url] never raises: a URL that [urlparse]
    rejects gives [None]; otherwise the result is the scheme ([https] when
    the URL has none) and network location of the URL followed by
    [/item/<product_id>.html], whatever its path, query and fragment. The
    result is unchanged when a query is appended to the URL, and the
    canonicalization example of the specification holds. *)
Theorem clean_aliexpress_url_canonical url product_id :
  (exists r, clean_aliexpress_url env url product_id = Py.Ok r)
  /\ (forall e, UrlLib.urlparse env url = Py.Raise e ->
                clean_aliexpress_url env url product_id = Py.Ok None)
  /\ (forall p, UrlLib.urlparse env url = Py.Ok p ->
                clean_aliexpress_url env url product_id
                = Py.Ok (Some (scheme_and_host p +:+ "/item/"
                               +:+ product_id +:+ ".html")))
  /\ (forall q, clean_aliexpress_url env (url +:+ "?" +:+ q) product_id
                = clean_aliexpress_url env url product_id)
  /\ clean_aliexpress_url env
       "https://fr.example-shop.com/item/123.html?x=1" "123"
     = Py.Ok (Some "https://fr.example-shop.com/item/123.html").
Proof.
  assert (Hraise : forall e, UrlLib.urlparse env url = Py.Raise e ->
                     clean_aliexpress_url env url product_id = Py.Ok None).
  { intros e He. unfold clean_aliexpress_url.
    rewrite He, (urlparse_raises _ _ He). done. }
  split; [|split; [done|split; [|split]]].
  - destruct (UrlLib.urlparse env url) as [p|e] eqn:Hp.
    + rewrite (clean_of_parsed _ _ _ Hp). eauto.
    + rewrite (Hraise e eq_refl). eauto.
  - intros p Hp. by apply clean_of_parsed.
  - intros q. apply clean_ignores_query.
  - reflexivity.
Qed.

(** [resolved_url_cache.get] runs [get] at some clock reading and touches
    the resolved-URL cache and the clock only. *)
Lemma resolved_url_cache_get_run key w :
  exists now w',
    resolved_url_cache_get env key w
      = (Py.Ok (fst (get now key (resolved_url_cache w))), w')
    /\ resolved_url_cache w' = snd (get now key (resolved_url_cache w))
    /\ http_calls w' = http_calls w.
Proof.
  unfold resolved_url_cache_get, cache_get.
  destruct (cache (resolved_url_cache w) !! key) as [e|] eqn:Hk.
  - exists (time_time env (clock_reads w)).
    unfold bind, time_now, ret. simpl.
    destruct (get _ key (resolved_url_cache w)) as [r c] eqn:Hg. simpl.
    eexists. split; [reflexivity|]. done.
  - exists 0, w. rewrite (CacheFacts.get_missing _ _ _ Hk).
    unfold ret. simpl. by destruct w.
Qed.

(** The fetch path never raises; it returns [None] and leaves the
    resolved-URL cache alone, or returns a validated URL after caching it
    under the short URL. *)
Lemma fetch_and_validate_run short_url w :
  let r := try_except (fetch_and_validate env query_country short_url)
                      (fun _ => ret None) w in
  (fst r = Py.Ok None
   /\ resolved_url_cache (snd r) = resolved_url_cache w)
  \/ (exists final_url now,
        fst r = Py.Ok (Some final_url)
        /\ resolved_url_cache (snd r)
           = set now short_url final_url (resolved_url_cache w)
        /\ valid_product_url env final_url).
Proof.
  unfold try_except, fetch_and_validate, bind, http_get, lift, ret,
    refetch_with_country, try_except, bind, http_get, ret,
    resolved_url_cache_set, cache_set, bind, time_now, ret, valid_product_url.
  repeat (case_match; simplify_eq/=); eauto 10.
Qed.





End Facts.



(** Resolution end to end on a sample redirect: the short URL is fetched
    once, validated and cached; the second call is served from the cache
    and fetches nothing. *)
Lemma resolve_short_link_twice :
  let first := resolve_short_link Samples.env_redirect "IL" Samples.short_url
                 Samples.w_empty in
  let second := resolve_short_link Samples.env_redirect "IL" Samples.short_url
                  (snd first) in
  fst first = Py.Ok (Some Samples.url_a)
  /\ http_calls (snd first) = [Samples.short_url]
  /\ cache (resolved_url_cache (snd first)) !! Samples.short_url
     = Some (Samples.url_a, 100)
  /\ fst second = Py.Ok (Some Samples.url_a)
  /\ http_calls (snd second) = [Samples.short_url].
Proof. cbv zeta. repeat split; by vm_compute. Qed.

End ProcessorFacts.

(** ** The matcher on the patterns of the sources *)

Module ReFacts.
Import Re.

Section Matcher.
Context {R : Type}.
Implicit Types (k : string -> caps -> option R) (c : caps).

(** A literal matches exactly its text. *)
Lemma lit_sound t : forall s c k x,
  rmatch R (lit t) s c k = Some x ->
  exists s', s = t +:+ s' /\ k s' c = Some x.
Proof.
  induction t as [|a t IH]; intros s c k x; simpl.
  - intros Hk. by exists s.
  - destruct s as [|b s]; [done|].
    destruct (Ascii.eqb_spec a b) as [<-|]; [|done].
    intros Hm. apply IH in Hm as (s' & -> & Hk). by exists s'.
Qed.

Lemma lit_complete t : forall s c k,
  rmatch R (lit t) (t +:+ s) c k = k s c.
Proof.
  induction t as [|a t IH]; intros s c k; [done|].
  rewrite UrlFacts.append_cons. simpl. by rewrite Ascii.eqb_refl, IH.
Qed.

Lemma iterate_S step k fuel s c :
  iterate step k (S fuel) s c
  = match step s c
            (fun s' c' =>
               if (String.length s' <? String.length s)%nat
               then iterate step k fuel s' c' else None) with
    | Some x => Some x
    | None => k s c
    end.
Proof. reflexivity. Qed.

Lemma rmatch_Chr p s c k :
  rmatch R (Chr p) s c k
  = match s with
    | String a s' => if p a then k s' c else None
    | EmptyString => None
    end.
Proof. reflexivity. Qed.

(** The greedy iteration of a character class consumes characters of the
    class and leaves the groups as they are. *)
Lemma iterate_chr_sound p k fuel : forall s c x,
  iterate (rmatch R (Chr p)) k fuel s c = Some x ->
  exists pre s',
    s = pre +:+ s' /\ Str.forallb p pre = true /\ k s' c = Some x.
Proof.
  induction fuel as [|fuel IH]; intros s c x.
  - intros Hk. by exists EmptyString, s.
  - rewrite iterate_S, rmatch_Chr.
    destruct s as [|a s]; [intros Hk; by exists EmptyString, EmptyString|].
    destruct (p a) eqn:Hp; [|intros Hk; by exists EmptyString, (String a s)].
    destruct (String.length s <? String.length (String a s))%nat;
      [|intros Hk; by exists EmptyString, (String a s)].
    destruct (iterate (rmatch R (Chr p)) k fuel s c) as [y|] eqn:Hit.
    + intros [= <-]. apply IH in Hit as (pre & s' & -> & Hpre & Hk).
      exists (String a pre), s'. rewrite UrlFacts.append_cons.
      split; [done|]. split; [|done]. simpl. by rewrite Hp, Hpre.
    + intros Hk. by exists EmptyString, (String a s).
Qed.

(** One or more characters of a class. *)
Lemma plus_chr_sound p s c k x :
  rmatch R (Plus (Chr p)) s c k = Some x ->
  exists a pre s',
    s = String a pre +:+ s'
    /\ Str.forallb p (String a pre) = true
    /\ k s' c = Some x.
Proof.
  unfold Plus. cbn [rmatch]. destruct s as [|a s]; [done|].
  destruct (p a) eqn:Hp; [|done].
  intros Hit. apply iterate_chr_sound in Hit as (pre & s' & -> & Hpre & Hk).
  exists a, pre, s'. split; [done|]. split; [|done]. simpl. by rewrite Hp, Hpre.
Qed.

End Matcher.

(** The text consumed in front of a remainder. *)
Lemma take_consumed d s :
  Str.take (String.length (d +:+ s) - String.length s) (d +:+ s) = d.
Proof.
  induction d as [|a d IH].
  - rewrite UrlFacts.append_nil, Nat.sub_diag. by destruct s.
  - rewrite UrlFacts.append_cons. simpl String.length.
    assert (Hlen : (String.length s <= String.length (d +:+ s))%nat).
    { clear. induction d as [|b d IH]; [done|].
      rewrite UrlFacts.append_cons. simpl. lia. }
    rewrite Nat.sub_succ_l by done. simpl. by rewrite IH.
Qed.

(** A match found by [search] is a match of some suffix of the text. *)
Lemma search_sound r s m :
  search r s = Some m ->
  exists pre suf, s = pre +:+ suf /\ match_ r suf = Some m.
Proof.
  induction s as [|a s IH]; simpl.
  - destruct (match_ r "") eqn:Hm; [|done]. intros [= <-].
    by exists EmptyString, EmptyString.
  - destruct (match_ r (String a s)) eqn:Hm.
    + intros [= <-]. by exists EmptyString, (String a s).
    + intros Hs. apply IH in Hs as (pre & suf & -> & Hsuf).
      by exists (String a pre), suf.
Qed.

Lemma forallb_not_has_char c s :
  Str.forallb (fun a => negb (Ascii.eqb a c)) s = true ->
  Str.has_char c s = false.
Proof.
  unfold Str.has_char. induction s as [|x t IH]; [done|].
  simpl. intros [Hx Ht]%andb_true_iff.
  destruct (Ascii.eqb x c); [done|]. specialize (IH Ht).
  destruct (Str.find_char c t) as [i|]; [|done].
  exfalso. revert IH. case_bool_decide as Hs; [done|]. destruct Hs. eauto.
Qed.

Lemma isdigit_forallb d :
  d <> EmptyString -> Str.forallb Str.is_digit d = true -> Str.isdigit d = true.
Proof. by destruct d. Qed.

(** [PRODUCT_ID_REGEX] finds [/item/], digits and [.html], and its group
    is the digits. *)
Lemma product_id_regex_sound s product_id :
  search_group1 URLProcessor.PRODUCT_ID_REGEX s = Some product_id ->
  Str.isdigit product_id = true
  /\ exists pre post,
       s = pre +:+ "/item/" +:+ product_id +:+ ".html" +:+ post.
Proof.
  unfold search_group1.
  destruct (search _ s) as [[c rest]|] eqn:Hs; [|done]. intros [= <-].
  apply search_sound in Hs as (pre & suf & -> & Hm).
  unfold match_, URLProcessor.PRODUCT_ID_REGEX in Hm.
  cbn [rmatch] in Hm.
  apply lit_sound in Hm as (s1 & -> & Hm).
  apply plus_chr_sound in Hm as (a & d & s2 & -> & Hd & Hm).
  apply lit_sound in Hm as (s3 & -> & Hm).
  rewrite take_consumed in Hm. injection Hm as <- <-. simpl group.
    simpl default.
  split; [by apply isdigit_forallb|].
  exists pre, s3. by rewrite ?UrlFacts.append_assoc.
Qed.

(** The first alternate pattern finds [/p/], a non-empty segment without
    a slash, a slash, digits and [.html]; the second finds [product/] and
    digits. The group is the digits. *)
Lemma alt_patterns_sound s product_id :
  URLProcessor.first_alt_match URLProcessor.alt_patterns s = Some product_id ->
  Str.isdigit product_id = true
  /\ ((exists pre segment post,
         s = pre +:+ "/p/" +:+ segment +:+ "/" +:+ product_id +:+ ".html"
             +:+ post
         /\ segment <> EmptyString
         /\ Str.has_char "/" segment = false)
      \/ exists pre post, s = pre +:+ "product/" +:+ product_id +:+ post).
Proof.
  unfold URLProcessor.first_alt_match, URLProcessor.alt_patterns, search_group1.
  destruct (search _ s) as [[c rest]|] eqn:Hs.
  - intros [= <-].
    apply search_sound in Hs as (pre & suf & -> & Hm).
    unfold match_ in Hm. cbn [rmatch] in Hm.
    apply lit_sound in Hm as (s1 & -> & Hm).
    apply plus_chr_sound in Hm as (a & seg & s2 & -> & Hseg & Hm).
    cbn [rmatch chr] in Hm.
    destruct s2 as [|b s2]; [done|].
    destruct (Ascii.eqb_spec "/" b) as [<-|]; [|done].
    apply plus_chr_sound in Hm as (a' & d & s3 & -> & Hd & Hm).
    apply lit_sound in Hm as (s4 & -> & Hm).
    rewrite take_consumed in Hm. injection Hm as <- <-. simpl group.
    simpl default.
    split; [by apply isdigit_forallb|]. left.
    exists pre, (String a seg), s4.
    split; [by rewrite ?UrlFacts.append_assoc|]. split; [done|].
    by apply forallb_not_has_char.
  - clear Hs. destruct (search _ s) as [[c rest]|] eqn:Hs; [|done].
    intros [= <-].
    apply search_sound in Hs as (pre & suf & -> & Hm).
    unfold match_ in Hm. cbn [rmatch] in Hm.
    apply lit_sound in Hm as (s1 & -> & Hm).
    apply plus_chr_sound in Hm as (a & d & s2 & -> & Hd & Hm).
    rewrite take_consumed in Hm. injection Hm as <- <-. simpl group.
    simpl default.
    split; [by apply isdigit_forallb|]. right.
    exists pre, s2. by rewrite ?UrlFacts.append_assoc.
Qed.

End ReFacts.

(** ** Product id extraction *)

Module ExtractFacts.
Import World URLProcessor.

(** The first method yields the first value of [productIds], all digits. *)
Lemma product_id_from_param_sound query product_id :
  product_id_from_param query = Some product_id ->
  Str.isdigit product_id = true
  /\ exists rest,
       UrlLib.parse_qs query !! "productIds" = Some (product_id :: rest).
Proof.
  unfold product_id_from_param.
  destruct (UrlLib.parse_qs query !! "productIds") as [[|v rest]|]; try done.
  destruct (Str.isdigit v) eqn:Hd; [|done]. intros [= <-]. eauto.
Qed.

Section Facts.
Context (env : Env).

(** X1. For an ASCII URL that [urlparse] accepts and that holds no escape
    of a code from 128 on, [extract_product_id] returns the result of the
    first method that succeeds, in this order: the [productIds] query
    parameter when its first value is all digits; the pattern
    [/item/<digits>.html]; the alternate patterns
    [/p/<segment>/<digits>.html] and [product/<digits>]; and [None] when
    none succeeds. Each method yields the digits it found. *)
Theorem extract_product_id_order url p :
  UrlEncode.ascii_escapes url = true ->
  UrlLib.urlparse env (us_to_com url) = Py.Ok p ->
  let by_param := product_id_from_param (UrlLib.query p) in
  let by_item := Re.search_group1 PRODUCT_ID_REGEX (us_to_com url) in
  let by_alt := first_alt_match alt_patterns (us_to_com url) in
  extract_product_id env url
  = Py.Ok match by_param with
          | Some product_id => Some product_id
          | None =>
              match by_item with
              | Some product_id => Some product_id
              | None => by_alt
              end
          end
  /\ (forall product_id, by_param = Some product_id ->
        Str.isdigit product_id = true
        /\ exists rest,
             UrlLib.parse_qs (UrlLib.query p) !! "productIds"
             = Some (product_id :: rest))
  /\ (forall product_id, by_item = Some product_id ->
        Str.isdigit product_id = true
        /\ exists pre post,
             us_to_com url
             = pre +:+ "/item/" +:+ product_id +:+ ".html" +:+ post)
  /\ (forall product_id, by_alt = Some product_id ->
        Str.isdigit product_id = true
        /\ ((exists pre segment post,
               us_to_com url
               = pre +:+ "/p/" +:+ segment +:+ "/" +:+ product_id
                     +:+ ".html" +:+ post
               /\ segment <> EmptyString
               /\ Str.has_char "/" segment = false)
            \/ exists pre post,
                 us_to_com url = pre +:+ "product/" +:+ product_id +:+ post)).
Proof.
  intros _ Hp by_param by_item by_alt. split; [|split; [|split]].
  - unfold extract_product_id. rewrite Hp. simpl Py.rbind.
    fold by_param by_item by_alt.
    destruct by_param; [done|]. by destruct by_item.
  - apply product_id_from_param_sound.
  - apply ReFacts.product_id_regex_sound.
  - apply ReFacts.alt_patterns_sound.
Qed.

(** X2. The extraction examples of the specification. *)
Lemma extract_product_id_examples :
  extract_product_id env
    "https://www.example-shop.com/item/1005006234567.html"
  = Py.Ok (Some "1005006234567")
  /\ extract_product_id env
       "https://m.example-shop.com/p/coin-index/index.html?productIds=1005006234567"
     = Py.Ok (Some "1005006234567")
  /\ extract_product_id env "https://example-shop.com/some/random/page"
     = Py.Ok None.
Proof. split; [|split]; by vm_compute. Qed.

(** C6. On a URL whose host holds an unpaired bracket, a URL that the
    standard domain pattern accepts and whose path matches
    [/item/<digits>.html], [extract_product_id] raises the [ValueError]
    of [urlparse] instead of returning the product id; and on such a URL
    that no method matches it raises instead of returning [None]. The
    sibling [clean_aliexpress_url] answers the same URL with [None]. *)
Theorem extract_product_id_raises_on_unpaired_bracket :
  let url := "https://www.aliexpress.com[/item/1005006234567.html" in
  extract_product_id env url = Py.Raise Py.ValueError
  /\ is_Some (Re.match_ STANDARD_ALIEXPRESS_DOMAIN_REGEX url)
  /\ Re.search_group1 PRODUCT_ID_REGEX url = Some "1005006234567"
  /\ extract_product_id env "https://www.aliexpress.com[/some/random/page"
     = Py.Raise Py.ValueError
  /\ clean_aliexpress_url env url "1005006234567" = Py.Ok None.
Proof.
  cbv zeta. split; [by vm_compute|]. split; [by vm_compute; eauto|].
  split; [by vm_compute|]. split; by vm_compute.
Qed.

End Facts.

Lemma extract_product_id_order_witness :
  extract_product_id (Samples.env_with Py.VNone)
    "https://m.aliexpress.us/p/coin-index/index.html?productIds=1005006234567"
  = Py.Ok (Some "1005006234567").
Proof.
  pose proof (extract_product_id_order (Samples.env_with Py.VNone)
    "https://m.aliexpress.us/p/coin-index/index.html?productIds=1005006234567"
    (UrlLib.mkParse "https" "m.aliexpress.com" "/p/coin-index/index.html" ""
                    "productIds=1005006234567" "")
    eq_refl eq_refl) as [Hrun _].
  rewrite Hrun. reflexivity.
Defined.

End ExtractFacts.

(** ** The expiring cache in use *)

Module CacheUseFacts.
Import CacheManager.
Import CacheFacts.

Section Facts.
Context {K : Type} `{Countable K} {V : Type}.
Implicit Types (c : CacheWithExpiry K V) (m : gmap K (V * Z)).

Lemma set_set_ne key key' (v v' : V) t t' c :
  key <> key' ->
  set t key v (set t' key' v' c) = set t' key' v' (set t key v c).
Proof.
  intros Hne. unfold set, with_cache. simpl. f_equal.
  by apply insert_insert_ne.
Qed.

(** X8. Writing one key does not disturb another: a lookup of [key'] after
    a [set] of a different [key] returns what it returned before, and the
    two operations commute on the cache. *)
Theorem get_after_set_other key key' (value : V) t now c :
  key <> key' ->
  fst (get now key' (set t key value c)) = fst (get now key' c)
  /\ snd (get now key' (set t key value c))
     = set t key value (snd (get now key' c)).
Proof.
  intros Hne. unfold get, set. simpl.
  rewrite lookup_insert_ne by done.
  destruct (cache c !! key') as [[item ts]|] eqn:Hk; [|done].
  destruct (now - ts <? expiry_seconds c); [done|]. simpl.
  split; [done|]. unfold with_cache. simpl. f_equal.
  by rewrite delete_insert_ne.
Qed.

(** X9. A miss is final: when [get] finds no fresh entry for a key (the
    key is not in the dict, or its entry has reached the expiry), it
    returns [None] and the key is out of the dict afterwards; any later
    [get], at whatever clock reading, returns [None] and changes nothing,
    until the key is [set] again. *)
Theorem get_miss_is_final now key c :
  (forall item timestamp,
      cache c !! key = Some (item, timestamp) ->
      expiry_seconds c <= now - timestamp) ->
  fst (get now key c) = None
  /\ cache (snd (get now key c)) !! key = None
  /\ forall now', get now' key (snd (get now key c))
                  = (None, snd (get now key c)).
Proof.
  intros Hstale.
  assert (Hk : fst (get now key c) = None
               /\ cache (snd (get now key c)) !! key = None).
  { unfold get.
    destruct (cache c !! key) as [[item ts]|] eqn:Hk; [|done].
    specialize (Hstale item ts eq_refl).
    destruct (Z.ltb_spec (now - ts) (expiry_seconds c)); [lia|].
    split; [done|]. simpl. apply lookup_delete_eq. }
  destruct Hk as [Hnone Hk].
  split; [done|]. split; [done|]. intros now'. by apply get_missing.
Qed.

(** X10. A sweep is invisible to readers: at any clock reading not
    earlier than the sweep's, [get] returns after [clear_expired] what it
    would have returned without it. *)
Theorem clear_expired_is_invisible now now' key c :
  now <= now' ->
  fst (get now' key (snd (clear_expired now c))) = fst (get now' key c).
Proof.
  intros Hle. unfold get at 1. rewrite clear_expired_lookup.
  rewrite clear_expired_expiry. unfold get.
  destruct (cache c !! key) as [[item ts]|] eqn:Hk; [|done].
  destruct (Z.leb_spec (expiry_seconds c) (now - ts)) as [Hexp|Hfresh].
  - destruct (Z.ltb_spec (now' - ts) (expiry_seconds c)); [lia|done].
  - by destruct (now' - ts <? expiry_seconds c).
Qed.

End Facts.
End CacheUseFacts.

(** ** The cleanup job *)

Module CleanupFacts.
Import CacheManager World CacheFacts.

Section Facts.
Context (env : Env).

(** What a sweep keeps: the entries that are fresh at its clock reading. *)
Lemma clear_expired_keeps {V} now (c : CacheWithExpiry string V) key item t :
  cache (snd (clear_expired now c)) !! key = Some (item, t)
  <-> cache c !! key = Some (item, t) /\ now - t < expiry_seconds c.
Proof.
  rewrite clear_expired_lookup.
  destruct (cache c !! key) as [[i ts]|]; [|naive_solver].
  destruct (Z.leb_spec (expiry_seconds c) (now - ts)).
  - split; [done|]. intros [[= -> ->] ?]. lia.
  - split; [intros [= -> ->]; by split|]. by intros [? _].
Qed.

(** X15. The cleanup job never raises, reads the clock three times, once
    for each cache in the order product, link, resolved URL, and issues no
    call; after it each cache holds exactly the entries that were fresh at
    the reading of its sweep, with their values and timestamps, and keeps
    its expiry. *)
Theorem periodic_cache_cleanup_sweeps w :
  let t0 := time_time env (clock_reads w) in
  let t1 := time_time env (S (clock_reads w)) in
  let t2 := time_time env (S (S (clock_reads w))) in
  exists w',
    periodic_cache_cleanup env w = (Py.Ok tt, w')
    /\ clock_reads w' = S (S (S (clock_reads w)))
    /\ api_calls w' = api_calls w /\ http_calls w' = http_calls w
    /\ (forall key item t,
          cache (product_cache w') !! key = Some (item, t)
          <-> cache (product_cache w) !! key = Some (item, t)
              /\ t0 - t < expiry_seconds (product_cache w))
    /\ (forall key item t,
          cache (link_cache w') !! key = Some (item, t)
          <-> cache (link_cache w) !! key = Some (item, t)
              /\ t1 - t < expiry_seconds (link_cache w))
    /\ (forall key item t,
          cache (resolved_url_cache w') !! key = Some (item, t)
          <-> cache (resolved_url_cache w) !! key = Some (item, t)
              /\ t2 - t < expiry_seconds (resolved_url_cache w))
    /\ expiry_seconds (product_cache w') = expiry_seconds (product_cache w)
    /\ expiry_seconds (link_cache w') = expiry_seconds (link_cache w)
    /\ expiry_seconds (resolved_url_cache w')
       = expiry_seconds (resolved_url_cache w).
Proof.
  intros t0 t1 t2. eexists. split; [reflexivity|]. simpl.
  split; [done|]. split; [done|]. split; [done|].
  split; [intros; apply clear_expired_keeps|].
  split; [intros; apply clear_expired_keeps|].
  split; [intros; apply clear_expired_keeps|]. done.
Qed.

End Facts.
End CleanupFacts.

(** ** Quoting and [urlencode] *)

Module EncodeFacts.
Import UrlLib UrlEncode UrlFacts.

Lemma plus_to_space_append s t :
  plus_to_space (s +:+ t) = plus_to_space s +:+ plus_to_space t.
Proof.
  induction s as [|c s IH]; [done|].
  rewrite append_cons. unfold plus_to_space in *. simpl.
  by rewrite IH, append_cons.
Qed.

Lemma prefix_nil s : String.prefix "" s = true.
Proof. by destruct s. Qed.

(** [s.replace(' ', '+')] works character by character. *)
Lemma replace_space_append s t :
  Str.replace " " "+" (s +:+ t)
  = Str.replace " " "+" s +:+ Str.replace " " "+" t.
Proof.
  unfold Str.replace. induction s as [|c s IH]; [done|].
  rewrite append_cons. cbn [Str.replace_from]. rewrite !prefix_cons.
  destruct (Ascii.ascii_dec " " c); cbn [String.prefix String.length Nat.sub].
  - by rewrite !prefix_nil, IH, append_assoc.
  - by rewrite IH, append_cons.
Qed.

(** One escaped byte is read back by [unquote]. *)
Lemma unquote_quote_byte n r :
  (n < 128)%nat ->
  unquote (plus_to_space (quote_byte (fun _ => false) n +:+ r))
  = String (ascii_of_nat n) (unquote (plus_to_space r)).
Proof.
  intros Hn. do 128 (destruct n as [|n]; [reflexivity|]). lia.
Qed.

Lemma unquote_quote_byte_space n r :
  (n < 128)%nat ->
  unquote (plus_to_space
             (Str.replace " " "+" (quote_byte (Ascii.eqb " ") n) +:+ r))
  = String (ascii_of_nat n) (unquote (plus_to_space r)).
Proof.
  intros Hn. do 128 (destruct n as [|n]; [reflexivity|]). lia.
Qed.

Lemma utf8_ascii c :
  is_ascii c = true -> utf8 c = [nat_of_ascii c].
Proof. unfold is_ascii, utf8. by intros ->. Qed.

Lemma unquote_quote s r :
  Str.forallb is_ascii s = true ->
  unquote (plus_to_space (quote (fun _ => false) s +:+ r))
  = s +:+ unquote (plus_to_space r).
Proof.
  induction s as [|c s IH]; [done|]. simpl.
  intros [Hc Hs]%andb_prop. rewrite (utf8_ascii _ Hc). cbn [List.map String.concat].
  rewrite append_assoc, unquote_quote_byte
    by (by apply Nat.ltb_lt).
  by rewrite ascii_nat_embedding, IH, append_cons.
Qed.

Lemma unquote_quote_space s r :
  Str.forallb is_ascii s = true ->
  unquote (plus_to_space (Str.replace " " "+" (quote (Ascii.eqb " ") s) +:+ r))
  = s +:+ unquote (plus_to_space r).
Proof.
  induction s as [|c s IH]; [done|]. simpl.
  intros [Hc Hs]%andb_prop. rewrite (utf8_ascii _ Hc). cbn [List.map String.concat].
  rewrite replace_space_append, append_assoc, unquote_quote_byte_space
    by (by apply Nat.ltb_lt).
  by rewrite ascii_nat_embedding, IH, append_cons.
Qed.

Lemma append_nil_r s : s +:+ "" = s.
Proof. induction s as [|c s IH]; [done|]. by rewrite append_cons, IH. Qed.

(** [unquote_plus(quote_plus(s)) = s] on ASCII texts. *)
Lemma unquote_quote_plus s :
  Str.forallb is_ascii s = true ->
  unquote (plus_to_space (quote_plus s)) = s.
Proof.
  intros Hs. unfold quote_plus.
  destruct (Str.has_char " " s).
  - rewrite <- (append_nil_r (Str.replace _ _ _)).
    rewrite unquote_quote_space by done. apply append_nil_r.
  - rewrite <- (append_nil_r (quote _ _)).
    rewrite unquote_quote by done. apply append_nil_r.
Qed.

(** The characters that separate the fields of a query string. *)
Lemma forallb_append p s t :
  Str.forallb p (s +:+ t) = Str.forallb p s && Str.forallb p t.
Proof.
  induction s as [|c s IH]; [done|].
  rewrite append_cons. simpl. by rewrite IH, andb_assoc.
Qed.

Lemma quote_chunk_alphabet (c : ascii) :
  Str.forallb quoted_char
    (String.concat "" (List.map (quote_byte (fun _ => false)) (utf8 c))) = true
  /\ Str.forallb quoted_char
       (Str.replace " " "+"
          (String.concat "" (List.map (quote_byte (Ascii.eqb " ")) (utf8 c))))
     = true.
Proof. destruct c as [[] [] [] [] [] [] [] []]; by vm_compute. Qed.

(** [quote_plus] writes always safe characters, [%] and [+] only. *)
Lemma quote_plus_alphabet s :
  Str.forallb quoted_char (quote_plus s) = true.
Proof.
  unfold quote_plus. destruct (Str.has_char " " s).
  - induction s as [|c s IH]; [done|]. cbn [quote].
    rewrite replace_space_append, forallb_append, IH, andb_true_r.
    apply quote_chunk_alphabet.
  - induction s as [|c s IH]; [done|]. cbn [quote].
    rewrite forallb_append, IH, andb_true_r.
    apply quote_chunk_alphabet.
Qed.

Lemma forallb_impl (p q : ascii -> bool) s :
  (forall a, p a = true -> q a = true) ->
  Str.forallb p s = true -> Str.forallb q s = true.
Proof.
  intros Hpq. induction s as [|c s IH]; [done|]. simpl.
  intros [Hc Hs]%andb_prop. by rewrite (Hpq _ Hc), IH.
Qed.

Lemma quote_plus_no_char c s :
  quoted_char c = false -> Str.has_char c (quote_plus s) = false.
Proof.
  intros Hc. apply ReFacts.forallb_not_has_char.
  eapply forallb_impl; [|apply quote_plus_alphabet].
  intros a Ha. destruct (Ascii.eqb_spec a c) as [->|]; [congruence|done].
Qed.

Lemma has_char_cons c a s :
  Str.has_char c (String a s) = Ascii.eqb a c || Str.has_char c s.
Proof.
  unfold Str.has_char. simpl. destruct (Ascii.eqb a c); [done|].
  by destruct (Str.find_char c s).
Qed.

Lemma has_char_append c s t :
  Str.has_char c (s +:+ t) = Str.has_char c s || Str.has_char c t.
Proof.
  induction s as [|a s IH]; [done|].
  rewrite append_cons, !has_char_cons, IH. by rewrite orb_assoc.
Qed.

Lemma split_no_separator c s :
  Str.has_char c s = false -> Str.split c s = [s].
Proof.
  induction s as [|a s IH]; [done|].
  rewrite has_char_cons. intros [Ha Hs]%orb_false_elim.
  simpl. by rewrite Ha, IH.
Qed.

Lemma split_append_separator c s t :
  Str.has_char c s = false ->
  Str.split c (s +:+ String c t) = s :: Str.split c t.
Proof.
  induction s as [|a s IH].
  - intros _. rewrite append_nil. simpl. by rewrite Ascii.eqb_refl.
  - rewrite has_char_cons. intros [Ha Hs]%orb_false_elim.
    rewrite append_cons. simpl. by rewrite Ha, IH.
Qed.

Lemma concat_cons sep s s' l :
  String.concat sep (s :: s' :: l) = s +:+ sep +:+ String.concat sep (s' :: l).
Proof. reflexivity. Qed.

(** [sep.join(l).split(sep) = l] when no item holds the separator. *)
Lemma split_concat c l :
  l <> [] -> Forall (fun s => Str.has_char c s = false) l ->
  Str.split c (String.concat (String c "") l) = l.
Proof.
  induction l as [|s l IH]; [done|]. intros _ Hl.
  apply Forall_cons in Hl as [Hs Hl].
  destruct l as [|s' l].
  - simpl. by apply split_no_separator.
  - rewrite concat_cons, append_cons, append_nil.
    rewrite split_append_separator by done. by rewrite IH.
Qed.

Lemma partition_append_separator c s t :
  Str.has_char c s = false ->
  Str.partition c (s +:+ String c t) = (s, Some t).
Proof.
  induction s as [|a s IH].
  - intros _. rewrite append_nil. simpl. by rewrite Ascii.eqb_refl.
  - rewrite has_char_cons. intros [Ha Hs]%orb_false_elim.
    rewrite append_cons. simpl. by rewrite Ha, IH.
Qed.

Lemma quote_plus_empty s :
  Str.forallb is_ascii s = true -> quote_plus s = "" -> s = "".
Proof.
  intros Hs Hq. by rewrite <- (unquote_quote_plus s Hs), Hq.
Qed.

Lemma parse_field_quote_plus k v :
  Str.forallb is_ascii k = true -> Str.forallb is_ascii v = true ->
  parse_field (quote_plus k +:+ "=" +:+ quote_plus v)
  = if String.eqb v "" then [] else [(k, v)].
Proof.
  intros Hk Hv. unfold parse_field.
  change ("=" +:+ quote_plus v) with (String "=" (quote_plus v)).
  rewrite partition_append_separator by (by apply quote_plus_no_char).
  destruct (String.eqb_spec v "") as [->|Hne].
  - done.
  - destruct (String.eqb_spec (quote_plus v) "") as [He|_].
    + by apply quote_plus_empty in He.
    + simpl. by rewrite !unquote_quote_plus.
Qed.

(** Decoding inverts encoding: for a dict of ASCII texts,
    [parse_qsl(urlencode(query))] lists the items of the dict in order,
    but for the items with an empty value, which [parse_qsl] drops. *)
Lemma parse_qsl_urlencode query :
  Forall (fun kv => Str.forallb is_ascii (fst kv) = true
                    /\ Str.forallb is_ascii (snd kv) = true) query ->
  parse_qsl (urlencode query)
  = List.filter (fun kv => negb (String.eqb (snd kv) "")) query.
Proof.
  intros Hq. unfold parse_qsl, urlencode.
  destruct query as [|kv query]; [done|].
  rewrite split_concat.
  - induction Hq as [|[k v] l [Hk Hv] Hl IH]; [done|].
    cbn [List.map concat List.filter fst snd].
    rewrite parse_field_quote_plus by done. rewrite IH.
    by destruct (String.eqb v "").
  - done.
  - apply Forall_map. apply Forall_forall. intros [k v] _. simpl.
    rewrite !has_char_append, !quote_plus_no_char by done. done.
Qed.

(** [urlencode] writes the characters of [quote_plus] and the two
    separators. *)
Lemma urlencode_alphabet query :
  Str.forallb (fun c => quoted_char c || Ascii.eqb c "&" || Ascii.eqb c "=")
              (urlencode query) = true.
Proof.
  assert (Hq : forall t,
            Str.forallb (fun c => quoted_char c || Ascii.eqb c "&"
                                  || Ascii.eqb c "=") (quote_plus t) = true).
  { intros t. eapply forallb_impl; [|apply quote_plus_alphabet].
    by intros a ->. }
  unfold urlencode. induction query as [|[k v] query IH]; [done|].
  destruct query as [|kv query].
  - cbn [List.map String.concat fst snd].
    rewrite !forallb_append, !Hq. done.
  - cbn [List.map fst snd] in *. rewrite concat_cons.
    rewrite !forallb_append, !Hq, IH. done.
Qed.

End EncodeFacts.

(** ** The query of a URL *)

Module QueryFacts.
Import World UrlLib UrlFacts EncodeFacts.

Lemma has_char_forallb c s :
  Str.has_char c s = false ->
  Str.forallb (fun a => negb (Ascii.eqb a c)) s = true.
Proof.
  induction s as [|a s IH]; [done|].
  rewrite has_char_cons. intros [Ha Hs]%orb_false_elim.
  simpl. by rewrite Ha, IH.
Qed.

Lemma has_char_filter c p s :
  Str.has_char c s = false -> Str.has_char c (Str.filter p s) = false.
Proof.
  induction s as [|a s IH]; [done|].
  rewrite has_char_cons. intros [Ha Hs]%orb_false_elim. simpl.
  destruct (p a); [|by apply IH]. by rewrite has_char_cons, Ha, IH.
Qed.

Lemma has_char_drop c n s :
  Str.has_char c s = false -> Str.has_char c (Str.drop n s) = false.
Proof.
  revert s. induction n as [|n IH]; intros [|a s]; try done.
  rewrite has_char_cons. intros [Ha Hs]%orb_false_elim. simpl. by apply IH.
Qed.

Lemma has_char_span c p s :
  Str.has_char c s = false -> Str.has_char c (snd (Str.span p s)) = false.
Proof.
  induction s as [|a s IH]; [done|]. intros Hs. simpl.
  destruct (p a); [|done]. simpl. apply IH.
  rewrite has_char_cons in Hs. by apply orb_false_elim in Hs as [_ ?].
Qed.

Lemma has_char_split_scheme c url :
  Str.has_char c url = false ->
  Str.has_char c (snd (split_scheme url)) = false.
Proof.
  intros Hc. unfold split_scheme.
  destruct (Str.find_char ":" url) as [[|i]|]; try done.
  destruct url as [|a url]; [done|].
  destruct (_ && _); [|done]. by apply has_char_drop.
Qed.

Lemma has_char_split_netloc c url :
  Str.has_char c url = false ->
  Str.has_char c (snd (split_netloc url)) = false.
Proof.
  intros Hc. unfold split_netloc.
  destruct (String.prefix "//" url); [|done].
  by apply has_char_span, has_char_drop.
Qed.

Lemma partition_no_separator c s :
  Str.has_char c s = false -> Str.partition c s = (s, None).
Proof.
  induction s as [|a s IH]; [done|].
  rewrite has_char_cons. intros [Ha Hs]%orb_false_elim.
  simpl. by rewrite Ha, IH.
Qed.

Lemma filter_id p s :
  Str.forallb p s = true -> Str.filter p s = s.
Proof.
  induction s as [|a s IH]; [done|]. simpl.
  intros [Ha Hs]%andb_prop. by rewrite Ha, IH.
Qed.

Section Parse.
Context (env : Env).

(** The query appended to a URL that has none is the query that
    [urlsplit] finds, and the other components are those of the URL. *)
Lemma urlsplit_append_query base q p :
  urlsplit env base = Py.Ok p ->
  Str.has_char "?" base = false -> Str.has_char "#" base = false ->
  Str.forallb (fun c => negb (unsafe_char c)) q = true ->
  Str.has_char "#" q = false ->
  urlsplit env (base +:+ String "?" q)
  = Py.Ok (mkParse (scheme p) (netloc p) (path p) "" q "")
  /\ p = mkParse (scheme p) (netloc p) (path p) "" "" "".
Proof.
  intros Hp Hq Hf Hsafe Hqf. revert Hp. unfold urlsplit.
  rewrite lstrip_append by done. rewrite filter_append.
  change (Str.filter (fun c => negb (unsafe_char c)) (String "?" q))
    with (String "?" (Str.filter (fun c => negb (unsafe_char c)) q)).
  rewrite (filter_id _ q Hsafe).
  rewrite split_scheme_query.
  set (url := Str.filter _ (Str.lstrip _ base)).
  assert (Hrem : forall c, Str.has_char c base = false ->
            Str.has_char c (snd (split_netloc (snd (split_scheme url)))) = false).
  { intros c Hc. apply has_char_split_netloc, has_char_split_scheme.
    subst url. apply has_char_filter. by apply has_char_span. }
  destruct (split_scheme url) as [sch rest]. cbn [fst snd] in *.
  rewrite split_netloc_query.
  destruct (split_netloc rest) as [nl rem]. cbn [fst snd] in *.
  destruct (xorb (Str.has_char "[" nl) (Str.has_char "]" nl)); [done|].
  destruct (Str.has_char "[" nl && Str.has_char "]" nl
            && negb (bracketed_netloc_ok env nl)); [done|].
  rewrite (partition_no_separator "#" rem) by auto.
  rewrite (partition_no_separator "?" rem) by auto.
  rewrite (partition_no_separator "#" (rem +:+ String "?" q)).
  2:{ rewrite has_char_append, has_char_cons, Hqf, (Hrem _ Hf). done. }
  rewrite partition_append_separator by auto.
  by intros [= <-].
Qed.

Lemma urlparse_append_query base q p :
  urlparse env base = Py.Ok p ->
  Str.has_char "?" base = false -> Str.has_char "#" base = false ->
  Str.forallb (fun c => negb (unsafe_char c)) q = true ->
  Str.has_char "#" q = false ->
  urlparse env (base +:+ String "?" q)
  = Py.Ok (mkParse (scheme p) (netloc p) (path p) (params p) q "").
Proof.
  intros Hp Hq Hf Hsafe Hqf. revert Hp. unfold urlparse.
  destruct (urlsplit env base) as [r|e] eqn:Hr; [|done].
  destruct (urlsplit_append_query _ _ _ Hr Hq Hf Hsafe Hqf) as [-> Hr0].
  rewrite Hr0. unfold Py.rbind. cbn [scheme netloc path query fragment].
  destruct (mem (scheme r) uses_params && Str.has_char ";" (path r)).
  - destruct (splitparams (path r)) as [u pr]. by intros [= <-].
  - by intros [= <-].
Qed.

End Parse.

(** The values that [parse_qs] files under a name are the values of the
    fields of that name, in order. *)
Lemma parse_qs_fold name (l : list (string * string)) :
  forall m : gmap string (list string),
  foldl (fun parsed_result nv =>
           <[fst nv := default [] (parsed_result !! fst nv) ++ [snd nv]]>
             parsed_result) m l !! name
  = match List.filter (fun nv => String.eqb (fst nv) name) l with
    | [] => m !! name
    | nvs => Some (default [] (m !! name) ++ List.map snd nvs)
    end.
Proof.
  induction l as [|[n v] l IH]; intros m; [done|].
  cbn [foldl List.filter fst snd]. rewrite IH.
  destruct (String.eqb_spec n name) as [->|Hne].
  - rewrite lookup_insert_eq. cbn [default List.map snd].
    destruct (List.filter _ l) as [|nv nvs]; [done|].
    cbn [List.map]. unfold id. by rewrite <- app_assoc.
  - by rewrite lookup_insert_ne.
Qed.

Lemma parse_qs_lookup qs name :
  parse_qs qs !! name
  = match List.filter (fun nv => String.eqb (fst nv) name) (parse_qsl qs) with
    | [] => None
    | nvs => Some (List.map snd nvs)
    end.
Proof. unfold parse_qs. by rewrite parse_qs_fold, lookup_empty. Qed.

Lemma unquote_id s :
  Str.has_char "%" s = false -> unquote s = s.
Proof.
  induction s as [|a s IH]; [done|].
  rewrite has_char_cons. intros [Ha Hs]%orb_false_elim.
  simpl. by rewrite Ha, IH.
Qed.

Lemma plus_to_space_id s :
  Str.has_char "+" s = false -> plus_to_space s = s.
Proof.
  induction s as [|a s IH]; [done|].
  rewrite has_char_cons. intros [Ha Hs]%orb_false_elim.
  unfold plus_to_space in *. simpl. by rewrite Ha, IH.
Qed.

(** A run of digits holds none of the characters that structure a URL. *)
Lemma digits_no_char c d :
  Str.is_digit c = false -> Str.forallb Str.is_digit d = true ->
  Str.has_char c d = false.
Proof.
  intros Hc Hd. apply ReFacts.forallb_not_has_char.
  eapply forallb_impl; [|exact Hd].
  intros a Ha. destruct (Ascii.eqb_spec a c) as [->|]; [congruence|done].
Qed.

Lemma isdigit_digits d :
  Str.isdigit d = true -> d <> "" /\ Str.forallb Str.is_digit d = true.
Proof. by destruct d. Qed.

Lemma digits_safe d :
  Str.forallb Str.is_digit d = true ->
  Str.forallb (fun c => negb (unsafe_char c)) d = true.
Proof.
  apply forallb_impl. intros a.
  destruct a as [[] [] [] [] [] [] [] []]; vm_compute; done.
Qed.

Lemma parse_field_digits name d :
  Str.has_char "=" name = false ->
  Str.isdigit d = true ->
  parse_field (name +:+ String "=" d)
  = [(unquote (plus_to_space name), d)].
Proof.
  intros Hname [Hne Hd]%isdigit_digits. unfold parse_field.
  rewrite partition_append_separator by done.
  destruct (String.eqb_spec d "") as [|_]; [done|]. simpl.
  rewrite (plus_to_space_id d) by (by apply digits_no_char).
  by rewrite (unquote_id d) by (by apply digits_no_char).
Qed.

End QueryFacts.

(** ** The offers and their URLs *)

Module OfferFacts.
Import World UrlLib URLProcessor UrlFacts EncodeFacts QueryFacts.
Import Offers Constants TelegramBot.

Lemma str_contains_digits sub d :
  (exists c sub', sub = String c sub' /\ Str.is_digit c = false) ->
  Str.forallb Str.is_digit d = true ->
  Py.str_contains sub d = false.
Proof.
  intros (c & sub' & -> & Hc). induction d as [|a d IH]; [done|].
  simpl. intros [Ha Hd]%andb_prop. rewrite IH by done.
  destruct (Ascii.ascii_dec c a) as [->|]; [congruence|done].
Qed.

Section Facts.
Context (env : Env).

(** A URL with a [productIds] parameter made of digits yields them. *)
Lemma extract_product_id_of_query base q product_id p :
  urlparse env base = Py.Ok p ->
  Str.has_char "?" base = false -> Str.has_char "#" base = false ->
  Py.str_contains ".aliexpress.us" (base +:+ String "?" q) = false ->
  Str.forallb (fun c => negb (unsafe_char c)) q = true ->
  Str.has_char "#" q = false ->
  product_id_from_param q = Some product_id ->
  extract_product_id env (base +:+ String "?" q) = Py.Ok (Some product_id).
Proof.
  intros Hp Hq Hf Hus Hsafe Hqf Hid. unfold extract_product_id, us_to_com.
  rewrite Hus. rewrite (urlparse_append_query env _ _ _ Hp) by done.
  unfold Py.rbind. cbn [query]. by rewrite Hid.
Qed.

Lemma product_id_from_param_coin d :
  Str.isdigit d = true ->
  product_id_from_param ("_immersiveMode=true&from=syicon&productIds=" +:+ d)
  = Some d.
Proof.
  intros Hd. pose proof (isdigit_digits _ Hd) as [_ Hds].
  unfold product_id_from_param. rewrite parse_qs_lookup. unfold parse_qsl.
  change ("_immersiveMode=true&from=syicon&productIds=" +:+ d)
    with ("_immersiveMode=true"
          +:+ String "&" ("from=syicon"
                          +:+ String "&" ("productIds" +:+ String "=" d))).
  rewrite !split_append_separator by done.
  rewrite split_no_separator
    by (rewrite has_char_append, (has_char_cons _ "=" d),
                (digits_no_char "&" d) by done; done).
  cbn [List.map concat]. rewrite parse_field_digits by done.
  vm_compute parse_field. simpl. by rewrite Hd.
Qed.

Lemma product_id_from_param_bundles d :
  Str.isdigit d = true ->
  product_id_from_param
    ("&redirectUrl=https://www.aliexpress.com/ssr/300000512/BundleDeals2"
     +:+ "?disableNav=YES&pha_manifest=ssr&_immersiveMode=true&productIds="
     +:+ d)
  = Some d.
Proof.
  intros Hd. pose proof (isdigit_digits _ Hd) as [_ Hds].
  unfold product_id_from_param. rewrite parse_qs_lookup. unfold parse_qsl.
  change ("&redirectUrl=https://www.aliexpress.com/ssr/300000512/BundleDeals2"
          +:+ "?disableNav=YES&pha_manifest=ssr&_immersiveMode=true&productIds="
          +:+ d)
    with (""
          +:+ String "&"
          ("redirectUrl=https://www.aliexpress.com/ssr/300000512/BundleDeals2?disableNav=YES"
          +:+ String "&" ("pha_manifest=ssr"
          +:+ String "&" ("_immersiveMode=true"
          +:+ String "&" ("productIds" +:+ String "=" d))))).
  rewrite !split_append_separator by done.
  rewrite split_no_separator
    by (rewrite has_char_append, (has_char_cons _ "=" d),
                (digits_no_char "&" d) by done; done).
  cbn [List.map concat]. rewrite parse_field_digits by done.
  vm_compute parse_field. simpl. by rewrite Hd.
Qed.

(** X12. The product id put into an offer URL can be read back: for a
    product id made of digits, [extract_product_id] applied to the URL that
    the coin offer or the bundle-deals offer builds returns that id,
    whatever the base URL. *)
Theorem extract_product_id_of_offer_url offer base_url product_id :
  offer = CoinOfferSSR \/ offer = BundlesOfferSSR ->
  Str.isdigit product_id = true ->
  exists url,
    build_urls offer base_url product_id = [url]
    /\ extract_product_id env url = Py.Ok (Some product_id).
Proof.
  intros Hoffer Hd. pose proof (isdigit_digits _ Hd) as [_ Hds].
  destruct Hoffer as [-> | ->]; eexists; (split; [reflexivity|]).
  - change ("https://m.aliexpress.com/p/coin-index/index.html"
            +:+ "?_immersiveMode=true&from=syicon&productIds=" +:+ product_id)
      with ("https://m.aliexpress.com/p/coin-index/index.html"
            +:+ String "?" ("_immersiveMode=true&from=syicon&productIds="
                            +:+ product_id)).
    eapply extract_product_id_of_query.
    + by vm_compute.
    + done.
    + done.
    + cbv [String.append]. simpl. apply str_contains_digits; [by eexists _, _|done].
    + rewrite forallb_append, (digits_safe _ Hds). done.
    + by rewrite has_char_append, (digits_no_char "#" product_id) by done.
    + by apply product_id_from_param_coin.
  - unfold _wrap_url_with_star_aliexpress.
    change ("https://star.aliexpress.com/share/share.htm?&redirectUrl="
            +:+ "https://www.aliexpress.com/ssr/300000512/BundleDeals2"
            +:+ "?disableNav=YES&pha_manifest=ssr&_immersiveMode=true&productIds="
            +:+ product_id)
      with ("https://star.aliexpress.com/share/share.htm"
            +:+ String "?"
            ("&redirectUrl=https://www.aliexpress.com/ssr/300000512/BundleDeals2"
             +:+ "?disableNav=YES&pha_manifest=ssr&_immersiveMode=true&productIds="
             +:+ product_id)).
    eapply extract_product_id_of_query.
    + by vm_compute.
    + done.
    + done.
    + cbv [String.append]. simpl. apply str_contains_digits; [by eexists _, _|done].
    + rewrite !forallb_append, (digits_safe _ Hds). done.
    + by rewrite !has_char_append, (digits_no_char "#" product_id) by done.
    + by apply product_id_from_param_bundles.
Qed.

(** X11. The parameters of a static offer can be read back from its raw
    URL: when the base URL is accepted by [urlparse] and has neither query
    nor fragment, the URL that [StaticOffer.build_urls] wraps keeps the
    scheme, network location and path of the base URL, and its query
    decodes, by [parse_qsl], to the parameters of the offer in order (but
    for those with an empty value, which [parse_qsl] drops).  The parameters
    are ASCII texts. *)
Theorem static_offer_parameters_read_back offer_key params base_url
    product_id p :
  urlparse env base_url = Py.Ok p ->
  Str.has_char "?" base_url = false ->
  Str.has_char "#" base_url = false ->
  Forall (fun kv => Str.forallb UrlEncode.is_ascii (fst kv) = true
                    /\ Str.forallb UrlEncode.is_ascii (snd kv) = true) params ->
  exists raw_url p',
    build_urls (StaticOffer offer_key params) base_url product_id
    = [_wrap_url_with_star_aliexpress raw_url]
    /\ urlparse env raw_url = Py.Ok p'
    /\ scheme p' = scheme p /\ netloc p' = netloc p /\ path p' = path p
    /\ parse_qsl (query p')
       = List.filter (fun kv => negb (String.eqb (snd kv) "")) params.
Proof.
  intros Hp Hq Hf Hascii.
  exists (base_url +:+ "?" +:+ UrlEncode.urlencode params). eexists.
  split; [reflexivity|].
  change ("?" +:+ UrlEncode.urlencode params)
    with (String "?" (UrlEncode.urlencode params)).
  pose proof (urlencode_alphabet params) as Halpha.
  split; [|split; [|split; [|split]]].
  - apply (urlparse_append_query env _ _ _ Hp Hq Hf).
    + eapply forallb_impl; [|exact Halpha].
      intros a. destruct a as [[] [] [] [] [] [] [] []]; vm_compute; done.
    + apply ReFacts.forallb_not_has_char.
      eapply forallb_impl; [|exact Halpha].
      intros a. destruct a as [[] [] [] [] [] [] [] []]; vm_compute; done.
  - done.
  - done.
  - done.
  - cbn [query]. by apply parse_qsl_urlencode.
Qed.

End Facts.

Lemma append_inj_l s a b : s +:+ a = s +:+ b -> a = b.
Proof.
  induction s as [|c s IH]; [done|]. rewrite !append_cons.
  intros [= Heq]. by apply IH.
Qed.

(** A text that ends with a character that is no digit is not a text that
    ends with a run of digits. *)
Lemma append_last_not_digit s1 a s2 d :
  Str.is_digit a = false -> Str.isdigit d = true ->
  s1 +:+ String a "" <> s2 +:+ d.
Proof.
  intros Ha [Hne Hd]%isdigit_digits. revert s2.
  induction s1 as [|c s1 IH]; intros [|c2 s2]; rewrite ?append_nil, ?append_cons.
  - intros <-. simpl in Hd. by rewrite Ha in Hd.
  - intros [= <- Heq]. by destruct s2, d.
  - intros <-. simpl in Hd. apply andb_prop in Hd as [_ Hd].
    rewrite forallb_append in Hd. apply andb_prop in Hd as [_ Hd].
    simpl in Hd. by rewrite Ha in Hd.
  - intros [= <- Heq]. by apply (IH s2).
Qed.

(** X13. The offer URLs of a product: [_generate_offer_urls] never
    raises; it files one URL under each key of [OFFER_ORDER] and lists these
    URLs in that order; and for a product id made of digits the URLs of the
    offers are pairwise distinct, whatever the base URL, so that each offer
    has its own key in the dict of the batch generation. *)
Theorem generate_offer_urls_distinct base_url product_id :
  exists target_urls_map all_urls_to_fetch,
    _generate_offer_urls base_url product_id
    = Py.Ok (target_urls_map, all_urls_to_fetch)
    /\ (forall offer_key,
          is_Some (target_urls_map !! offer_key) <-> offer_key ∈ OFFER_ORDER)
    /\ Forall2 (fun offer_key url => target_urls_map !! offer_key = Some [url])
               OFFER_ORDER all_urls_to_fetch
    /\ (Str.isdigit product_id = true -> NoDup all_urls_to_fetch).
Proof.
  eexists _, _. split; [reflexivity|]. split; [|split].
  - intros k. cbn [fst]. rewrite <- elem_of_dom, !dom_insert_L, dom_empty_L.
    unfold OFFER_ORDER. simpl. set_solver.
  - repeat constructor.
  - intros Hd. cbn [snd app build_urls].
    unfold _wrap_url_with_star_aliexpress.
    vm_compute UrlEncode.urlencode.
    set (star := "https://star.aliexpress.com/share/share.htm?&redirectUrl=").
    assert (Hends : forall tail : string,
              base_url +:+ tail +:+ "y"
              <> "https://www.aliexpress.com/ssr/300000512/BundleDeals2"
                 +:+ "?disableNav=YES&pha_manifest=ssr&_immersiveMode=true&productIds="
                 +:+ product_id).
    { intros tail. rewrite <- !append_assoc.
      by apply append_last_not_digit. }
    repeat apply NoDup_cons_2; rewrite ?elem_of_cons, ?elem_of_nil;
      try apply NoDup_nil_2.
    + intros [Heq|[Heq|[Heq|[]]]]; revert Heq; subst star;
        cbv [String.append]; congruence.
    + intros [Heq|[Heq|[]]]; apply append_inj_l in Heq.
      * apply append_inj_l in Heq. revert Heq. cbv [String.append]. congruence.
      * by apply (Hends "?sourceType=562&channel=sd&afSmartRedirect=").
    + intros [Heq|[]]. apply append_inj_l in Heq.
      by apply (Hends "?sourceType=570&channel=bundles&afSmartRedirect=").
    + intros [].
Qed.

End OfferFacts.

(** ** Cleaning a URL and reading its product id back *)

Module RoundTripFacts.
Import World UrlLib URLProcessor UrlFacts EncodeFacts QueryFacts.

(** *** [str.replace] and separators *)

Lemma prefix_append_separator old : forall x c t,
  Str.has_char c old = false ->
  String.prefix old (x +:+ String c t) = String.prefix old x.
Proof.
  induction old as [|o old IH]; intros x c t.
  - intros _. by rewrite !prefix_nil.
  - rewrite has_char_cons. intros [Ho Hold]%orb_false_elim.
    destruct x as [|a x]; rewrite ?append_nil, ?append_cons, !prefix_cons.
    + destruct (Ascii.ascii_dec o c) as [->|]; [|done].
      by rewrite Ascii.eqb_refl in Ho.
    + destruct (Ascii.ascii_dec o a); [by apply IH|done].
Qed.

Lemma replace_from_has_char c old new : forall s skip,
  Str.has_char c s = false -> Str.has_char c new = false ->
  Str.has_char c (Str.replace_from old new s skip) = false.
Proof.
  induction s as [|a s IH]; intros skip; [done|].
  rewrite has_char_cons. intros [Ha Hs]%orb_false_elim Hnew.
  cbn [Str.replace_from]. destruct skip as [|k]; [|by apply IH].
  destruct (String.prefix old (String a s)).
  - by rewrite has_char_append, Hnew, IH.
  - by rewrite has_char_cons, Ha, IH.
Qed.

(** A character that is not in [old] separates the replacements on its
    two sides. *)
Lemma replace_from_separator o old new c t : forall a skip,
  Str.has_char c (String o old) = false ->
  (skip <= String.length a)%nat ->
  Str.replace_from (String o old) new (a +:+ String c t) skip
  = Str.replace_from (String o old) new a skip
    +:+ String c (Str.replace_from (String o old) new t 0).
Proof.
  intros a skip Hc. revert skip.
  induction a as [|x a IH]; intros skip Hskip.
  - destruct skip; [|simpl in Hskip; lia].
    rewrite append_nil. cbn [Str.replace_from]. rewrite prefix_cons.
    rewrite has_char_cons in Hc. apply orb_false_elim in Hc as [Ho _].
    destruct (Ascii.ascii_dec o c) as [->|]; [|done].
    by rewrite Ascii.eqb_refl in Ho.
  - rewrite append_cons. cbn [Str.replace_from].
    destruct skip as [|k]; [|apply IH; simpl in Hskip; lia].
    rewrite <- append_cons, prefix_append_separator by done.
    destruct (String.prefix (String o old) (String x a)) eqn:Hp.
    + apply prefix_length in Hp. rewrite IH by (simpl in *; lia).
      by rewrite append_assoc.
    + by rewrite IH by lia.
Qed.

Lemma replace_from_digits o old new t : forall d,
  Str.is_digit o = false -> Str.forallb Str.is_digit d = true ->
  Str.replace_from (String o old) new (d +:+ t) 0
  = d +:+ Str.replace_from (String o old) new t 0.
Proof.
  intros d Ho. induction d as [|a d IH]; [done|].
  cbn [Str.forallb]. intros [Ha Hd]%andb_prop. rewrite !append_cons.
  cbn [Str.replace_from]. rewrite prefix_cons.
  destruct (Ascii.ascii_dec o a) as [->|]; [congruence|].
  by rewrite IH.
Qed.

(** *** The matcher on a text that holds the pattern *)

Section Matcher.
Import Re.
Context {R : Type}.
Implicit Types (k : string -> caps -> option R) (c : caps).

Lemma iterate_chr_complete p k (t : string) c x :
  match t with String a _ => p a = false | EmptyString => True end ->
  k t c = Some x ->
  forall d fuel,
    Str.forallb p d = true -> (String.length d <= fuel)%nat ->
    iterate (rmatch R (Chr p)) k fuel (d +:+ t) c = Some x.
Proof.
  intros Ht Hk. induction d as [|a d IH]; intros fuel Hd Hfuel.
  - rewrite append_nil. destruct fuel as [|fuel]; [done|].
    rewrite ReFacts.iterate_S, ReFacts.rmatch_Chr.
    destruct t as [|b t]; [done|]. by rewrite Ht.
  - destruct fuel as [|fuel]; [simpl in Hfuel; lia|].
    simpl in Hd. apply andb_prop in Hd as [Ha Hd].
    rewrite ReFacts.iterate_S, append_cons, ReFacts.rmatch_Chr, Ha.
    assert (Hlt : (String.length (d +:+ t) <? String.length (String a (d +:+ t)))%nat
                  = true) by (apply Nat.ltb_lt; simpl; lia).
    rewrite Hlt. rewrite IH; [done|done|simpl in Hfuel; lia].
Qed.

Lemma length_append s t :
  String.length (s +:+ t) = (String.length s + String.length t)%nat.
Proof. induction s as [|a s IH]; [done|]. rewrite append_cons. simpl. lia. Qed.

Lemma plus_chr_complete p k a d (t : string) c x :
  match t with String b _ => p b = false | EmptyString => True end ->
  Str.forallb p (String a d) = true ->
  k t c = Some x ->
  rmatch R (Plus (Chr p)) (String a d +:+ t) c k = Some x.
Proof.
  intros Ht Hd Hk. simpl in Hd. apply andb_prop in Hd as [Ha Hd].
  unfold Plus. cbn [rmatch]. rewrite append_cons, Ha.
  apply iterate_chr_complete; try done.
  rewrite length_append. lia.
Qed.

Lemma rmatch_Cat r1 r2 s c k :
  rmatch R (Cat r1 r2) s c k
  = rmatch R r1 s c (fun s' c' => rmatch R r2 s' c' k).
Proof. reflexivity. Qed.

Lemma rmatch_Grp n r s c k :
  rmatch R (Grp n r) s c k
  = rmatch R r s c
      (fun s' c' =>
         k s' ((n, Str.take (String.length s - String.length s') s) :: c')).
Proof. reflexivity. Qed.

End Matcher.

Lemma product_id_regex_complete d t :
  Str.isdigit d = true ->
  Re.match_ PRODUCT_ID_REGEX ("/item/" +:+ d +:+ ".html" +:+ t)
  = Some ([(1%nat, d)], t).
Proof.
  intros [Hne Hd]%isdigit_digits. unfold Re.match_, PRODUCT_ID_REGEX.
  rewrite rmatch_Cat, ReFacts.lit_complete, rmatch_Cat, rmatch_Grp.
  unfold Re.digit. destruct d as [|a d]; [done|].
  rewrite (plus_chr_complete _ _ _ _ (".html" +:+ t) _ ([(1%nat, String a d)], t)).
  - done.
  - done.
  - done.
  - rewrite ReFacts.take_consumed. by rewrite ReFacts.lit_complete.
Qed.


Lemma match_product_id_sound s m :
  Re.match_ PRODUCT_ID_REGEX s = Some m ->
  exists a d t,
    s = "/item/" +:+ String a d +:+ ".html" +:+ t
    /\ Str.forallb Str.is_digit (String a d) = true.
Proof.
  unfold Re.match_, PRODUCT_ID_REGEX. cbn [Re.rmatch]. intros Hm.
  apply ReFacts.lit_sound in Hm as (s1 & -> & Hm).
  apply ReFacts.plus_chr_sound in Hm as (a & d & s2 & -> & Hd & Hm).
  apply ReFacts.lit_sound in Hm as (s3 & -> & Hm).
  exists a, d, s3. by rewrite ?append_assoc.
Qed.

Lemma match_product_id_slash a s :
  Ascii.eqb a "/" = false -> Re.match_ PRODUCT_ID_REGEX (String a s) = None.
Proof.
  intros Ha. destruct (Re.match_ _ _) as [m|] eqn:Hm; [|done].
  apply match_product_id_sound in Hm as (b & d & t & Heq & _).
  rewrite !append_cons in Heq. injection Heq as -> _.
  by rewrite Ascii.eqb_refl in Ha.
Qed.

(** [search] passes over a text without a slash. *)
Lemma search_product_id_skip x s :
  Str.has_char "/" x = false ->
  Re.search PRODUCT_ID_REGEX (x +:+ s) = Re.search PRODUCT_ID_REGEX s.
Proof.
  induction x as [|a x IH]; [done|].
  rewrite has_char_cons. intros [Ha Hx]%orb_false_elim.
  rewrite append_cons. cbn [Re.search].
  by rewrite match_product_id_slash, IH.
Qed.

(** No match starts at the slash in front of a host. *)
Lemma match_product_id_host n t :
  Str.has_char "/" n = false ->
  Re.match_ PRODUCT_ID_REGEX (String "/" (n +:+ "/item/" +:+ t)) = None.
Proof.
  intros Hn. destruct (Re.match_ _ _) as [m|] eqn:Hm; [|done].
  apply match_product_id_sound in Hm as (b & d & t' & Heq & Hd).
  exfalso. simpl in Hd. apply andb_prop in Hd as [Hb _].
  destruct n as [|c1 [|c2 [|c3 [|c4 [|c5 n]]]]];
    rewrite ?append_cons, ?append_nil in Heq; simplify_eq.
Qed.

Lemma forallb_no_char p c s :
  p c = false -> Str.forallb p s = true -> Str.has_char c s = false.
Proof.
  intros Hc Hs. apply ReFacts.forallb_not_has_char.
  eapply forallb_impl; [|exact Hs].
  intros a Ha. destruct (Ascii.eqb_spec a c) as [->|]; [congruence|done].
Qed.

Lemma has_char_span_fst c p s :
  Str.has_char c s = false -> Str.has_char c (fst (Str.span p s)) = false.
Proof.
  induction s as [|a s IH]; [done|].
  rewrite has_char_cons. intros [Ha Hs]%orb_false_elim. simpl.
  destruct (p a); [|done]. simpl. by rewrite has_char_cons, Ha, IH.
Qed.

Lemma forallb_span_fst p s : Str.forallb p (fst (Str.span p s)) = true.
Proof.
  induction s as [|a s IH]; [done|]. simpl.
  destruct (p a) eqn:Ha; [|done]. simpl. by rewrite Ha, IH.
Qed.

Lemma forallb_take p n s :
  Str.forallb p s = true -> Str.forallb p (Str.take n s) = true.
Proof.
  revert s. induction n as [|n IH]; intros [|a s]; try done.
  simpl. intros [Ha Hs]%andb_prop. by rewrite Ha, IH.
Qed.

Lemma forallb_lower s :
  Str.forallb scheme_char s = true ->
  Str.forallb scheme_char (Str.lower s) = true.
Proof.
  unfold Str.lower. induction s as [|a s IH]; [done|].
  cbn [Str.forallb Str.map].
  intros [Ha Hs]%andb_prop. rewrite IH, andb_true_r by done.
  revert Ha. destruct a as [[] [] [] [] [] [] [] []]; by vm_compute.
Qed.

Lemma split_scheme_chars url :
  Str.forallb scheme_char (fst (split_scheme url)) = true.
Proof.
  unfold split_scheme.
  destruct (Str.find_char ":" url) as [[|i]|]; try done.
  destruct url as [|a url]; [done|].
  destruct (Str.is_alpha a) eqn:Ha; [|done]. cbn [andb].
  destruct (Str.forallb scheme_char (Str.take (S i) (String a url))) eqn:Hs;
    [|done].
  cbn [fst]. by apply forallb_lower.
Qed.

Section Facts.
Context (env : Env).

(** The scheme and the network location that [urlparse] finds. *)
Lemma urlparse_components url p :
  urlparse env url = Py.Ok p ->
  Str.forallb scheme_char (scheme p) = true
  /\ Str.forallb (fun c => negb (netloc_delim c)) (netloc p) = true
  /\ (Str.has_char "[" url = false ->
      Str.has_char "[" (netloc p) = false
      /\ Str.has_char "]" (netloc p) = false).
Proof.
  unfold urlparse, urlsplit.
  set (u := Str.filter _ (Str.lstrip _ url)).
  pose proof (split_scheme_chars u) as Hsch.
  assert (Hbr : Str.has_char "[" url = false ->
            Str.has_char "[" (fst (split_netloc (snd (split_scheme u)))) = false).
  { intros Hb. unfold split_netloc.
    destruct (String.prefix "//" _); [|done]. cbn [fst].
    apply has_char_span_fst, has_char_drop, has_char_split_scheme.
    subst u. by apply has_char_filter, has_char_span. }
  assert (Hnl : Str.forallb (fun c => negb (netloc_delim c))
                  (fst (split_netloc (snd (split_scheme u)))) = true).
  { unfold split_netloc. destruct (String.prefix "//" _); [|done].
    apply forallb_span_fst. }
  destruct (split_scheme u) as [sch rest]. cbn [fst snd] in *.
  destruct (split_netloc rest) as [nl rem]. cbn [fst snd] in *.
  destruct (xorb (Str.has_char "[" nl) (Str.has_char "]" nl)) eqn:Hx; [done|].
  destruct (_ && _ && _); [done|].
  destruct (Str.partition "#" rem) as [u1 f1].
  destruct (Str.partition "?" u1) as [u2 q1].
  unfold Py.rbind. cbn [scheme path].
  assert (Hgoal : Str.has_char "[" url = false ->
            Str.has_char "[" nl = false /\ Str.has_char "]" nl = false).
  { intros Hb. specialize (Hbr Hb). rewrite Hbr in Hx.
    by destruct (Str.has_char "]" nl). }
  destruct (mem sch uses_params && Str.has_char ";" u2).
  - destruct (splitparams u2). by intros [= <-].
  - by intros [= <-].
Qed.

(** A URL without query, fragment and brackets is accepted, and its
    query is empty. *)
Lemma urlparse_plain url :
  Str.has_char "?" url = false -> Str.has_char "#" url = false ->
  Str.has_char "[" url = false -> Str.has_char "]" url = false ->
  exists p, urlparse env url = Py.Ok p /\ query p = "".
Proof.
  intros Hq Hf Hb1 Hb2. unfold urlparse, urlsplit.
  set (u := Str.filter _ (Str.lstrip _ url)).
  assert (Hu : forall c, Str.has_char c url = false -> Str.has_char c u = false).
  { intros c Hc. subst u. by apply has_char_filter, has_char_span. }
  assert (Hnl : forall c, Str.has_char c url = false ->
            Str.has_char c (fst (split_netloc (snd (split_scheme u)))) = false).
  { intros c Hc. unfold split_netloc.
    destruct (String.prefix "//" _); [|done]. cbn [fst].
    by apply has_char_span_fst, has_char_drop, has_char_split_scheme, Hu. }
  assert (Hrem : forall c, Str.has_char c url = false ->
            Str.has_char c (snd (split_netloc (snd (split_scheme u)))) = false).
  { intros c Hc. by apply has_char_split_netloc, has_char_split_scheme, Hu. }
  destruct (split_scheme u) as [sch rest]. cbn [fst snd] in *.
  destruct (split_netloc rest) as [nl rem]. cbn [fst snd] in *.
  rewrite (Hnl _ Hb1), (Hnl _ Hb2). cbn [xorb andb].
  rewrite !partition_no_separator by auto.
  unfold Py.rbind. cbn [scheme path default].
  destruct (mem sch uses_params && Str.has_char ";" rem).
  - destruct (splitparams rem). by eexists.
  - by eexists.
Qed.

End Facts.

Lemma match_product_id_two_slashes s :
  Re.match_ PRODUCT_ID_REGEX (String "/" (String "/" s)) = None.
Proof.
  destruct (Re.match_ _ _) as [m|] eqn:Hm; [|done].
  apply match_product_id_sound in Hm as (b & d & t & Heq & _).
  rewrite !append_cons in Heq. simplify_eq.
Qed.

(** The text after the scheme in a cleaned URL: the network location
    behind two slashes, or nothing. *)
Lemma search_cleaned (slashes : bool) s n d :
  Str.has_char "/" s = false -> Str.has_char "/" n = false ->
  Str.isdigit d = true ->
  Re.search_group1 PRODUCT_ID_REGEX
    (s +:+ ":" +:+ (if slashes then "//" +:+ n else "")
       +:+ "/item/" +:+ d +:+ ".html")
  = Some d.
Proof.
  intros Hs Hn Hd. unfold Re.search_group1.
  assert (Hend : Re.search PRODUCT_ID_REGEX ("/item/" +:+ d +:+ ".html")
                 = Some ([(1%nat, d)], "")).
  { pose proof (product_id_regex_complete d "" Hd) as Hm.
    rewrite append_nil_r in Hm.
    destruct d as [|a d]; [done|].
    change ("/item/" +:+ String a d +:+ ".html")
      with (String "/" ("item/" +:+ String a d +:+ ".html")) in *.
    cbn [Re.search]. by rewrite Hm. }
  rewrite search_product_id_skip by done.
  change (":" +:+ (if slashes then "//" +:+ n else "")
          +:+ "/item/" +:+ d +:+ ".html")
    with (String ":" ((if slashes then "//" +:+ n else "")
                      +:+ "/item/" +:+ d +:+ ".html")).
  cbn [Re.search]. rewrite match_product_id_slash by done.
  destruct slashes.
  - rewrite append_assoc.
    change ("//" +:+ n +:+ "/item/" +:+ d +:+ ".html")
      with (String "/" (String "/" (n +:+ "/item/" +:+ d +:+ ".html"))).
    cbn [Re.search].
    rewrite match_product_id_two_slashes, match_product_id_host by done.
    rewrite search_product_id_skip by done. by rewrite Hend.
  - rewrite append_nil. by rewrite Hend.
Qed.


(** The conversion of [.aliexpress.us] leaves the path of a cleaned URL
    as it is. *)
Lemma replace_item_path new d :
  Str.forallb Str.is_digit d = true ->
  Str.replace_from ".aliexpress.us" new ("/item/" +:+ d +:+ ".html") 0
  = "/item/" +:+ d +:+ ".html".
Proof.
  intros Hd.
  change ("/item/" +:+ d +:+ ".html")
    with ("" +:+ String "/" ("item" +:+ String "/" (d +:+ ".html"))).
  rewrite !replace_from_separator by (done || (simpl; lia)).
  by rewrite replace_from_digits.
Qed.

Lemma us_to_com_cleaned (slashes : bool) s n d :
  Str.forallb Str.is_digit d = true ->
  exists s' n',
    us_to_com (s +:+ ":" +:+ (if slashes then "//" +:+ n else "")
                 +:+ "/item/" +:+ d +:+ ".html")
    = s' +:+ ":" +:+ (if slashes then "//" +:+ n' else "")
         +:+ "/item/" +:+ d +:+ ".html"
    /\ forall c, Str.has_char c ".aliexpress.com" = false ->
         (Str.has_char c s = false -> Str.has_char c s' = false)
         /\ (Str.has_char c n = false -> Str.has_char c n' = false).
Proof.
  intros Hd. unfold us_to_com. destruct (Py.str_contains _ _).
  - exists (Str.replace_from ".aliexpress.us" ".aliexpress.com" s 0),
           (Str.replace_from ".aliexpress.us" ".aliexpress.com" n 0).
    split.
    + unfold Str.replace.
      change (":" +:+ (if slashes then "//" +:+ n else "")
              +:+ "/item/" +:+ d +:+ ".html")
        with (String ":" ((if slashes then "//" +:+ n else "")
                          +:+ "/item/" +:+ d +:+ ".html")).
      rewrite replace_from_separator by (done || lia).
      destruct slashes.
      * rewrite append_assoc.
        change ("//" +:+ n +:+ "/item/" +:+ d +:+ ".html")
          with ("" +:+ String "/"
                  ("" +:+ String "/" (n +:+ "/item/" +:+ d +:+ ".html"))).
        rewrite !(replace_from_separator _ _ _ "/" _ "") by (done || (simpl; lia)).
        change (n +:+ "/item/" +:+ d +:+ ".html")
          with (n +:+ String "/" ("item" +:+ String "/" (d +:+ ".html"))).
        rewrite !replace_from_separator by (done || (simpl; lia)).
        rewrite replace_from_digits by done.
        by rewrite !append_assoc.
      * rewrite append_nil, replace_item_path by done. reflexivity.
    + intros c Hc. split; intros Hs; by apply replace_from_has_char.
  - exists s, n. split; [done|]. by intros c _.
Qed.


Section RoundTrip.
Context (env : Env).

(** X14. Cleaning keeps the product: for a product id made of digits and
    a URL without an opening bracket, the product id that
    [extract_product_id] reads from the base URL built by
    [clean_aliexpress_url] is the product id the base URL was built for,
    whatever the scheme, the network location, the path and the query of
    the URL that was cleaned. *)
Theorem extract_product_id_after_clean url product_id base_url :
  Str.isdigit product_id = true ->
  Str.has_char "[" url = false ->
  clean_aliexpress_url env url product_id = Py.Ok (Some base_url) ->
  extract_product_id env base_url = Py.Ok (Some product_id).
Proof.
  intros Hd Hb Hclean. pose proof (isdigit_digits _ Hd) as [_ Hds].
  destruct (urlparse env url) as [p|e] eqn:Hp.
  2:{ unfold clean_aliexpress_url in Hclean. rewrite Hp in Hclean.
      by rewrite (ProcessorFacts.urlparse_raises _ _ _ Hp) in Hclean. }
  rewrite (ProcessorFacts.clean_of_parsed _ _ _ _ Hp) in Hclean.
  injection Hclean as <-.
  destruct (urlparse_components env url p Hp) as (Hsch & Hnl & Hbr).
  destruct (Hbr Hb) as [Hb1 Hb2]. clear Hbr.
  unfold scheme_and_host.
  set (sch := if String.eqb (scheme p) "" then "https" else scheme p).
  assert (Hs : Str.forallb scheme_char sch = true).
  { subst sch. by destruct (String.eqb (scheme p) ""). }
  set (slashes := negb (String.eqb (netloc p) "") || mem sch uses_netloc).
  rewrite !append_assoc.
  destruct (us_to_com_cleaned slashes sch (netloc p) product_id Hds)
    as (s' & n' & Hus & Hchars).
  unfold extract_product_id. rewrite Hus.
  assert (Hs' : forall c, scheme_char c = false ->
            Str.has_char c ".aliexpress.com" = false ->
            Str.has_char c s' = false).
  { intros c Hc Hcom. apply (Hchars c Hcom). by apply (forallb_no_char scheme_char). }
  assert (Hn' : forall c, Str.has_char c (netloc p) = false ->
            Str.has_char c ".aliexpress.com" = false ->
            Str.has_char c n' = false).
  { intros c Hc Hcom. by apply (Hchars c Hcom). }
  assert (Hdelim : forall c, netloc_delim c = true ->
            Str.has_char c (netloc p) = false).
  { intros c Hc. apply (forallb_no_char (fun a => negb (netloc_delim a))); [|done].
    by rewrite Hc. }
  assert (Hwhole : forall c,
            scheme_char c = false -> Str.is_digit c = false ->
            Str.has_char c (netloc p) = false ->
            Str.has_char c ":///item/.html.aliexpress.com" = false ->
            Str.has_char c
              (s' +:+ ":" +:+ (if slashes then "//" +:+ n' else "")
                  +:+ "/item/" +:+ product_id +:+ ".html") = false).
  { intros c Hc1 Hc2 Hc3 Hc4.
    assert (Hcom : Str.has_char c ".aliexpress.com" = false).
    { revert Hc4. rewrite !has_char_cons.
      repeat (destruct (Ascii.eqb _ c); [by rewrite ?orb_true_r|]). done. }
    rewrite !has_char_append, Hs', (digits_no_char c product_id) by done.
    destruct slashes; rewrite ?has_char_append, ?Hn' by done;
      revert Hc4; rewrite !has_char_cons;
      repeat (destruct (Ascii.eqb _ c); [by rewrite ?orb_true_r|]); done. }
  destruct (urlparse_plain env
              (s' +:+ ":" +:+ (if slashes then "//" +:+ n' else "")
                  +:+ "/item/" +:+ product_id +:+ ".html"))
    as (p' & Hp' & Hq'); try (apply Hwhole; by auto).
  rewrite Hp'. unfold Py.rbind. rewrite Hq'.
  assert (Hnone : product_id_from_param "" = None).
  { unfold product_id_from_param. by rewrite parse_qs_lookup. }
  rewrite Hnone, search_cleaned; try done.
  - by apply Hs'.
  - apply Hn'; [by apply Hdelim|done].
Qed.

End RoundTrip.

End RoundTripFacts.

(** ** The tasks of a message *)

Module BotFacts.
Import CacheManager World AliExpressClient URLProcessor.
Import TaskFacts TelegramBot.

(** A loop keeps an invariant that each of its turns keeps, and raises
    only what a turn raises. *)
Lemma for_each_invariant {A B} (body : B -> A -> task B)
    (I : nat -> B -> Prop) (E : Py.exn -> Prop) :
  (forall n acc x w, I n acc ->
     match fst (body acc x w) with
     | Py.Ok acc' => I (S n) acc'
     | Py.Raise e => E e
     end) ->
  forall l n acc w, I n acc ->
    match fst (for_each body l acc w) with
    | Py.Ok acc' => I (n + length l)%nat acc'
    | Py.Raise e => E e
    end.
Proof.
  intros Hbody. induction l as [|x l IH]; intros n acc w Hacc.
  - simpl. by rewrite Nat.add_0_r.
  - simpl. unfold bind. specialize (Hbody n acc x w Hacc).
    destruct (body acc x w) as [[acc'|e] w']; simpl in *; [|done].
    specialize (IH (S n) acc' w' Hbody).
    by rewrite Nat.add_succ_r.
Qed.

Section Facts.
Context (env : Env) (query_country : string).

Lemma resolve_short_link_returns short_url w :
  exists r w', resolve_short_link env query_country short_url w = (Py.Ok r, w').
Proof.
  destruct (ProcessorFacts.resolved_url_cache_get_run env short_url w)
    as (now & w1 & Hrun & _).
  unfold resolve_short_link. rewrite (bind_Ok _ _ _ _ _ Hrun).
  pose proof (ProcessorFacts.fetch_and_validate_run env query_country short_url w1)
    as Hfetch. cbv zeta in Hfetch.
  destruct (fst (get now short_url (resolved_url_cache w))) as [[|a u]|].
  - destruct (try_except _ _ w1) as [r w']. simpl in Hfetch.
    destruct Hfetch as [[-> _]|(f & t & -> & _)]; eauto.
  - unfold ret. eauto.
  - destruct (try_except _ _ w1) as [r w']. simpl in Hfetch.
    destruct Hfetch as [[-> _]|(f & t & -> & _)]; eauto.
Qed.

Lemma extract_product_id_raises url e :
  extract_product_id env url = Py.Raise e -> e = Py.ValueError.
Proof.
  unfold extract_product_id.
  destruct (UrlLib.urlparse env (us_to_com url)) as [p|e'] eqn:Hp.
  - simpl. by repeat case_match.
  - simpl. intros [= <-]. by apply (ProcessorFacts.urlparse_raises env _ _ Hp).
Qed.

(** A base URL that [clean_aliexpress_url] returns ends with the path of
    the product. *)
Lemma clean_aliexpress_url_path url product_id base_url :
  clean_aliexpress_url env url product_id = Py.Ok (Some base_url) ->
  exists start, base_url = start +:+ "/item/" +:+ product_id +:+ ".html".
Proof.
  destruct (UrlLib.urlparse env url) as [p|e] eqn:Hp.
  - rewrite (ProcessorFacts.clean_of_parsed _ _ _ _ Hp). intros [= <-]. eauto.
  - unfold clean_aliexpress_url.
    by rewrite Hp, (ProcessorFacts.urlparse_raises _ _ _ Hp).
Qed.

Lemma clean_aliexpress_url_returns url product_id :
  exists r, clean_aliexpress_url env url product_id = Py.Ok r.
Proof.
  destruct (UrlLib.urlparse env url) as [p|e] eqn:Hp.
  - rewrite (ProcessorFacts.clean_of_parsed _ _ _ _ Hp). eauto.
  - unfold clean_aliexpress_url.
    rewrite Hp, (ProcessorFacts.urlparse_raises _ _ _ Hp). eauto.
Qed.

(** The two branches find a product or raise the [ValueError] of
    [extract_product_id]; a base URL found ends with the path of the
    product. *)
Lemma product_of_url_run url w :
  match fst (product_of_url env query_country url w) with
  | Py.Ok (product_id, base_url) =>
      nonempty base_url = true ->
      exists start,
        default "" base_url
        = start +:+ "/item/" +:+ default "" product_id +:+ ".html"
  | Py.Raise e => e = Py.ValueError
  end.
Proof.
  assert (Hfound : forall u,
    match fst ((product_id <- lift (extract_product_id env u) ;;
                if nonempty product_id then
                  base_url <-
                    lift (clean_aliexpress_url env u (default "" product_id)) ;;
                  ret (product_id, base_url)
                else ret (product_id, None))%task w) with
    | Py.Ok (product_id, base_url) =>
        nonempty base_url = true ->
        exists start,
          default "" base_url
          = start +:+ "/item/" +:+ default "" product_id +:+ ".html"
    | Py.Raise e => e = Py.ValueError
    end).
  { intros u. unfold bind, lift, ret.
    destruct (extract_product_id env u) as [pid|e] eqn:He; simpl.
    2:{ by apply extract_product_id_raises in He. }
    destruct (nonempty pid) eqn:Hpid; [|done].
    destruct pid as [pid|]; [|done]. simpl.
    destruct (clean_aliexpress_url_returns u pid) as [r Hr]. rewrite Hr.
    simpl. destruct r as [base|]; [|done]. intros _.
    by apply clean_aliexpress_url_path in Hr. }
  unfold product_of_url.
  destruct (bool_decide (is_Some (Re.match_ STANDARD_ALIEXPRESS_DOMAIN_REGEX url))).
  - apply Hfound.
  - destruct (bool_decide (is_Some (Re.match_ SHORT_LINK_DOMAIN_REGEX url)));
      [|done].
    unfold bind at 1.
    destruct (resolve_short_link_returns url w) as (r & w' & ->).
    destruct (nonempty r); [|done].
    specialize (Hfound (default "" r)). revert Hfound.
    unfold bind, lift, ret.
    destruct (extract_product_id env (default "" r)) as [pid|e]; [|done].
    simpl. destruct (nonempty pid); [|done].
    by destruct (clean_aliexpress_url env (default "" r) (default "" pid)).
Qed.

Lemma nonempty_default s : nonempty s = true -> default "" s <> "".
Proof. by destruct s as [[|a s]|]. Qed.

(** X16. The tasks prepared for a message: whatever the URLs and the
    state, [_resolve_and_prepare_product_tasks] returns tasks or raises the
    [ValueError] of [extract_product_id]; the tasks it returns have pairwise
    distinct product ids, each product id is a non-empty text and each
    base URL ends with [/item/<product id>.html], and there are at most as
    many tasks as URLs. *)
Theorem prepared_tasks_are_distinct potential_urls w :
  match fst (_resolve_and_prepare_product_tasks env query_country
               potential_urls w) with
  | Py.Ok tasks =>
      NoDup (List.map task_product_id tasks)
      /\ Forall (fun t =>
                   task_product_id t <> EmptyString
                   /\ exists start,
                        task_base_url t
                        = start +:+ "/item/" +:+ task_product_id t +:+ ".html")
                tasks
      /\ (length tasks <= length potential_urls)%nat
  | Py.Raise e => e = Py.ValueError
  end.
Proof.
  set (I := fun (n : nat) (acc : gset string * list ProductTask) =>
         (forall product_id,
            product_id ∈ fst acc <-> product_id ∈ List.map task_product_id (snd acc))
         /\ NoDup (List.map task_product_id (snd acc))
         /\ Forall (fun t =>
                      task_product_id t <> EmptyString
                      /\ exists start,
                           task_base_url t
                           = start +:+ "/item/" +:+ task_product_id t +:+ ".html")
                   (snd acc)
         /\ (length (snd acc) <= n)%nat).
  assert (Hstep : forall n acc x w, I n acc ->
            match fst (prepare_step env query_country acc x w) with
            | Py.Ok acc' => I (S n) acc'
            | Py.Raise e => e = Py.ValueError
            end).
  { clear. intros n acc x w (Hset & Hnd & Hne & Hlen). unfold prepare_step.
    destruct (with_scheme x) as [url|].
    2:{ simpl. repeat split; try done; try apply Hset. lia. }
    unfold bind. pose proof (product_of_url_run url w) as Hrun.
    destruct (product_of_url env query_country url w) as [[[pid base]|e] w'];
      simpl in *; [|done]. rename Hrun into Hpath.
    destruct (nonempty pid) eqn:Hpid; simpl.
    2:{ repeat split; try done; try apply Hset. lia. }
    destruct (nonempty base) eqn:Hbase; simpl.
    2:{ repeat split; try done; try apply Hset. lia. }
    case_bool_decide as Hin; simpl.
    { repeat split; try done; try apply Hset. lia. }
    unfold I. cbn [fst snd]. split; [|split; [|split]].
    + intros p. rewrite map_app, elem_of_app, elem_of_union, elem_of_singleton.
      simpl. rewrite list_elem_of_singleton, Hset. tauto.
    + rewrite map_app. apply NoDup_app. split; [done|]. split.
      * intros p Hp. simpl. rewrite list_elem_of_singleton. intros ->.
        apply Hin. by apply Hset.
      * simpl. apply NoDup_singleton.
    + apply Forall_app. split; [done|]. apply Forall_singleton. simpl.
      split; [by apply nonempty_default|by apply Hpath].
    + rewrite length_app. simpl. lia. }
  assert (H0 : I 0%nat (∅, [])).
  { repeat split; try done; try apply NoDup_nil_2.
    - simpl. intros Hp. by apply elem_of_nil in Hp. }
  pose proof (for_each_invariant _ I (fun e => e = Py.ValueError) Hstep
                potential_urls 0%nat (∅, []) w H0) as Hloop.
  unfold _resolve_and_prepare_product_tasks, bind.
  destruct (for_each _ _ _ w) as [[acc|e] w']; simpl in *; [|done].
  by destruct Hloop as (_ & ? & ? & ?).
Qed.

Lemma resolve_short_link_frame short_url w :
  let w' := snd (resolve_short_link env query_country short_url w) in
  api_calls w' = api_calls w
  /\ product_cache w' = product_cache w
  /\ link_cache w' = link_cache w.
Proof.
  unfold resolve_short_link, bind, resolved_url_cache_get, cache_get, bind,
    time_now, ret, try_except, fetch_and_validate, bind, http_get, lift, ret,
    refetch_with_country, try_except, bind, http_get, ret,
    resolved_url_cache_set, cache_set, bind, time_now, ret.
  repeat (case_match; simplify_eq/=); eauto.
Qed.

Lemma product_of_url_frame url w :
  let w' := snd (product_of_url env query_country url w) in
  api_calls w' = api_calls w
  /\ product_cache w' = product_cache w
  /\ link_cache w' = link_cache w
  /\ (is_Some (Re.match_ STANDARD_ALIEXPRESS_DOMAIN_REGEX url)
      \/ Re.match_ SHORT_LINK_DOMAIN_REGEX url = None -> w' = w).
Proof.
  unfold product_of_url.
  case_bool_decide as Hstd.
  - unfold bind, lift, ret. repeat (case_match; simplify_eq/=); eauto.
  - case_bool_decide as Hshort.
    + pose proof (resolve_short_link_frame url w) as Hres. cbv zeta in Hres.
      unfold bind, lift, ret.
      destruct (resolve_short_link env query_country url w) as [[r|e] w1];
        simpl in *.
      * split_and!; try tauto;
          try (repeat (case_match; simplify_eq/=); tauto).
        intros [?|Hnone]; [done|]. rewrite Hnone in Hshort.
        destruct Hshort as [? [=]].
      * split_and!; try tauto.
        intros [?|Hnone]; [done|]. rewrite Hnone in Hshort.
        destruct Hshort as [? [=]].
    + by unfold ret.
Qed.

Lemma prepare_step_frame acc url w :
  let w' := snd (prepare_step env query_country acc url w) in
  api_calls w' = api_calls w
  /\ product_cache w' = product_cache w
  /\ link_cache w' = link_cache w
  /\ ((forall u, with_scheme url = Some u ->
         is_Some (Re.match_ STANDARD_ALIEXPRESS_DOMAIN_REGEX u)
         \/ Re.match_ SHORT_LINK_DOMAIN_REGEX u = None) -> w' = w).
Proof.
  unfold prepare_step. destruct (with_scheme url) as [u|]; [|done].
  pose proof (product_of_url_frame u w) as Hframe. cbv zeta in Hframe.
  unfold bind, ret.
  destruct (product_of_url env query_country u w) as [[found|e] w1];
    simpl in *.
  - destruct (_ && _ && _); simpl; split_and!; try tauto;
      intros Hu; apply Hframe; by apply Hu.
  - split_and!; try tauto. intros Hu; apply Hframe; by apply Hu.
Qed.

(** X17. Preparing the tasks of a message never calls the vendor and
    never touches the product cache and the link cache; and when no URL of
    the message is a short link (each URL kept by the loop matches the
    standard pattern or does not match the short-link pattern), it fetches
    nothing, reads no clock and leaves the whole state as it was. *)
Theorem preparing_tasks_frame potential_urls w :
  let w' := snd (_resolve_and_prepare_product_tasks env query_country
                   potential_urls w) in
  api_calls w' = api_calls w
  /\ product_cache w' = product_cache w
  /\ link_cache w' = link_cache w
  /\ (Forall (fun url =>
                forall u, with_scheme url = Some u ->
                  is_Some (Re.match_ STANDARD_ALIEXPRESS_DOMAIN_REGEX u)
                  \/ Re.match_ SHORT_LINK_DOMAIN_REGEX u = None)
             potential_urls ->
      w' = w).
Proof.
  unfold _resolve_and_prepare_product_tasks.
  assert (Hloop : forall l acc w0,
            let w' := snd (for_each (prepare_step env query_country) l acc w0) in
            api_calls w' = api_calls w0
            /\ product_cache w' = product_cache w0
            /\ link_cache w' = link_cache w0
            /\ (Forall (fun url =>
                  forall u, with_scheme url = Some u ->
                    is_Some (Re.match_ STANDARD_ALIEXPRESS_DOMAIN_REGEX u)
                    \/ Re.match_ SHORT_LINK_DOMAIN_REGEX u = None) l ->
                w' = w0)).
  { induction l as [|url l IH]; intros acc w0; [done|].
    cbn [for_each]. unfold bind.
    pose proof (prepare_step_frame acc url w0) as Hstep. cbv zeta in Hstep.
    destruct (prepare_step env query_country acc url w0) as [[acc'|e] w1];
      simpl in *.
    - specialize (IH acc' w1). cbv zeta in IH.
      destruct IH as (Ha & Hp & Hl & Hw), Hstep as (Ha' & Hp' & Hl' & Hw').
      split_and!; try congruence.
      intros [Hu Hrest]%Forall_cons. rewrite Hw by done. by apply Hw'.
    - destruct Hstep as (Ha' & Hp' & Hl' & Hw').
      split_and!; try done. intros [Hu _]%Forall_cons. by apply Hw'. }
  specialize (Hloop potential_urls (∅, []) w). cbv zeta in Hloop.
  unfold bind, ret.
  by destruct (for_each _ _ _ w) as [[acc|e] w1].
Qed.

End Facts.
End BotFacts.

(** ** The standard pattern and the short-link pattern *)

Module PatternFacts.
Import URLProcessor UrlFacts EncodeFacts QueryFacts RoundTripFacts.
Import Re.

Section Matcher.
Context {R : Type}.
Implicit Types (k : string -> caps -> option R) (c : caps).

(** A literal under [re.IGNORECASE] matches the texts that differ from
    it in case only. *)
Lemma lit_i_sound t : forall s c k x,
  rmatch R (lit_i t) s c k = Some x ->
  exists t' s', s = t' +:+ s' /\ Str.lower t' = Str.lower t /\ k s' c = Some x.
Proof.
  induction t as [|a t IH]; intros s c k x; cbn [lit_i rmatch].
  - intros Hk. by exists "", s.
  - unfold chr_i. cbn [rmatch]. destruct s as [|b s]; [done|].
    destruct (Ascii.eqb_spec (Str.lower_char b) (Str.lower_char a)) as [Hb|];
      [|done].
    intros Hm. apply IH in Hm as (t' & s' & -> & Hl & Hk).
    exists (String b t'), s'. split; [done|]. split; [|done].
    unfold Str.lower in *. cbn [Str.map]. by rewrite Hb, Hl.
Qed.

Lemma lit_i_complete t : forall t' s c k,
  Str.lower t' = Str.lower t ->
  rmatch R (lit_i t) (t' +:+ s) c k = k s c.
Proof.
  unfold Str.lower.
  induction t as [|a t IH]; intros [|b t'] s c k; cbn [Str.map]; try done.
  intros [= Hb Hl]. cbn [lit_i]. rewrite rmatch_Cat. unfold chr_i.
  rewrite append_cons, ReFacts.rmatch_Chr, Hb, Ascii.eqb_refl. by apply IH.
Qed.

End Matcher.

(** The texts that read [http] or [https] when case is ignored. *)
Lemma scheme_prefix_unique h1 h2 r1 r2 :
  Str.lower h1 = "http" \/ Str.lower h1 = "https" ->
  Str.lower h2 = "http" \/ Str.lower h2 = "https" ->
  h1 +:+ "://" +:+ r1 = h2 +:+ "://" +:+ r2 -> r1 = r2.
Proof.
  unfold Str.lower.
  intros [H1|H1] [H2|H2] Heq;
    destruct h1 as [|a1 [|a2 [|a3 [|a4 [|a5 [|a6 h1]]]]]]; try done;
    destruct h2 as [|b1 [|b2 [|b3 [|b4 [|b5 [|b6 h2]]]]]]; try done;
    cbn [Str.map] in H1, H2; rewrite ?append_cons, ?append_nil in Heq;
    simplify_eq; done.
Qed.


(** What both patterns start with: [http] or [https] in any case, the
    text [://], and the rest of the URL, on which they differ. *)
Lemma scheme_sound {R} s c (k : string -> caps -> option R) x :
  rmatch R (Cat (lit_i "http") (Cat (Opt (chr_i "s")) (lit "://"))) s c k
  = Some x ->
  exists h r,
    s = h +:+ "://" +:+ r
    /\ (Str.lower h = "http" \/ Str.lower h = "https")
    /\ k r c = Some x.
Proof.
  rewrite rmatch_Cat. intros Hm.
  apply lit_i_sound in Hm as (h & s1 & -> & Hh & Hm).
  rewrite rmatch_Cat in Hm. unfold Opt in Hm. cbn [rmatch] in Hm.
  destruct (rmatch R (chr_i "s") s1 c _) as [y|] eqn:Hs.
  - injection Hm as ->. unfold chr_i in Hs. rewrite ReFacts.rmatch_Chr in Hs.
    destruct s1 as [|a s1]; [done|].
    destruct (Ascii.eqb_spec (Str.lower_char a) (Str.lower_char "s")) as [Ha|];
      [|done].
    apply ReFacts.lit_sound in Hs as (r & -> & Hk).
    exists (h +:+ String a ""), r. split; [|split; [|done]].
    + by rewrite append_assoc.
    + right. unfold Str.lower in *.
      clear -Hh Ha. revert Hh.
      destruct h as [|a1 [|a2 [|a3 [|a4 [|a5 h]]]]]; try done.
      cbn [Str.map]. intros [= H1 H2 H3 H4].
      rewrite !append_cons, append_nil. cbn [Str.map].
      by rewrite H1, H2, H3, H4, Ha.
  - apply ReFacts.lit_sound in Hm as (r & -> & Hk).
    exists h, r. split; [done|]. split; [by left|done].
Qed.

Lemma short_link_sound url m :
  match_ SHORT_LINK_DOMAIN_REGEX url = Some m ->
  exists h t r,
    url = h +:+ "://" +:+ t +:+ r
    /\ (Str.lower h = "http" \/ Str.lower h = "https")
    /\ (Str.lower t = "s.click.aliexpress.com/e/"
        \/ Str.lower t = "a.aliexpress.com/_").
Proof.
  unfold match_, SHORT_LINK_DOMAIN_REGEX. intros Hm.
  change (Cat (lit_i "http") (Cat (Opt (chr_i "s")) (Cat (lit "://") ?r)))
    with (Cat (lit_i "http") (Cat (Opt (chr_i "s")) (Cat (lit "://") r))) in Hm.
  assert (Hm' :
    rmatch _ (Cat (lit_i "http") (Cat (Opt (chr_i "s")) (lit "://"))) url []
      (fun s c =>
         rmatch _ (Cat (Alt (lit_i "s.click.aliexpress.com/e/")
                            (lit_i "a.aliexpress.com/_"))
                       (Cat (Plus word_or_dash) (Opt (chr "/")))) s c
           (fun s' c' => Some (c', s')))
    = Some m) by exact Hm.
  clear Hm. apply scheme_sound in Hm' as (h & r & -> & Hh & Hm).
  rewrite rmatch_Cat in Hm. cbn [rmatch] in Hm.
  destruct (rmatch _ (lit_i "s.click.aliexpress.com/e/") r [] _) as [y|] eqn:H1.
  - apply lit_i_sound in H1 as (t & r' & -> & Ht & _).
    exists h, t, r'. split; [done|]. split; [done|]. by left.
  - apply lit_i_sound in Hm as (t & r' & -> & Ht & _).
    exists h, t, r'. split; [done|]. split; [done|]. by right.
Qed.

Lemma standard_sound url m :
  match_ STANDARD_ALIEXPRESS_DOMAIN_REGEX url = Some m ->
  exists h r,
    url = h +:+ "://" +:+ r
    /\ (Str.lower h = "http" \/ Str.lower h = "https")
    /\ rmatch unit (Alt (lit_i "a.") (lit_i "s.click.")) r []
         (fun _ _ => Some tt) = None.
Proof.
  unfold match_, STANDARD_ALIEXPRESS_DOMAIN_REGEX. intros Hm.
  match type of Hm with
  | rmatch _ (Cat _ (Cat _ (Cat _ ?rest))) _ _ ?k = _ =>
      assert (Hm' :
        rmatch _ (Cat (lit_i "http") (Cat (Opt (chr_i "s")) (lit "://"))) url []
          (fun s c => rmatch _ rest s c k) = Some m) by exact Hm
  end.
  clear Hm. apply scheme_sound in Hm' as (h & r & -> & Hh & Hm).
  rewrite rmatch_Cat in Hm. cbn [rmatch] in Hm.
  exists h, r. split; [done|]. split; [done|].
  match type of Hm with
  | match ?look with _ => _ end = _ => destruct look as [[]|] eqn:Hl; [done|]
  end.
  exact Hl.
Qed.

Lemma lower_append s t : Str.lower (s +:+ t) = Str.lower s +:+ Str.lower t.
Proof.
  unfold Str.lower. induction s as [|a s IH]; [done|].
  rewrite append_cons. cbn [Str.map]. by rewrite IH.
Qed.

Lemma lower_split s t1 t2 :
  Str.lower s = t1 +:+ t2 ->
  exists s1 s2, s = s1 +:+ s2 /\ Str.lower s1 = t1 /\ Str.lower s2 = t2.
Proof.
  unfold Str.lower. revert s. induction t1 as [|a t1 IH]; intros s.
  - rewrite append_nil. intros Hs. by exists "", s.
  - rewrite append_cons. destruct s as [|b s]; [done|]. cbn [Str.map].
    intros [= Hb Hs]. apply IH in Hs as (s1 & s2 & -> & H1 & H2).
    exists (String b s1), s2. cbn [Str.map]. by rewrite Hb, H1.
Qed.

(** X18. The two kinds of URL exclude each other: a URL that matches
    [SHORT_LINK_DOMAIN_REGEX] does not match
    [STANDARD_ALIEXPRESS_DOMAIN_REGEX], so that the branch that resolves
    short links is taken for every short link. *)
Theorem short_link_is_not_standard url :
  is_Some (match_ SHORT_LINK_DOMAIN_REGEX url) ->
  match_ STANDARD_ALIEXPRESS_DOMAIN_REGEX url = None.
Proof.
  intros [m Hshort].
  destruct (match_ STANDARD_ALIEXPRESS_DOMAIN_REGEX url) as [m'|] eqn:Hstd;
    [|done].
  exfalso.
  apply short_link_sound in Hshort as (h & t & r & -> & Hh & Ht).
  apply standard_sound in Hstd as (h' & r' & Heq & Hh' & Hlook).
  apply scheme_prefix_unique in Heq; [|done|done]. subst r'.
  cbn [rmatch] in Hlook.
  destruct Ht as [Ht|Ht].
  - change "s.click.aliexpress.com/e/"
      with ("s.click." +:+ "aliexpress.com/e/") in Ht.
    apply lower_split in Ht as (t1 & t2 & -> & H1 & _).
    rewrite append_assoc in Hlook.
    rewrite (lit_i_complete "s.click." t1) in Hlook by done.
    by destruct (rmatch unit (lit_i "a.") _ _ _).
  - change "a.aliexpress.com/_" with ("a." +:+ "aliexpress.com/_") in Ht.
    apply lower_split in Ht as (t1 & t2 & -> & H1 & _).
    rewrite append_assoc in Hlook.
    by rewrite (lit_i_complete "a." t1) in Hlook by done.
Qed.

End PatternFacts.

(** ** Short links and the resolved-URL cache *)

Module ResolveFacts.
Import CacheManager World URLProcessor TaskFacts.

Section Facts.
Context (env : Env) (query_country : string).

(** A fresh entry of the resolved-URL cache is served without a fetch. *)
Lemma resolve_short_link_hit short_url w c u t :
  cache (resolved_url_cache w) !! short_url = Some (String c u, t) ->
  time_time env (clock_reads w) - t < expiry_seconds (resolved_url_cache w) ->
  exists w',
    resolve_short_link env query_country short_url w
    = (Py.Ok (Some (String c u)), w')
    /\ http_calls w' = http_calls w
    /\ resolved_url_cache w' = resolved_url_cache w.
Proof.
  intros Hk Hfresh.
  unfold resolve_short_link, bind, resolved_url_cache_get, cache_get.
  rewrite Hk. unfold bind, time_now, ret.
  rewrite (CacheFacts.get_fresh _ _ _ _ _ Hk Hfresh).
  eexists. split; [reflexivity|]. done.
Qed.

(** X6. A resolved link is served from the cache: when
    [resolve_short_link] returns a URL, the resolved-URL cache holds that
    URL under the short URL, and as long as this entry is fresh at the next
    clock reading a second call returns the same URL, fetches nothing and
    leaves the cache as it is. *)
Theorem resolve_short_link_serves_from_cache short_url w final_url :
  let first := resolve_short_link env query_country short_url w in
  fst first = Py.Ok (Some final_url) ->
  exists t,
    cache (resolved_url_cache (snd first)) !! short_url = Some (final_url, t)
    /\ (time_time env (clock_reads (snd first)) - t
        < expiry_seconds (resolved_url_cache (snd first)) ->
        let second :=
          resolve_short_link env query_country short_url (snd first) in
        fst second = Py.Ok (Some final_url)
        /\ http_calls (snd second) = http_calls (snd first)
        /\ resolved_url_cache (snd second) = resolved_url_cache (snd first)).
Proof.
  intros first Hfirst.
  assert (Hentry : exists c u t,
            final_url = String c u
            /\ cache (resolved_url_cache (snd first)) !! short_url
               = Some (final_url, t)).
  { subst first. revert Hfirst.
    destruct (ProcessorFacts.resolved_url_cache_get_run env short_url w)
      as (now & w1 & Hrun & Hc1 & _).
    unfold resolve_short_link. rewrite (bind_Ok _ _ _ _ _ Hrun).
    pose proof (ProcessorFacts.fetch_and_validate_run env query_country
                  short_url w1) as Hfetch. cbv zeta in Hfetch.
    assert (Hfetched :
      fst (try_except (fetch_and_validate env query_country short_url)
                      (fun _ => ret None) w1) = Py.Ok (Some final_url) ->
      exists c u t,
        final_url = String c u
        /\ cache (resolved_url_cache
                    (snd (try_except
                            (fetch_and_validate env query_country short_url)
                            (fun _ => ret None) w1))) !! short_url
           = Some (final_url, t)).
    { intros Hr. destruct Hfetch as [[Hnone _]|(f & t & Hf & Hc & Hvalid)];
        [congruence|].
      rewrite Hr in Hf. injection Hf as <-.
      destruct Hvalid as [[m Hm] _].
      destruct final_url as [|c u]; [by vm_compute in Hm|].
      exists c, u, t. split; [done|]. rewrite Hc. simpl.
      apply lookup_insert_eq. }
    destruct (fst (get now short_url (resolved_url_cache w)))
      as [[|c u]|] eqn:Hget; try done.
    unfold ret. simpl. intros [= <-].
    apply CacheFacts.get_Some in Hget as (t & Hk & _ & Hsame).
    exists c, u, t. split; [done|]. rewrite Hc1, Hsame. done. }
  destruct Hentry as (c & u & t & -> & Hk).
  exists t. split; [done|]. intros Hfresh second.
  destruct (resolve_short_link_hit short_url (snd first) c u t Hk Hfresh)
    as (w' & Hrun & Hhttp & Hcache).
  subst second. by rewrite Hrun.
Qed.

End Facts.

Lemma resolve_short_link_serves_from_cache_witness :
  fst (resolve_short_link Samples.env_redirect "IL" Samples.short_url
         (snd (resolve_short_link Samples.env_redirect "IL" Samples.short_url
                 Samples.w_empty)))
  = Py.Ok (Some Samples.url_a).
Proof.
  destruct (resolve_short_link_serves_from_cache Samples.env_redirect "IL"
              Samples.short_url Samples.w_empty Samples.url_a)
    as (t & Hk & Hsecond).
  - by vm_compute.
  - apply Hsecond. vm_compute in Hk. injection Hk as <-. by vm_compute.
Defined.

End ResolveFacts.

(** ** The product path and the product cache *)

Module ProductFacts.
Import CacheManager World AliExpressClient TaskFacts.

Section Facts.
Context (env : Env) (self : Config).

Lemma product_cache_get_run key w :
  exists now w',
    product_cache_get env key w
      = (Py.Ok (fst (get now key (product_cache w))), w')
    /\ product_cache w' = snd (get now key (product_cache w)).
Proof.
  unfold product_cache_get, cache_get.
  destruct (cache (product_cache w) !! key) as [e|] eqn:Hk.
  - exists (time_time env (clock_reads w)).
    unfold bind, time_now, ret. simpl.
    destruct (get _ key (product_cache w)) as [r c] eqn:Hg. simpl.
    eexists. split; [reflexivity|]. done.
  - exists 0, w. rewrite (CacheFacts.get_missing _ _ _ Hk).
    unfold ret. simpl. by destruct w.
Qed.

(** X19. The product path and its cache: [fetch_product_details] issues
    at most one call to the vendor, for the product asked; none when the
    product cache holds a record with a true truth value that is fresh at
    the clock reading, in which case this record is returned and the cache
    is left as it is; exactly one when the cache has no entry for the
    product.  A record that is returned is in the product cache afterwards,
    under the product id.  The other caches and the HTTP session are not
    touched. *)
Theorem fetch_product_details_caching product_id w :
  let r := fetch_product_details env self product_id w in
  let request :=
    mkRequest "aliexpress.affiliate.productdetail.get"
      [("fields", QUERY_FIELDS); ("product_ids", product_id);
       ("target_currency", target_currency self);
       ("target_language", target_language self);
       ("tracking_id", tracking_id self);
       ("country", query_country self)] in
  (api_calls (snd r) = api_calls w
   \/ api_calls (snd r) = api_calls w ++ [request])
  /\ link_cache (snd r) = link_cache w
  /\ resolved_url_cache (snd r) = resolved_url_cache w
  /\ http_calls (snd r) = http_calls w
  /\ (forall v t,
        cache (product_cache w) !! product_id = Some (v, t) ->
        Py.truthy v = true ->
        time_time env (clock_reads w) - t < expiry_seconds (product_cache w) ->
        fst r = Py.Ok v
        /\ api_calls (snd r) = api_calls w
        /\ product_cache (snd r) = product_cache w)
  /\ (cache (product_cache w) !! product_id = None ->
      api_calls (snd r) = api_calls w ++ [request])
  /\ (forall v, fst r = Py.Ok v -> Py.truthy v = true ->
        exists t, cache (product_cache (snd r)) !! product_id = Some (v, t)).
Proof.
  intros r request. subst r request.
  split_and!.
  - unfold fetch_product_details, bind, product_cache_get, cache_get,
      _execute_api_call, try_except, execute, ret, lift, product_cache_set,
      cache_set, bind, time_now, ret.
    repeat (case_match; simplify_eq/=); eauto.
  - unfold fetch_product_details, bind, product_cache_get, cache_get,
      _execute_api_call, try_except, execute, ret, lift, product_cache_set,
      cache_set, bind, time_now, ret.
    repeat (case_match; simplify_eq/=); eauto.
  - unfold fetch_product_details, bind, product_cache_get, cache_get,
      _execute_api_call, try_except, execute, ret, lift, product_cache_set,
      cache_set, bind, time_now, ret.
    repeat (case_match; simplify_eq/=); eauto.
  - unfold fetch_product_details, bind, product_cache_get, cache_get,
      _execute_api_call, try_except, execute, ret, lift, product_cache_set,
      cache_set, bind, time_now, ret.
    repeat (case_match; simplify_eq/=); eauto.
  - intros v t Hk Hv Hfresh.
    unfold fetch_product_details, bind, product_cache_get, cache_get.
    rewrite Hk. unfold bind, time_now, ret.
    rewrite (CacheFacts.get_fresh _ _ _ _ _ Hk Hfresh). simpl.
    rewrite Hv. simpl. split; [done|]. split; [done|]. by destruct w.
  - intros Hk.
    unfold fetch_product_details, bind, product_cache_get, cache_get.
    rewrite Hk.
    unfold _execute_api_call, try_except, execute, ret, lift, product_cache_set,
      cache_set, bind, time_now, ret.
    repeat (case_match; simplify_eq/=); eauto.
  - intros v Hr Hv. revert Hr.
    destruct (product_cache_get_run product_id w) as (now & w1 & Hrun & Hc1).
    unfold fetch_product_details. rewrite (bind_Ok _ _ _ _ _ Hrun).
    destruct (fst (get now product_id (product_cache w))) as [v1|] eqn:Hget;
      cbn [Py.truthy_opt].
    + destruct (Py.truthy v1) eqn:Hv1.
      * unfold ret. simpl. intros [= <-].
        apply CacheFacts.get_Some in Hget as (ts & Hl & _ & Hsame).
        exists ts. by rewrite Hc1, Hsame.
      * unfold bind, _execute_api_call, try_except, execute, ret, lift,
          product_cache_set, cache_set, bind, time_now, ret.
        repeat (case_match; simplify_eq/=); intros; simplify_eq/=;
          try (rewrite lookup_insert_eq; eauto).
    + unfold bind, _execute_api_call, try_except, execute, ret, lift,
        product_cache_set, cache_set, bind, time_now, ret.
      repeat (case_match; simplify_eq/=); intros; simplify_eq/=;
        try (rewrite lookup_insert_eq; eauto).
Qed.

End Facts.
End ProductFacts.

(** ** The expiry date of the log lines *)

Module OverflowFacts.
Import CacheManager World AliExpressClient TaskFacts ClientFacts.

Section Facts.
Context (env : Env) (self : Config).

(** When the expiry date fits: the days of the expiry are within the
    range of a [timedelta], and the date they lead to is a date of the
    years 1 to 9999. *)
Lemma expiry_date_fits_iff w :
  let now := datetime_now env (datetime_reads w) in
  let days := cache_expiry_seconds w / 86400 in
  let carry := (DateTime.second_of_day now + cache_expiry_seconds w mod 86400)
               / 86400 in
  expiry_date_fits env w = true
  <-> -999999999 <= days <= 999999999
      /\ 1 <= DateTime.toordinal now + days + carry <= DateTime.MAXORDINAL.
Proof.
  unfold expiry_date_fits, expiry_date, bind, date_now, lift,
    DateTime.timedelta_of_seconds, DateTime.add, Py.rbind.
  cbn [fst snd cache_expiry_seconds DateTime.days DateTime.seconds].
  repeat case_match; simplify_eq/=; split; try done; try lia.
Qed.

(** X25. An expiry date beyond the calendar breaks the batch generation:
    when the expiry date does not fit, some URL is uncached and the reply
    is one that the parser accepts, the call to the vendor is issued and
    the batch generation then raises [OverflowError], before any link of
    the reply is recorded or cached. *)
Theorem batch_raises_when_expiry_overflows target_urls w api_links_data :
  let r := generate_affiliate_links_batch env self target_urls w in
  let uncached_urls := uncached_urls_of env target_urls w in
  expiry_date_fits env w = false ->
  uncached_urls <> [] ->
  _parse_api_promotion_response env (batch_reply env self uncached_urls w)
  = Py.Ok api_links_data ->
  fst r = Py.Raise Py.OverflowError
  /\ api_calls (snd r)
     = api_calls w
       ++ [batch_request self (_prepare_api_source_values uncached_urls)]
  /\ (forall url entry,
        cache (link_cache (snd r)) !! url = Some entry ->
        cache (link_cache w) !! url = Some entry).
Proof.
  intros r uncached_urls Hfits Hunc Hparse. subst r uncached_urls.
  destruct (check_cache_run env target_urls w)
    as (res & w1 & Hrun & Hfr & _ & Hsub & _ & _ & _).
  rewrite (batch_run env self _ _ _ _ _ Hrun) by apply Hfr.
  destruct (uncached_urls_of env target_urls w) as [|u unc]; [done|].
  cbv zeta. rewrite Hparse.
  set (w2 := log_api_call _ w1).
  destruct (update_results_run env api_links_data
              (parse_items_are_dicts env _ _ Hparse) res (u :: unc) w2)
    as (_ & _ & _ & _ & _ & Hraise).
  rewrite Hraise.
  2:{ rewrite <- Hfits. apply expiry_date_fits_same; apply Hfr. }
  destruct (expiry_date_run env w2) as (_ & Hlinks & _ & _ & _ & Hapi & _).
  cbn [fst snd]. split; [done|]. split.
  - rewrite Hapi. subst w2. simpl. f_equal. apply Hfr.
  - intros url entry. rewrite Hlinks. subst w2. simpl. apply Hsub.
Qed.

(** X26. An expiry date beyond the calendar hides a product: when the
    expiry date does not fit and the product is not in the cache,
    [fetch_product_details] stores the record that the vendor returns in
    the product cache and then returns [None], the [OverflowError] of the
    expiry date being caught. *)
Theorem fetch_returns_none_when_expiry_overflows product_id w body
    product_info :
  let r := fetch_product_details env self product_id w in
  let request :=
    mkRequest "aliexpress.affiliate.productdetail.get"
      [("fields", QUERY_FIELDS); ("product_ids", product_id);
       ("target_currency", target_currency self);
       ("target_language", target_language self);
       ("tracking_id", tracking_id self);
       ("country", query_country self)] in
  expiry_date_fits env w = false ->
  cache (product_cache w) !! product_id = None ->
  client_execute env (length (api_calls w)) request = Py.Ok body ->
  Py.truthy body = true ->
  product_info_of env self product_id body = Py.Ok product_info ->
  Py.truthy product_info = true ->
  fst r = Py.Ok Py.VNone
  /\ cache (product_cache (snd r)) !! product_id
     = Some (product_info, time_time env (clock_reads w)).
Proof.
  intros r request Hfits Hk Hbody Htruthy Hinfo Hrecord. subst r.
  assert (Hget : product_cache_get env product_id w = (Py.Ok None, w)).
  { unfold product_cache_get, cache_get. rewrite Hk. unfold ret.
    by destruct w. }
  assert (Hcall : _execute_api_call env self product_id w
                  = (Py.Ok (Some body), log_api_call request w)).
  { unfold _execute_api_call, try_except, bind, execute, ret.
    fold request. by rewrite Hbody. }
  unfold fetch_product_details.
  rewrite (bind_Ok _ _ _ _ _ Hget). cbn [Py.truthy_opt].
  rewrite (bind_Ok _ _ _ _ _ Hcall). rewrite Htruthy. cbn [negb].
  set (w1 := log_api_call request w).
  assert (Hfits1 : expiry_date_fits env (snd (product_cache_set env product_id
                                               product_info w1)) = false).
  { rewrite <- Hfits. by apply expiry_date_fits_same. }
  assert (Hset : product_cache_set env product_id product_info w1
                 = (Py.Ok tt, snd (product_cache_set env product_id
                                     product_info w1))) by done.
  unfold try_except.
  rewrite (bind_Ok _ _ w1 product_info w1) by (unfold lift; by rewrite Hinfo).
  rewrite Hrecord. cbn [negb].
  rewrite (bind_Ok _ _ _ _ _ Hset).
  set (w2 := snd (product_cache_set env product_id product_info w1)) in *.
  destruct (expiry_date_run env w2) as (_ & _ & _ & Hprod & _).
  unfold expiry_date_fits in Hfits1.
  destruct (expiry_date env w2) as [[d|e] w3] eqn:Hdate; [done|].
  rewrite (bind_Raise _ _ _ _ _ Hdate). unfold ret. cbn [fst snd] in *.
  split; [done|]. rewrite Hprod. subst w2 w1.
  unfold product_cache_set, cache_set, bind, time_now, ret, set. simpl.
  apply lookup_insert_eq.
Qed.

End Facts.
End OverflowFacts.

(** ** The URLs of a text *)

Module FindFacts.
Import URLProcessor UrlFacts EncodeFacts QueryFacts RoundTripFacts.
Import PatternFacts.
Import Re.

Section Matcher.
Context {R : Type}.
Implicit Types (k : string -> caps -> option R) (c : caps).

(** What a pattern consumes is made of characters of its classes. *)
Lemma rmatch_within q r : 
  classes_within q r ->
  forall s c k x,
    rmatch R r s c k = Some x ->
    exists u s' c',
      s = u +:+ s' /\ Str.forallb q u = true /\ k s' c' = Some x.
Proof.
  induction r as [|p|r1 IH1 r2 IH2|r1 IH1 r2 IH2|r1 IH1|n r1 IH1|r1 IH1];
    intros Hq s c k x; cbn [rmatch].
  - intros Hk. by exists "", s, c.
  - destruct s as [|a s]; [done|]. destruct (p a) eqn:Ha; [|done].
    intros Hk. exists (String a ""), s, c. simpl in Hq.
    cbn [Str.forallb]. by rewrite (Hq a Ha).
  - destruct Hq as [Hq1 Hq2]. intros Hm.
    apply (IH1 Hq1) in Hm as (u1 & s1 & c1 & -> & Hu1 & Hm).
    apply (IH2 Hq2) in Hm as (u2 & s2 & c2 & -> & Hu2 & Hm).
    exists (u1 +:+ u2), s2, c2. rewrite append_assoc, forallb_append, Hu1, Hu2.
    done.
  - destruct Hq as [Hq1 Hq2].
    destruct (rmatch R r1 s c k) as [y|] eqn:H1.
    + intros [= <-]. by apply (IH1 Hq1) in H1.
    + intros Hm. by apply (IH2 Hq2) in Hm.
  - simpl in Hq. generalize (String.length s) as fuel. intros fuel.
    revert s c. induction fuel as [|fuel IHf]; intros s c.
    + simpl. intros Hk. by exists "", s, c.
    + rewrite ReFacts.iterate_S.
      destruct (rmatch R r1 s c _) as [y|] eqn:H1.
      * intros [= <-]. apply (IH1 Hq) in H1 as (u1 & s1 & c1 & -> & Hu1 & Hm).
        destruct (_ <? _)%nat; [|done].
        apply IHf in Hm as (u2 & s2 & c2 & -> & Hu2 & Hm).
        exists (u1 +:+ u2), s2, c2.
        rewrite append_assoc, forallb_append, Hu1, Hu2. done.
      * intros Hk. by exists "", s, c.
  - simpl in Hq. intros Hm.
    apply (IH1 Hq) in Hm as (u1 & s1 & c1 & -> & Hu1 & Hm). eauto 10.
  - destruct (rmatch unit r1 s c _); [done|]. intros Hk. by exists "", s, c.
Qed.

End Matcher.

(** With nothing behind it, a greedy run of a class takes all the
    characters of the class. *)
Lemma iterate_chr_greedy p : forall s fuel c,
  (String.length s <= fuel)%nat ->
  iterate (rmatch _ (Chr p)) (fun s' c' => Some (c', s')) fuel s c
  = Some (c, snd (Str.span p s)).
Proof.
  induction s as [|a s IH]; intros fuel c Hfuel.
  - destruct fuel; [done|]. by rewrite ReFacts.iterate_S.
  - destruct fuel as [|fuel]; [simpl in Hfuel; lia|].
    rewrite ReFacts.iterate_S, ReFacts.rmatch_Chr. cbn [Str.span].
    destruct (p a); [|done].
    assert (Hlt : (String.length s <? String.length (String a s))%nat = true)
      by (apply Nat.ltb_lt; simpl; lia).
    rewrite Hlt, IH by (simpl in Hfuel; lia). done.
Qed.

Lemma span_append_fst p s : s = fst (Str.span p s) +:+ snd (Str.span p s).
Proof.
  induction s as [|a s IH]; [done|]. cbn [Str.span].
  destruct (p a); [|done]. cbn [fst snd]. by rewrite append_cons, <- IH.
Qed.

Lemma span_snd_stops p s :
  match snd (Str.span p s) with
  | String a _ => p a = false
  | EmptyString => True
  end.
Proof.
  induction s as [|a s IH]; [done|]. cbn [Str.span].
  destruct (p a) eqn:Ha; [done|]. done.
Qed.


Lemma url_char_lower a : url_char (Str.lower_char a) = url_char a.
Proof. destruct a as [[] [] [] [] [] [] [] []]; by vm_compute. Qed.

Lemma lit_within t :
  Str.forallb url_char t = true -> classes_within url_char (lit t).
Proof.
  induction t as [|c t IH]; [done|]. cbn [Str.forallb lit classes_within].
  intros [Hc Ht]%andb_prop. split; [|by apply IH].
  unfold chr. cbn [classes_within]. by intros a ->%Ascii.eqb_eq.
Qed.

Lemma lit_i_within t :
  Str.forallb url_char t = true -> classes_within url_char (lit_i t).
Proof.
  induction t as [|c t IH]; [done|]. cbn [Str.forallb lit_i classes_within].
  intros [Hc Ht]%andb_prop. split; [|by apply IH].
  unfold chr_i. cbn [classes_within]. intros a Ha%Ascii.eqb_eq.
  by rewrite <- url_char_lower, Ha, url_char_lower.
Qed.

Lemma alts_within q l :
  Forall (classes_within q) l -> classes_within q (alts l).
Proof.
  induction 1 as [|r l Hr Hl IH]; [done|].
  destruct l as [|r' l]; [done|]. cbn [alts classes_within]. by split.
Qed.

Lemma word_or_dash_within : classes_within url_char word_or_dash.
Proof.
  unfold word_or_dash. cbn [classes_within].
  intros a. destruct a as [[] [] [] [] [] [] [] []]; by vm_compute.
Qed.

Lemma rmatch_Star {R} r s c (k : string -> caps -> option R) :
  rmatch R (Star r) s c k = iterate (rmatch R r) k (String.length s) s c.
Proof. reflexivity. Qed.

(** A run of the class behind which the pattern ends. *)
Lemma star_url_char s c m :
  rmatch _ (Star (Chr url_char)) s c (fun s' c' => Some (c', s')) = Some m ->
  m = (c, snd (Str.span url_char s)).
Proof.
  rewrite rmatch_Star, iterate_chr_greedy by done. by intros [= <-].
Qed.

(** A match of [URL_REGEX]: a non-empty text of the class that ends where
    the text ends or where a character outside the class stands. *)
Lemma url_regex_sound after_word text c rest :
  match_ (URL_REGEX after_word) text = Some (c, rest) ->
  exists u,
    text = u +:+ rest /\ u <> "" /\ Str.forallb url_char u = true
    /\ match rest with
       | String a _ => url_char a = false
       | EmptyString => True
       end.
Proof.
  assert (Hplus : forall (prefix : re) s c0 m,
            classes_within url_char prefix ->
            rmatch _ prefix s c0
              (fun s1 c1 => rmatch _ (Cat (Chr url_char) (Star (Chr url_char)))
                              s1 c1 (fun s' c' => Some (c', s'))) = Some m ->
            exists u,
              s = u +:+ snd m /\ u <> "" /\ Str.forallb url_char u = true
              /\ match snd m with
                 | String a _ => url_char a = false
                 | EmptyString => True
                 end).
  { intros prefix s c0 m Hq Hm.
    apply (rmatch_within _ _ Hq) in Hm as (u1 & s1 & c1 & -> & Hu1 & Hm).
    rewrite rmatch_Cat, ReFacts.rmatch_Chr in Hm.
    destruct s1 as [|a s1]; [done|]. destruct (url_char a) eqn:Ha; [|done].
    apply star_url_char in Hm as ->. cbn [snd].
    exists (u1 +:+ String a (fst (Str.span url_char s1))).
    split; [|split; [|split]].
    - rewrite append_assoc, append_cons. by rewrite <- span_append_fst.
    - by destruct u1.
    - rewrite forallb_append, Hu1. cbn [Str.forallb].
      by rewrite Ha, forallb_span_fst.
    - apply span_snd_stops. }
  unfold match_, URL_REGEX. cbn [rmatch].
  destruct (rmatch _ url_with_scheme text [] _) as [m|] eqn:H1.
  { intros [= ->].
    apply (Hplus (Cat (lit_i "http") (Cat (Opt (chr_i "s")) (lit "://")))) in H1.
    - done.
    - cbn [classes_within]. split; [by apply lit_i_within|].
      split; [split; [|done]|by apply lit_within].
      apply (lit_i_within "s"). done. }
  destruct (rmatch _ url_with_www text [] _) as [m|] eqn:H2.
  { intros [= ->].
    apply (Hplus (lit_i "www.")) in H2; [done|by apply lit_i_within]. }
  destruct after_word; [done|].
  intros H3.
  assert (H3' :
    rmatch _ (Cat (Opt (Alt (lit_i "s.click.") (lit_i "a.")))
                (Cat (lit_i "aliexpress.")
                   (Cat (alts (List.map lit_i url_tlds))
                        (Opt (Cat (chr ".") (Plus word_or_dash))))))
      text []
      (fun s1 c1 => rmatch _ (Cat (chr "/") (Star (Chr url_char))) s1 c1
                      (fun s' c' => Some (c', s')))
    = Some (c, rest)) by exact H3.
  clear H3.
  apply rmatch_within with (q := url_char) in H3'
    as (u & s1 & c1 & -> & Hu & Hm).
  - rewrite rmatch_Cat in Hm. unfold chr in Hm.
    rewrite ReFacts.rmatch_Chr in Hm.
    destruct s1 as [|a s1]; [done|].
    destruct (Ascii.eqb_spec "/" a) as [<-|]; [|done].
    apply star_url_char in Hm. injection Hm as -> ->.
    exists (u +:+ String "/" (fst (Str.span url_char s1))).
    split; [|split; [|split]].
    + rewrite append_assoc, append_cons. by rewrite <- span_append_fst.
    + by destruct u.
    + rewrite forallb_append, Hu. cbn [Str.forallb].
      by rewrite forallb_span_fst.
    + apply span_snd_stops.
  - cbn [classes_within Opt Plus].
    split_and!; try done; try (by apply lit_i_within);
      try apply word_or_dash_within.
    + apply alts_within. apply Forall_map. apply Forall_forall.
      intros t Ht. apply lit_i_within. revert t Ht. apply Forall_forall.
      unfold url_tlds. repeat constructor.
    + unfold chr. cbn [classes_within]. by intros a <-%Ascii.eqb_eq.
Qed.

(** X20. The URLs found in a text: each URL that
    [extract_potential_aliexpress_urls] returns is a non-empty piece of the
    text, made of characters other than white space, angle brackets and
    the double quote, and it extends to the end of the text or to such a
    character (so that punctuation that follows a URL is part of it). *)
Theorem extract_potential_aliexpress_urls_pieces text url :
  url ∈ extract_potential_aliexpress_urls text ->
  url <> ""
  /\ Str.forallb url_char url = true
  /\ exists before after,
       text = before +:+ url +:+ after
       /\ match after with
          | String a _ => url_char a = false
          | EmptyString => True
          end.
Proof.
  unfold extract_potential_aliexpress_urls.
  set (after_word := false) at 1. set (skip := 0%nat).
  clearbody after_word skip. revert skip after_word.
  induction text as [|a text IH]; intros skip after_word; cbn [findall_from].
  - by intros ?%elem_of_nil.
  - assert (Hrec : forall skip' after_word',
              url ∈ findall_from text after_word' skip' ->
              url <> "" /\ Str.forallb url_char url = true
              /\ exists before after,
                   String a text = before +:+ url +:+ after
                   /\ match after with
                      | String b _ => url_char b = false
                      | EmptyString => True
                      end).
    { intros skip' after_word' Hin.
      destruct (IH _ _ Hin) as (Hne & Hu & before & after & -> & Hafter).
      split; [done|]. split; [done|].
      exists (String a before), after.
      split; [by rewrite append_cons|exact Hafter]. }
    destruct skip as [|k]; [|by apply Hrec].
    destruct (match_ (URL_REGEX after_word) (String a text))
      as [[c rest]|] eqn:Hm; [|by apply Hrec].
    intros [->|Hin]%elem_of_cons; [|by apply Hrec in Hin].
    apply url_regex_sound in Hm as (u & Htext & Hne & Hu & Hrest).
    rewrite Htext, ReFacts.take_consumed.
    split; [done|]. split; [done|]. by exists "", rest.
Qed.

End FindFacts.

(** ** The batch generation and the link cache *)

Module BatchCacheFacts.
Import CacheManager World AliExpressClient TaskFacts ClientFacts ClientNotions.

Section Facts.
Context (env : Env) (self : Config).

Lemma agrees_get res c now url :
  agrees res c ->
  agrees (if Py.truthy_opt (fst (get now url c))
          then <[url := default Py.VNone (fst (get now url c))]> res
          else <[url := Py.VNone]> res)
         (snd (get now url c)).
Proof.
  intros Hagree u v.
  assert (Hother : u <> url -> res !! u = Some v ->
            (Py.truthy v = true ->
             exists t, cache (snd (get now url c)) !! u = Some (v, t))
            /\ (forall v' t, cache (snd (get now url c)) !! u = Some (v', t) ->
                  Py.truthy v' = true -> v' = v)).
  { intros Hne Hu.
    destruct (CacheFacts.get_cache_lookup now url c u) as [->|[? _]]; [|done].
    by apply Hagree. }
  unfold get in *.
  destruct (cache c !! url) as [[item ts]|] eqn:Hk.
  - destruct (now - ts <? expiry_seconds c) eqn:Hfresh; cbn [fst snd] in *.
    + cbn [Py.truthy_opt default]. destruct (Py.truthy item) eqn:Hitem.
      * destruct (decide (u = url)) as [->|Hne].
        -- rewrite lookup_insert_eq. intros [= <-]. split; [eauto|].
           intros v' t. rewrite Hk. by intros [= -> ->].
        -- rewrite lookup_insert_ne by done. by apply Hother.
      * destruct (decide (u = url)) as [->|Hne].
        -- rewrite lookup_insert_eq. intros [= <-]. split; [done|].
           intros v' t. rewrite Hk. intros [= -> ->]. congruence.
        -- rewrite lookup_insert_ne by done. by apply Hother.
    + cbn [Py.truthy_opt]. destruct (decide (u = url)) as [->|Hne].
      * rewrite lookup_insert_eq. intros [= <-]. split; [done|].
        intros v' t. simpl. by rewrite lookup_delete_eq.
      * rewrite lookup_insert_ne by done. by apply Hother.
  - cbn [fst snd Py.truthy_opt] in *. destruct (decide (u = url)) as [->|Hne].
    + rewrite lookup_insert_eq. intros [= <-]. split; [done|].
      intros v' t. by rewrite Hk.
    + rewrite lookup_insert_ne by done. by apply Hother.
Qed.

Lemma agrees_set res c now key v :
  agrees res c -> agrees (<[key := v]> res) (set now key v c).
Proof.
  intros Hagree u v0. unfold set. simpl.
  destruct (decide (u = key)) as [->|Hne].
  - rewrite !lookup_insert_eq. intros [= <-]. split; [eauto|].
    by intros v' t [= -> ->].
  - rewrite !lookup_insert_ne by done. apply Hagree.
Qed.

Lemma check_loop_agrees urls : forall acc w,
  agrees (fst acc) (link_cache w) ->
  match for_each (check_cache_step env) urls acc w with
  | (Py.Ok acc', w') => agrees (fst acc') (link_cache w')
  | (Py.Raise _, _) => True
  end.
Proof.
  induction urls as [|url urls IH]; intros acc w Hagree; [done|].
  destruct (check_cache_step_run env acc url w)
    as (now & w1 & Hstep & Hc1 & _ & _).
  cbn [for_each]. rewrite (bind_Ok _ _ _ _ _ Hstep).
  apply IH. rewrite Hc1.
  pose proof (agrees_get (fst acc) (link_cache w) now url Hagree) as Hget.
  by destruct (Py.truthy_opt _).
Qed.

Lemma update_loop_agrees api_links_data :
  Forall (fun link_info => Py.is_dict link_info = true) api_links_data ->
  forall res w,
  agrees res (link_cache w) ->
  match for_each (update_step env) api_links_data res w with
  | (Py.Ok res', w') => agrees res' (link_cache w')
  | (Py.Raise _, _) => True
  end.
Proof.
  induction 1 as [|link_info l Hdict Hl IH]; intros res w Hagree; [done|].
  cbn [for_each]. unfold bind.
  destruct (update_step_run env res link_info w Hdict)
    as [[_ ->] | [(_ & _ & ->) | [(_ & _ & _ & ->)
        | (_ & key & w1 & _ & _ & -> & Hset & _)]]]; try done;
    try by apply IH.
  apply IH. rewrite Hset. by apply agrees_set.
Qed.

Lemma update_results_agrees api_links_data :
  Forall (fun link_info => Py.is_dict link_info = true) api_links_data ->
  forall res unc w,
  agrees res (link_cache w) ->
  match _update_results_and_cache env res unc api_links_data w with
  | (Py.Ok res', w') => agrees res' (link_cache w')
  | (Py.Raise _, _) => True
  end.
Proof.
  intros Hdicts res unc w Hagree. unfold _update_results_and_cache, bind.
  destruct (expiry_date_run env w) as (_ & Hlinks & _).
  destruct (expiry_date env w) as [[d|e] w1]; [|done]. simpl in Hlinks.
  apply update_loop_agrees; [done|]. by rewrite Hlinks.
Qed.

(** When every URL has a usable link that stays fresh, the cache check
    files the stored links and changes nothing. *)
Lemma check_loop_all_cached_values urls : forall acc w,
  (forall u, u ∈ urls -> link_cached env w (length urls) u) ->
  exists res w',
    for_each (check_cache_step env) urls acc w = (Py.Ok (res, snd acc), w')
    /\ link_cache w' = link_cache w
    /\ api_calls w' = api_calls w
    /\ dom res = dom (fst acc) ∪ list_to_set urls
    /\ (forall u v, res !! u = Some v ->
          fst acc !! u = Some v
          \/ (Py.truthy v = true
              /\ exists t, cache (link_cache w) !! u = Some (v, t))).
Proof.
  induction urls as [|url urls IH]; intros acc w Hall.
  - exists (fst acc), w. simpl. unfold ret. destruct acc.
    split_and!; try done; [set_solver|eauto].
  - destruct (Hall url) as (v & t & Hk & Htruthy & Hfresh); [by left|].
    destruct (check_cache_step_run env acc url w)
      as (now & w1 & Hstep & Hc1 & Hnow & Hfr1).
    destruct Hnow as [-> Hreads]; [by eauto|].
    rewrite (CacheFacts.get_fresh _ _ _ _ _ Hk) in *
      by (apply Hfresh; simpl; lia).
    simpl in Hstep, Hc1. rewrite Htruthy in Hstep.
    simpl for_each. rewrite (bind_Ok _ _ _ _ _ Hstep).
    destruct (IH (<[url := v]> (fst acc), snd acc) w1)
      as (res & w' & Hrun & Hc & Ha & Hdom & Hval).
    { intros u Hu. destruct (Hall u) as (v' & t' & ? & ? & Hf); [by right|].
      exists v', t'. rewrite Hc1. split; [done|]. split; [done|].
      intros i Hi. apply Hf. simpl. lia. }
    exists res, w'. split; [done|]. split; [congruence|].
    split; [destruct Hfr1 as (_ & _ & ? & _); congruence|]. split.
    + rewrite Hdom. simpl. rewrite dom_insert_L. set_solver.
    + intros u v' Hu. destruct (Hval u v' Hu) as [Hacc|[Ht (t' & Ht')]].
      * simpl in Hacc. destruct (decide (u = url)) as [->|Hne].
        -- rewrite lookup_insert_eq in Hacc. injection Hacc as <-. eauto.
        -- rewrite lookup_insert_ne in Hacc by done. by left.
      * right. split; [done|]. exists t'. by rewrite <- Hc1.
Qed.

(** X21. Links returned are links cached: when the batch generation
    returns, every link with a true truth value in its result is stored in
    the link cache under its URL; and a second call for the same URLs,
    while these links are fresh, issues no call to the vendor and returns
    the same dict. *)
Theorem batch_links_are_served_again target_urls w results_dict :
  let first := generate_affiliate_links_batch env self target_urls w in
  fst first = Py.Ok results_dict ->
  (forall url v,
      results_dict !! url = Some v -> Py.truthy v = true ->
      exists t, cache (link_cache (snd first)) !! url = Some (v, t))
  /\ ((forall url, url ∈ target_urls ->
         link_cached env (snd first) (length target_urls) url) ->
      let second :=
        generate_affiliate_links_batch env self target_urls (snd first) in
      fst second = Py.Ok results_dict
      /\ api_calls (snd second) = api_calls (snd first)).
Proof.
  intros first Hfirst.
  assert (Hagree : agrees results_dict (link_cache (snd first))
                   /\ dom results_dict = list_to_set target_urls).
  { subst first. revert Hfirst.
    destruct (check_cache_run env target_urls w)
      as (res & w1 & Hrun & Hfr & _ & _ & Hdom & _ & _).
    pose proof (check_loop_agrees target_urls (∅, []) w) as Hcheck.
    unfold _check_cache_for_links in Hrun. rewrite Hrun in Hcheck.
    cbn [fst] in Hcheck.
    assert (Hres : agrees res (link_cache w1)).
    { apply Hcheck. intros u v Hu. by rewrite lookup_empty in Hu. }
    rewrite (batch_run env self _ _ _ _ _ Hrun) by apply Hfr.
    destruct (uncached_urls_of env target_urls w) as [|u unc] eqn:Hunc.
    { simpl. by intros [= <-]. }
    cbv zeta.
    destruct (_parse_api_promotion_response env _) as [pairs|e] eqn:Hparse;
      [|done].
    pose proof (parse_items_are_dicts env _ _ Hparse) as Hdicts.
    pose proof (update_results_agrees pairs Hdicts res (u :: unc)
                  (log_api_call (batch_request self
                     (_prepare_api_source_values (u :: unc))) w1) Hres)
      as Hupd.
    destruct (update_results_run env pairs Hdicts res (u :: unc)
                (log_api_call (batch_request self
                   (_prepare_api_source_values (u :: unc))) w1))
      as (_ & _ & _ & Hdom' & _).
    destruct (_update_results_and_cache env res (u :: unc) pairs _)
      as [[res'|e] w']; [|done].
    simpl. intros [= <-]. split; [done|].
    destruct (Hdom' res' eq_refl) as [-> _]. done. }
  destruct Hagree as [Hagree Hdom].
  split; [intros url v Hu Hv; by apply (Hagree url v Hu)|].
  intros Hall second. subst second.
  destruct (check_loop_all_cached_values target_urls (∅, []) (snd first) Hall)
    as (res2 & w2 & Hrun2 & Hc2 & Ha2 & Hdom2 & Hval2).
  cbn [fst snd] in *.
  rewrite (batch_run env self _ _ _ _ _ Hrun2 Ha2). cbn [fst snd].
  split; [|done]. f_equal. apply map_eq. intros u.
  destruct (res2 !! u) as [v2|] eqn:H2.
  - destruct (Hval2 u v2 H2) as [Hempty|[Hv2 (t & Ht)]];
      [by rewrite lookup_empty in Hempty|].
    assert (Hin : u ∈ dom results_dict).
    { assert (Hu : u ∈ dom res2) by (apply elem_of_dom; eauto).
      rewrite Hdom. rewrite Hdom2, dom_empty_L in Hu. set_solver. }
    apply elem_of_dom in Hin as [v1 H1]. rewrite H1. f_equal.
    by apply (proj2 (Hagree u v1 H1) v2 t).
  - apply not_elem_of_dom in H2. symmetry. apply not_elem_of_dom.
    rewrite Hdom. rewrite Hdom2, dom_empty_L in H2. set_solver.
Qed.

End Facts.
End BatchCacheFacts.

(** ** The links of the vendor's reply *)

Module BatchLinkFacts.
Import CacheManager World AliExpressClient TaskFacts ClientFacts.
Import UrlFacts EncodeFacts.

Lemma foldl_snoc {A} (l : list A) : forall acc,
  foldl (fun acc x => acc ++ [x]) acc l = acc ++ l.
Proof.
  induction l as [|x l IH]; intros acc; simpl.
  - by rewrite app_nil_r.
  - by rewrite IH, <- app_assoc.
Qed.

(** X22. The source values of a request read back as the uncached URLs:
    [_prepare_api_source_values] joins the URLs with commas, in order, so
    that splitting its result at the commas gives the URLs again when no
    URL holds a comma. *)
Theorem source_values_split_back uncached_urls :
  uncached_urls <> [] ->
  Forall (fun url => Str.has_char "," url = false) uncached_urls ->
  Str.split "," (_prepare_api_source_values uncached_urls) = uncached_urls.
Proof.
  intros Hne Hurls. unfold _prepare_api_source_values.
  rewrite foldl_snoc, app_nil_l. by apply split_concat.
Qed.

Section Facts.
Context (env : Env) (self : Config).

(** The vendor's link for a URL of the dict reaches the dict: after the
    merge, a URL of the dict for which the list holds a complete pair is
    mapped to the link of such a pair. *)
Lemma update_loop_reaches api_links_data :
  Forall (fun link_info => Py.is_dict link_info = true) api_links_data ->
  forall res w res' link_info url,
    fst (for_each (update_step env) api_links_data res w) = Py.Ok res' ->
    link_info ∈ api_links_data ->
    complete_pair link_info = true ->
    field "source_value" link_info = Py.VStr url ->
    is_Some (res !! url) ->
    exists v, res' !! url = Some v /\ from_vendor api_links_data url v.
Proof.
  induction 1 as [|x l Hx Hl IH]; intros res w res' link_info url Hrun Hin Hc Hsrc Hurl.
  - by apply elem_of_nil in Hin.
  - cbn [for_each] in Hrun. unfold bind in Hrun.
    assert (Hweak : forall u v, from_vendor l u v -> from_vendor (x :: l) u v).
    { intros u v (li & Hli & ?). exists li. split; [by right|done]. }
    destruct (update_step_run env res x w Hx)
      as [[Hcx Hstep] | [(Hcx & Hh & Hstep) | [(Hcx & Hh & Hno & Hstep)
          | (Hcx & key & w1 & Hkey & Hsome & Hstep & Hset & _)]]];
      rewrite Hstep in Hrun; try done.
    + apply elem_of_cons in Hin as [->|Hin]; [congruence|].
      destruct (IH res w res' link_info url Hrun Hin Hc Hsrc Hurl)
        as (v & Hv & Hfrom). eauto.
    + apply elem_of_cons in Hin as [->|Hin].
      { rewrite (Hno url Hsrc) in Hurl. by destruct Hurl. }
      destruct (IH res w res' link_info url Hrun Hin Hc Hsrc Hurl)
        as (v & Hv & Hfrom). eauto.
    + destruct (update_loop_run env l Hl
                  (<[key := field "promotion_link" x]> res) w1)
        as (_ & _ & _ & Hres & _).
      destruct (Hres res' Hrun) as [Hdom Hval].
      apply elem_of_cons in Hin as [->|Hin].
      * rewrite Hsrc in Hkey. injection Hkey as <-.
        assert (Hin' : url ∈ dom res').
        { rewrite Hdom, dom_insert_L. set_solver. }
        apply elem_of_dom in Hin' as [v Hv]. exists v. split; [done|].
        destruct (Hval url v Hv) as [Hold|Hnew]; [|by apply Hweak].
        rewrite lookup_insert_eq in Hold. injection Hold as <-.
        destruct (complete_pair_from_vendor x url Hc Hsrc) as [? ?].
        exists x. split; [by left|done].
      * destruct (IH (<[key := field "promotion_link" x]> res) w1 res'
                    link_info url Hrun Hin Hc Hsrc) as (v & Hv & Hfrom).
        { destruct (decide (url = key)) as [->|Hne].
          - rewrite lookup_insert_eq. eauto.
          - by rewrite lookup_insert_ne. }
        eauto.
Qed.

(** X23. A link that the vendor returns is a link that the caller gets:
    when the batch generation returns and the reply to its call holds a
    complete pair (a non-empty source value and a non-empty promotion
    link) whose source value is an input URL, the result maps this URL to
    the promotion link of such a pair of the reply. *)
Theorem batch_returns_vendor_links target_urls w results_dict
    api_links_data link_info url :
  fst (generate_affiliate_links_batch env self target_urls w)
  = Py.Ok results_dict ->
  uncached_urls_of env target_urls w <> [] ->
  _parse_api_promotion_response env
    (batch_reply env self (uncached_urls_of env target_urls w) w)
  = Py.Ok api_links_data ->
  link_info ∈ api_links_data ->
  complete_pair link_info = true ->
  field "source_value" link_info = Py.VStr url ->
  url ∈ target_urls ->
  exists v, results_dict !! url = Some v /\ from_vendor api_links_data url v.
Proof.
  intros Hrun Hunc Hparse Hin Hc Hsrc Hurl. revert Hrun.
  destruct (check_cache_run env target_urls w)
    as (res & w1 & Hcheck & Hfr & _ & _ & Hdom & _ & _).
  rewrite (batch_run env self _ _ _ _ _ Hcheck) by apply Hfr.
  destruct (uncached_urls_of env target_urls w) as [|u unc]; [done|].
  cbv zeta. rewrite Hparse. unfold _update_results_and_cache, bind.
  destruct (expiry_date env _) as [[d|e] w2]; [|done]. intros Hrun.
  apply (update_loop_reaches api_links_data
           (parse_items_are_dicts env _ _ Hparse) res _ results_dict
           link_info url Hrun Hin Hc Hsrc).
  apply elem_of_dom. rewrite Hdom. set_solver.
Qed.

End Facts.
End BatchLinkFacts.

(** ** The properties on sample data *)

Module Examples.
Import CacheManager World AliExpressClient UrlLib URLProcessor.
Import Offers Constants TelegramBot Samples.

Lemma get_after_set_other_witness :
  fst (get 120 "new" (set 100 "k" "v" two_entries))
  = fst (get 120 "new" two_entries).
Proof.
  apply (CacheUseFacts.get_after_set_other "k" "new" "v" 100 120 two_entries).
  discriminate.
Defined.

Lemma get_miss_is_final_witness :
  fst (get 150 "old" two_entries) = None
  /\ get 10 "old" (snd (get 150 "old" two_entries))
     = (None, snd (get 150 "old" two_entries)).
Proof.
  assert (Hstale : forall item timestamp,
            cache two_entries !! "old" = Some (item, timestamp) ->
            expiry_seconds two_entries <= 150 - timestamp).
  { intros item timestamp Hk. vm_compute in Hk. injection Hk as _ <-.
    by vm_compute. }
  destruct (CacheUseFacts.get_miss_is_final 150 "old" two_entries Hstale)
    as (Hnone & _ & Hlater).
  split; [exact Hnone | exact (Hlater 10)].
Defined.

Lemma clear_expired_is_invisible_witness :
  fst (get 120 "new" (snd (clear_expired 100 two_entries)))
  = fst (get 120 "new" two_entries).
Proof.
  apply (CacheUseFacts.clear_expired_is_invisible 100 120 "new" two_entries).
  lia.
Defined.

Lemma static_offer_parameters_read_back_witness :
  exists raw_url p',
    build_urls
      (StaticOffer "super"
         [("sourceType", "562"); ("channel", "sd"); ("afSmartRedirect", "y")])
      "https://www.aliexpress.com/item/1.html" "1"
    = [_wrap_url_with_star_aliexpress raw_url]
    /\ urlparse (env_with Py.VNone) raw_url = Py.Ok p'
    /\ scheme p' = "https"
    /\ netloc p' = "www.aliexpress.com"
    /\ path p' = "/item/1.html"
    /\ parse_qsl (query p')
       = [("sourceType", "562"); ("channel", "sd"); ("afSmartRedirect", "y")].
Proof.
  apply (OfferFacts.static_offer_parameters_read_back (env_with Py.VNone)
           "super"
           [("sourceType", "562"); ("channel", "sd"); ("afSmartRedirect", "y")]
           "https://www.aliexpress.com/item/1.html" "1"
           (mkParse "https" "www.aliexpress.com" "/item/1.html" "" "" "")).
  - vm_compute. reflexivity.
  - vm_compute. reflexivity.
  - vm_compute. reflexivity.
  - repeat constructor.
Defined.

Lemma extract_product_id_of_offer_url_witness :
  exists url,
    build_urls BundlesOfferSSR "https://www.aliexpress.com/item/1.html" "1005006234567"
    = [url]
    /\ extract_product_id (env_with Py.VNone) url = Py.Ok (Some "1005006234567").
Proof.
  apply (OfferFacts.extract_product_id_of_offer_url (env_with Py.VNone)
           BundlesOfferSSR).
  - right. reflexivity.
  - vm_compute. reflexivity.
Defined.

Lemma extract_product_id_after_clean_witness :
  extract_product_id (env_with Py.VNone)
    "https://www.aliexpress.us/item/1005006234567.html"
  = Py.Ok (Some "1005006234567").
Proof.
  apply (RoundTripFacts.extract_product_id_after_clean (env_with Py.VNone)
           "HTTPS://www.aliexpress.us/item/33.html?x=1#f" "1005006234567").
  - vm_compute. reflexivity.
  - vm_compute. reflexivity.
  - vm_compute. reflexivity.
Defined.

Lemma short_link_is_not_standard_witness :
  Re.match_ STANDARD_ALIEXPRESS_DOMAIN_REGEX short_url = None.
Proof.
  apply (PatternFacts.short_link_is_not_standard short_url).
  vm_compute. eexists. reflexivity.
Defined.

Lemma extract_potential_aliexpress_urls_pieces_witness :
  "www.x.com," <> ""
  /\ Str.forallb url_char "www.x.com," = true
  /\ exists before after,
       "see www.x.com, now" = before +:+ "www.x.com," +:+ after
       /\ match after with
          | String a _ => url_char a = false
          | EmptyString => True
          end.
Proof.
  apply (FindFacts.extract_potential_aliexpress_urls_pieces
           "see www.x.com, now" "www.x.com,").
  vm_compute. apply list_elem_of_here.
Defined.

Lemma batch_links_are_served_again_witness :
  exists t,
    cache (link_cache
             (snd (generate_affiliate_links_batch
                     (env_with (link_body [pair_for url_b link_new])) config
                     [url_a; url_b] w_cached))) !! url_b
    = Some (Py.VStr link_new, t).
Proof.
  assert (Hrun :
    fst (generate_affiliate_links_batch
           (env_with (link_body [pair_for url_b link_new])) config
           [url_a; url_b] w_cached)
    = Py.Ok (<[url_b := Py.VStr link_new]>
               (<[url_a := Py.VStr link_old]> ∅)))
    by (vm_compute; reflexivity).
  apply (proj1 (BatchCacheFacts.batch_links_are_served_again _ _ _ _ _ Hrun)
           url_b (Py.VStr link_new)).
  - vm_compute. reflexivity.
  - reflexivity.
Defined.

Lemma source_values_split_back_witness :
  Str.split "," (_prepare_api_source_values [url_a; url_b]) = [url_a; url_b].
Proof.
  apply (BatchLinkFacts.source_values_split_back [url_a; url_b]).
  - discriminate.
  - repeat constructor.
Defined.

Lemma batch_returns_vendor_links_witness :
  exists v,
    (<[url_b := Py.VStr link_new]> (<[url_a := Py.VStr link_old]> ∅)
       : gmap string Py.value) !! url_b = Some v
    /\ from_vendor [pair_for url_b link_new] url_b v.
Proof.
  apply (BatchLinkFacts.batch_returns_vendor_links
           (env_with (link_body [pair_for url_b link_new])) config
           [url_a; url_b] w_cached _ _ (pair_for url_b link_new) url_b).
  - vm_compute. reflexivity.
  - vm_compute. discriminate.
  - vm_compute. reflexivity.
  - apply list_elem_of_here.
  - reflexivity.
  - reflexivity.
  - apply list_elem_of_further, list_elem_of_here.
Defined.

Lemma batch_raises_when_expiry_overflows_witness :
  fst (generate_affiliate_links_batch
         (env_with (link_body [pair_for url_a link_new])) config [url_a] w_long)
  = Py.Raise Py.OverflowError.
Proof.
  pose proof (OverflowFacts.batch_raises_when_expiry_overflows
                (env_with (link_body [pair_for url_a link_new])) config
                [url_a] w_long [pair_for url_a link_new]) as Hraise.
  cbv zeta in Hraise. apply Hraise.
  - by vm_compute.
  - by vm_compute.
  - by vm_compute.
Defined.

Lemma fetch_returns_none_when_expiry_overflows_witness :
  let r := fetch_product_details (env_with product_body) config
             "1005006234567" w_long in
  fst r = Py.Ok Py.VNone
  /\ cache (product_cache (snd r)) !! "1005006234567"
     = Some (Py.VDict [("image_url", Py.VNone); ("price", Py.VStr "9.99");
                       ("currency", Py.VStr "USD");
                       ("title", Py.VStr "Lamp")], 100).
Proof.
  pose proof (OverflowFacts.fetch_returns_none_when_expiry_overflows
                (env_with product_body) config "1005006234567" w_long
                product_body
                (Py.VDict [("image_url", Py.VNone); ("price", Py.VStr "9.99");
                           ("currency", Py.VStr "USD");
                           ("title", Py.VStr "Lamp")])) as Hnone.
  cbv zeta in Hnone. apply Hnone.
  - by vm_compute.
  - by vm_compute.
  - reflexivity.
  - reflexivity.
  - by vm_compute.
  - reflexivity.
Defined.

End Examples.
